(** * WisprMCP: the query and aggregation layer, embedded and verified

    A shallow embedding of the parts of WisprMCP that decide the behaviour
    of its two surfaces (command line and JSON-RPC tool server):

    - [wispr_mcp/core/transcript.py]   the entry record and its derived fields
    - [wispr_mcp/core/parser.py]       the SQLite access layer
    - [wispr_mcp/cli/commands/show.py], [wispr_mcp/mcp/tools.py]
                                       look-up of one record by id or prefix
    - [wispr_mcp/utils/date_parser.py] relative and absolute dates
    - [wispr_mcp/cli/commands/collect.py] the daily word collection
    - [wispr_mcp/mcp/server.py]        the JSON-RPC dispatch loop

    Conventions.  Python [str] is modelled by [string] (one-byte characters;
    characters outside ASCII are carried along unchanged and never change
    case).  [Optional[T]] is [option T].  Python [int] is [Z].  The REAL
    columns of the store (duration, latency, confidence) are modelled by
    rationals [Q]: no modelled operation rounds them except sums and means,
    which are taken exactly.  A raised exception is an explicit [Raise]
    result.  The SQLite table is the list of its rows in rowid order. *)

From Stdlib Require Import List String Ascii ZArith QArith Bool Lia Arith.
From Stdlib Require Import Permutation Sorted.
Import ListNotations.

Local Open Scope string_scope.
Local Open Scope Z_scope.

(** ** Python strings *)

Module PyStr.

(** Python truthiness of an [Optional[str]]: neither [None] nor empty. *)
Definition truthy (o : option string) : bool :=
  match o with
  | Some (String _ _) => true
  | _ => false
  end.

Definition is_upper (c : ascii) : bool :=
  let n := nat_of_ascii c in (65 <=? n)%nat && (n <=? 90)%nat.

Definition lower_char (c : ascii) : ascii :=
  if is_upper c then ascii_of_nat (nat_of_ascii c + 32) else c.

(** [str.lower] *)
Fixpoint lower (s : string) : string :=
  match s with
  | EmptyString => EmptyString
  | String c r => String (lower_char c) (lower r)
  end.

(** [str.startswith] *)
Fixpoint startswith (s p : string) : bool :=
  match p, s with
  | EmptyString, _ => true
  | String _ _, EmptyString => false
  | String a p', String b s' => Ascii.eqb a b && startswith s' p'
  end.

(** [needle in hay] *)
Fixpoint contains (needle hay : string) : bool :=
  startswith hay needle ||
  match hay with
  | EmptyString => false
  | String _ r => contains needle r
  end.

(** [str.isspace] on one character: TAB, LF, VT, FF, CR, FS, GS, RS, US and
    the blank.  It is also the class [\s] of the [re] module. *)
Definition isspace (c : ascii) : bool :=
  let n := nat_of_ascii c in
  ((9 <=? n)%nat && (n <=? 13)%nat) || ((28 <=? n)%nat && (n <=? 32)%nat).

Fixpoint lstrip (s : string) : string :=
  match s with
  | String c r => if isspace c then lstrip r else s
  | EmptyString => EmptyString
  end.

(** Removes trailing white space; the result is built from the right. *)
Fixpoint rstrip (s : string) : string :=
  match s with
  | EmptyString => EmptyString
  | String c r =>
      match rstrip r with
      | EmptyString => if isspace c then EmptyString else String c EmptyString
      | r' => String c r'
      end
  end.

(** [str.strip] with no argument *)
Definition strip (s : string) : string := rstrip (lstrip s).

(** [s.replace(c, " ")] for a one-character pattern [c] *)
Fixpoint replace_char (c : ascii) (by_ : ascii) (s : string) : string :=
  match s with
  | EmptyString => EmptyString
  | String a r => String (if Ascii.eqb a c then by_ else a) (replace_char c by_ r)
  end.

(** [s.split()] with no argument: the maximal runs of characters that are
    not white space.  [cur] is the run read so far, in reverse. *)
Fixpoint rev_string (acc s : string) : string :=
  match s with
  | EmptyString => acc
  | String c r => rev_string (String c acc) r
  end.

Fixpoint split_ws_aux (cur : string) (s : string) : list string :=
  match s with
  | EmptyString =>
      match cur with
      | EmptyString => []
      | _ => [rev_string EmptyString cur]
      end
  | String c r =>
      if isspace c then
        match cur with
        | EmptyString => split_ws_aux EmptyString r
        | _ => rev_string EmptyString cur :: split_ws_aux EmptyString r
        end
      else split_ws_aux (String c cur) r
  end.

Definition split_ws (s : string) : list string := split_ws_aux EmptyString s.

(** [sep.join(parts)] *)
Fixpoint join (sep : string) (parts : list string) : string :=
  match parts with
  | [] => EmptyString
  | [p] => p
  | p :: rest => p ++ sep ++ join sep rest
  end.

(** Bytewise comparison, as SQLite's BINARY collation and Python's [<] on
    strings of one-byte characters. *)
Fixpoint compare (a b : string) : comparison :=
  match a, b with
  | EmptyString, EmptyString => Eq
  | EmptyString, String _ _ => Lt
  | String _ _, EmptyString => Gt
  | String x a', String y b' =>
      match Nat.compare (nat_of_ascii x) (nat_of_ascii y) with
      | Eq => compare a' b'
      | c => c
      end
  end.

Definition leb (a b : string) : bool :=
  match compare a b with Gt => false | _ => true end.

Definition LF : string := String (ascii_of_nat 10) EmptyString.

End PyStr.

(** ** Results of Python calls that may raise *)

Inductive exn : Type :=
| ValueError
| OverflowError
| TypeError
| AttributeError
| UnboundLocalError
| OperationalError.

Inductive pyres (A : Type) : Type :=
| Ok (a : A)
| Raise (e : exn).
Arguments Ok {A} a.
Arguments Raise {A} e.

Definition bind {A B : Type} (r : pyres A) (k : A -> pyres B) : pyres B :=
  match r with
  | Ok a => k a
  | Raise e => Raise e
  end.

Notation "x <- r ;; k" := (bind r (fun x => k))
  (at level 61, r at next level, right associativity).

(** ** [datetime]: instants, durations and the proleptic Gregorian calendar *)

Module DateTime.

(** A [datetime] is its wall-clock reading, counted in microseconds from
    0001-01-01T00:00:00, and its UTC offset in minutes when it is aware. *)
Record datetime : Type := mkDT {
  dt_us : Z;
  dt_tz : option Z
}.

Definition us_per_second : Z := 1000000.
Definition us_per_minute : Z := 60 * us_per_second.
Definition us_per_hour : Z := 3600 * us_per_second.
Definition us_per_day : Z := 86400 * us_per_second.
Definition us_per_week : Z := 7 * us_per_day.

(** [date.max.toordinal()]: 9999-12-31 is day 3652059. *)
Definition MAXORDINAL : Z := 3652059.

(** A [timedelta] is a count of microseconds; its constructor refuses
    more than 999999999 days in either direction. *)
Definition timedelta (us : Z) : pyres Z :=
  if Z.abs (us / us_per_day) <=? 999999999 then Ok us else Raise OverflowError.

(** [d - delta]: the day of the result must lie in 1 .. MAXORDINAL. *)
Definition sub_timedelta (d : datetime) (delta : Z) : pyres datetime :=
  let r := dt_us d - delta in
  if (0 <=? r) && (r <? MAXORDINAL * us_per_day)
  then Ok (mkDT r (dt_tz d))
  else Raise OverflowError.

Definition is_leap (y : Z) : bool :=
  ((y mod 4 =? 0) && negb (y mod 100 =? 0)) || (y mod 400 =? 0).

Definition days_before_year (y : Z) : Z :=
  let p := y - 1 in p * 365 + p / 4 - p / 100 + p / 400.

Definition days_in_month (y m : Z) : Z :=
  if m =? 2 then (if is_leap y then 29 else 28)
  else if (m =? 4) || (m =? 6) || (m =? 9) || (m =? 11) then 30
  else 31.

(** Days of the year before the first day of month [m]. *)
Definition days_before_month (y m : Z) : Z :=
  nth (Z.to_nat m) [0; 0; 31; 59; 90; 120; 151; 181; 212; 243; 273; 304; 334] 0
  + (if (2 <? m) && is_leap y then 1 else 0).

(** [datetime(y, m, d, hh, mm, ss, us)]: [ValueError] outside the calendar. *)
Definition make (y m d hh mm ss us : Z) : pyres datetime :=
  if (1 <=? y) && (y <=? 9999) && (1 <=? m) && (m <=? 12)
     && (1 <=? d) && (d <=? days_in_month y m)
     && (0 <=? hh) && (hh <=? 23) && (0 <=? mm) && (mm <=? 59)
     && (0 <=? ss) && (ss <=? 59) && (0 <=? us) && (us <=? 999999)
  then Ok (mkDT ((days_before_year y + days_before_month y m + (d - 1)) * us_per_day
                 + hh * us_per_hour + mm * us_per_minute + ss * us_per_second + us)
                None)
  else Raise ValueError.

(** [_ord2ymd] of the standard library, on the zero-based day number [n0]. *)
Definition ord2ymd (n0 : Z) : Z * Z * Z :=
  let n400 := n0 / 146097 in
  let n := n0 mod 146097 in
  let n100 := n / 36524 in
  let n := n mod 36524 in
  let n4 := n / 1461 in
  let n := n mod 1461 in
  let n1 := n / 365 in
  let n := n mod 365 in
  let year := n400 * 400 + 1 + n100 * 100 + n4 * 4 + n1 in
  if (n1 =? 4) || (n100 =? 4) then (year - 1, 12, 31)
  else
    let leapyear := (n1 =? 3) && (negb (n4 =? 24) || (n100 =? 3)) in
    let month := Z.shiftr (n + 50) 5 in
    let y := if leapyear then 4 else 1 in
    let preceding := days_before_month y month in
    if n <? preceding
    then (year, month - 1, n - (preceding - days_in_month y (month - 1)) + 1)
    else (year, month, n - preceding + 1).

Definition digit_char (d : Z) : ascii := ascii_of_nat (48 + Z.to_nat d).

(** [n] written with exactly [w] decimal digits, zero padded. *)
Fixpoint zpad (w : nat) (n : Z) : string :=
  match w with
  | O => EmptyString
  | S w' => zpad w' (n / 10) ++ String (digit_char (n mod 10)) EmptyString
  end.

(** [d.strftime("%Y-%m-%d")] *)
Definition strftime_Ymd (d : datetime) : string :=
  let '(y, m, dd) := ord2ymd (dt_us d / us_per_day) in
  zpad 4 y ++ "-" ++ zpad 2 m ++ "-" ++ zpad 2 dd.

(** [d.isoformat()]: the fraction is printed only when it is not zero, the
    offset only for an aware value. *)
Definition isoformat (d : datetime) : string :=
  let t := dt_us d mod us_per_day in
  let us := t mod us_per_second in
  strftime_Ymd d ++ "T" ++ zpad 2 (t / us_per_hour) ++ ":"
  ++ zpad 2 ((t mod us_per_hour) / us_per_minute) ++ ":"
  ++ zpad 2 ((t mod us_per_minute) / us_per_second)
  ++ (if us =? 0 then "" else "." ++ zpad 6 us)
  ++ match dt_tz d with
     | None => ""
     | Some off =>
         (if off <? 0 then "-" else "+") ++ zpad 2 (Z.abs off / 60) ++ ":"
         ++ zpad 2 (Z.abs off mod 60)
     end.

End DateTime.

(** ** [datetime.strptime]

    The standard library turns a format into a regular expression, matches
    it at the start of the text with backtracking, requires the first match
    to consume the whole text, and builds the value from the groups.  The
    model covers the directives the repository uses. *)

Module Strptime.

Inductive tok : Type :=
| Lit (c : ascii)   (* the character itself, compared without case *)
| Ws                (* a run of white space in the format: [\s+] *)
| DY | Dm | Dd | DH | DM | DS | Df.

(** A format string as its sequence of pattern items. *)
Fixpoint compile (fmt : string) : list tok :=
  match fmt with
  | EmptyString => []
  | String "%" (String "Y" r) => DY :: compile r
  | String "%" (String "m" r) => Dm :: compile r
  | String "%" (String "d" r) => Dd :: compile r
  | String "%" (String "H" r) => DH :: compile r
  | String "%" (String "M" r) => DM :: compile r
  | String "%" (String "S" r) => DS :: compile r
  | String "%" (String "f" r) => Df :: compile r
  | String c r =>
      if PyStr.isspace c then
        match compile r with
        | Ws :: _ as rest => rest
        | rest => Ws :: rest
        end
      else Lit c :: compile r
  end.

Definition in_range (lo hi c : ascii) : bool :=
  (nat_of_ascii lo <=? nat_of_ascii c)%nat && (nat_of_ascii c <=? nat_of_ascii hi)%nat.

(** One alternative of a directive: a sequence of character ranges. *)
Fixpoint match_seq (cls : list (ascii * ascii)) (s : string) : option (string * string) :=
  match cls with
  | [] => Some (EmptyString, s)
  | (lo, hi) :: cls' =>
      match s with
      | String c r =>
          if in_range lo hi c then
            match match_seq cls' r with
            | Some (m, rest) => Some (String c m, rest)
            | None => None
            end
          else None
      | EmptyString => None
      end
  end.

Definition d09 : ascii * ascii := ("0"%char, "9"%char).

(** The alternatives of each directive, in the order the expression lists
    them: [%d] is [3[0-1]|[1-2]\d|0[1-9]|[1-9]| [1-9]] and so on. *)
Definition alternatives (t : tok) : list (list (ascii * ascii)) :=
  match t with
  | DY => [[d09; d09; d09; d09]]
  | Dm => [[("1", "1"); ("0", "2")]; [("0", "0"); ("1", "9")]; [("1", "9")]]%char
  | Dd => [[("3", "3"); ("0", "1")]; [("1", "2"); d09]; [("0", "0"); ("1", "9")];
           [("1", "9")]; [(" ", " "); ("1", "9")]]%char
  | DH => [[("2", "2"); ("0", "3")]; [("0", "1"); d09]; [d09]]%char
  | DM => [[("0", "5"); d09]; [d09]]%char
  | DS => [[("6", "6"); ("0", "1")]; [("0", "5"); d09]; [d09]]%char
  | Df => [[d09; d09; d09; d09; d09; d09]; [d09; d09; d09; d09; d09];
           [d09; d09; d09; d09]; [d09; d09; d09]; [d09; d09]; [d09]]
  | Lit _ | Ws => []
  end.

(** The splits of [s] after a non-empty run of white space, longest first. *)
Fixpoint ws_splits (s : string) : list (string * string) :=
  match s with
  | String c r =>
      if PyStr.isspace c then
        map (fun '(m, rest) => (String c m, rest)) (ws_splits r) ++ [(String c EmptyString, r)]
      else []
  | EmptyString => []
  end.

Fixpoint filter_some {A : Type} (l : list (option A)) : list A :=
  match l with
  | [] => []
  | Some a :: r => a :: filter_some r
  | None :: r => filter_some r
  end.

(** The ways one item can match a prefix of [s], in backtracking order. *)
Definition item_matches (t : tok) (s : string) : list (string * string) :=
  match t with
  | Lit c =>
      match s with
      | String c' r =>
          if Ascii.eqb (PyStr.lower_char c) (PyStr.lower_char c')
          then [(String c' EmptyString, r)] else []
      | EmptyString => []
      end
  | Ws => ws_splits s
  | _ => filter_some (map (fun cls => match_seq cls s) (alternatives t))
  end.

(** All matches of the pattern at the start of [s], in backtracking order,
    each with its groups and the text left over. *)
Fixpoint match_toks (ts : list tok) (s : string) : list (list (tok * string) * string) :=
  match ts with
  | [] => [([], s)]
  | t :: ts' =>
      flat_map (fun '(m, rest) =>
                  map (fun '(g, r) => ((t, m) :: g, r)) (match_toks ts' rest))
               (item_matches t s)
  end.

Definition tok_eqb (a b : tok) : bool :=
  match a, b with
  | DY, DY | Dm, Dm | Dd, Dd | DH, DH | DM, DM | DS, DS | Df, Df => true
  | _, _ => false
  end.

Fixpoint group (t : tok) (g : list (tok * string)) : option string :=
  match g with
  | [] => None
  | (t', m) :: r => if tok_eqb t t' then Some m else group t r
  end.

(** [int(s)] on a string of decimal digits, read from the left. *)
Fixpoint int_of_digits (acc : Z) (s : string) : Z :=
  match s with
  | EmptyString => acc
  | String c r => int_of_digits (acc * 10 + (Z.of_nat (nat_of_ascii c) - 48)) r
  end.

Definition field (t : tok) (g : list (tok * string)) (default : Z) : Z :=
  match group t g with
  | Some m =>
      match t with
      | Dd => int_of_digits 0 (PyStr.lstrip m)
      | _ => int_of_digits 0 m
      end
  | None => default
  end.

(** [%f]: the digits are padded with zeros on the right to six. *)
Definition fraction (g : list (tok * string)) : Z :=
  match group Df g with
  | Some m => int_of_digits 0 m * 10 ^ (6 - Z.of_nat (String.length m))
  | None => 0
  end.

(** [datetime.strptime(s, fmt)]; [None] stands for [ValueError]. *)
Definition strptime (s fmt : string) : option DateTime.datetime :=
  match match_toks (compile fmt) s with
  | (g, EmptyString) :: _ =>
      match DateTime.make (field DY g 1900) (field Dm g 1) (field Dd g 1)
                          (field DH g 0) (field DM g 0) (field DS g 0) (fraction g) with
      | Ok d => Some d
      | Raise _ => None
      end
  | _ => None
  end.

End Strptime.

(** ** [utils/date_parser.py] *)

Module DateParser.

Definition is_digit (c : ascii) : bool := Strptime.in_range "0" "9" c.

(** The longest prefix of digits and what follows it. *)
Fixpoint span_digits (s : string) : string * string :=
  match s with
  | String c r =>
      if is_digit c then let '(d, rest) := span_digits r in (String c d, rest)
      else (EmptyString, s)
  | EmptyString => (EmptyString, EmptyString)
  end.

Definition units : list string :=
  ["h"; "hour"; "hours"; "d"; "day"; "days"; "w"; "week"; "weeks";
   "m"; "month"; "months"; "y"; "year"; "years"].

Fixpoint mem (s : string) (l : list string) : bool :=
  match l with
  | [] => false
  | x :: r => String.eqb s x || mem s r
  end.

(** [re.match(pattern, s)] for the pattern of [parse_relative_date],
    [^(\d+)\s*(h|hour|...|years)$]: the two groups when it matches.  No unit
    begins with a digit or holds white space, so the digits are the longest
    digit prefix and the unit is all that follows the white space. *)
Definition match_relative (s : string) : option (string * string) :=
  match span_digits s with
  | (EmptyString, _) => None
  | (digits, rest) =>
      let unit := PyStr.lstrip rest in
      if mem unit units then Some (digits, unit) else None
  end.

(** [sys.get_int_max_str_digits()], the interpreter's default *)
Definition int_max_str_digits : nat := 4300.

(** [int(s)] on a string of digits: [ValueError] beyond the digit limit. *)
Definition int_ (digits : string) : pyres Z :=
  if (String.length digits <=? int_max_str_digits)%nat
  then Ok (Strptime.int_of_digits 0 digits)
  else Raise ValueError.

(** [now - timedelta(...)], the duration given in microseconds *)
Definition ago (now : DateTime.datetime) (us : Z) : pyres (option DateTime.datetime) :=
  delta <- DateTime.timedelta us ;;
  d <- DateTime.sub_timedelta now delta ;;
  Ok (Some d).

(** [DateParser.parse_relative_date]; [now] is the reading of the clock the
    call takes. *)
Definition parse_relative_date (now : DateTime.datetime) (date_string : string)
  : pyres (option DateTime.datetime) :=
  match date_string with
  | EmptyString => Ok None
  | _ =>
      let date_string := PyStr.lower (PyStr.strip date_string) in
      match match_relative date_string with
      | None => Ok None
      | Some (g1, unit) =>
          amount <- int_ g1 ;;
          if mem unit ["h"; "hour"; "hours"] then
            ago now (amount * DateTime.us_per_hour)
          else if mem unit ["d"; "day"; "days"] then
            ago now (amount * DateTime.us_per_day)
          else if mem unit ["w"; "week"; "weeks"] then
            ago now (amount * DateTime.us_per_week)
          else if mem unit ["m"; "month"; "months"] then
            ago now (amount * 30 * DateTime.us_per_day)
          else if mem unit ["y"; "year"; "years"] then
            ago now (amount * 365 * DateTime.us_per_day)
          else Ok None
      end
  end.

Definition formats : list string :=
  [ "%Y-%m-%d";
    "%Y-%m-%d %H:%M:%S";
    "%Y-%m-%d %H:%M";
    "%m/%d/%Y";
    "%m/%d/%Y %H:%M:%S";
    "%m/%d/%Y %H:%M";
    "%d/%m/%Y";
    "%d/%m/%Y %H:%M:%S";
    "%d/%m/%Y %H:%M";
    "%Y-%m-%dT%H:%M:%S";
    "%Y-%m-%dT%H:%M:%S.%f";
    "%Y-%m-%dT%H:%M:%SZ";
    "%Y-%m-%dT%H:%M:%S.%fZ" ].

(** The loop over the formats: the first one that parses wins. *)
Fixpoint try_formats (s : string) (fmts : list string) : option DateTime.datetime :=
  match fmts with
  | [] => None
  | fmt :: rest =>
      match Strptime.strptime (PyStr.strip s) fmt with
      | Some d => Some d
      | None => try_formats s rest
      end
  end.

(** [DateParser.parse_absolute_date] *)
Definition parse_absolute_date (date_string : string) : option DateTime.datetime :=
  match date_string with
  | EmptyString => None
  | _ => try_formats date_string formats
  end.

(** [DateParser.parse_date] *)
Definition parse_date (now : DateTime.datetime) (date_string : string)
  : pyres (option DateTime.datetime) :=
  relative_date <- parse_relative_date now date_string ;;
  match relative_date with
  | Some d => Ok (Some d)
  | None => Ok (parse_absolute_date date_string)
  end.

End DateParser.

(** ** [core/transcript.py]: the entry record

    The field [additional_context] (a decoded JSON payload) is left out: no
    operation modelled here reads it. *)




Module Transcript.

Record TranscriptEntry : Type := mkEntry {
  transcript_id   : string;
  asr_text        : option string;
  formatted_text  : option string;
  edited_text     : option string;
  timestamp       : option DateTime.datetime;
  app             : option string;
  url             : option string;
  duration        : option Q;
  num_words       : option Z;
  status          : option string;
  language        : option string;
  conversation_id : option string;
  e2e_latency     : option Q;
  confidence      : option Q;
  is_archived     : bool
}.

(** [TranscriptEntry.display_text] *)
Definition display_text (e : TranscriptEntry) : string :=
  if PyStr.truthy (edited_text e) then
    match edited_text e with Some s => s | None => "" end
  else if PyStr.truthy (formatted_text e) then
    match formatted_text e with Some s => s | None => "" end
  else if PyStr.truthy (asr_text e) then
    match asr_text e with Some s => s | None => "" end
  else "".

(** The table of [TranscriptEntry.app_name] *)
Definition app_mappings : list (string * string) :=
  [ ("com.tinyspeck.slackmacgap", "Slack");
    ("md.obsidian", "Obsidian");
    ("com.apple.MobileSMS", "Messages");
    ("com.microsoft.VSCode", "VS Code");
    ("com.google.Chrome", "Chrome");
    ("com.electron.wispr-flow", "Wispr Flow");
    ("com.openai.chat", "ChatGPT");
    ("com.apple.Safari", "Safari");
    ("com.apple.mail", "Mail");
    ("com.apple.Notes", "Notes");
    ("com.apple.TextEdit", "TextEdit") ].

Fixpoint dict_get (k : string) (d : list (string * string)) (default : string) : string :=
  match d with
  | [] => default
  | (k', v) :: r => if String.eqb k k' then v else dict_get k r default
  end.

(** [TranscriptEntry.app_name] *)
Definition app_name (e : TranscriptEntry) : string :=
  if PyStr.truthy (app e) then
    match app e with Some a => dict_get a app_mappings a | None => "Unknown" end
  else "Unknown".

Definition status_is (e : TranscriptEntry) (s : string) : bool :=
  match status e with
  | Some t => String.eqb t s
  | None => false
  end.

(** [self.num_words and self.num_words > 0] as a condition *)
Definition has_words (e : TranscriptEntry) : bool :=
  match num_words e with
  | Some n => negb (n =? 0) && (0 <? n)
  | None => false
  end.

(** [TranscriptEntry.quality_score] *)
Definition quality_score (e : TranscriptEntry) : Q :=
  match confidence e with
  | Some c => c
  | None =>
      if status_is e "formatted" && has_words e then (8 # 10)%Q
      else if status_is e "empty" || negb (PyStr.truthy (Some (display_text e)))
      then (1 # 10)%Q
      else (1 # 2)%Q
  end.

(** [Transcript.__post_init__]: the two totals of a result set *)
Definition total_duration (es : list TranscriptEntry) : Q :=
  fold_left (fun acc e => (acc + match duration e with Some d => d | None => 0 end)%Q) es 0%Q.

Definition total_words (es : list TranscriptEntry) : Z :=
  fold_left (fun acc e => acc + match num_words e with Some n => n | None => 0 end) es 0.

End Transcript.

(** ** [core/parser.py]: the access layer over the [History] table *)

Module Parser.

(** A row of [History], the columns the queries select.  A column that
    holds SQL NULL is [None]. *)
Record Row : Type := mkRow {
  transcriptEntityId : string;
  asrText            : option string;
  formattedText      : option string;
  editedText         : option string;
  timestamp          : option string;
  app                : option string;
  url                : option string;
  duration           : option Q;
  numWords           : option Z;
  status             : option string;
  language           : option string;
  conversationId     : option string;
  e2eLatency         : option Q;
  averageLogProb     : option Q;
  isArchived         : option Z
}.

Definition database : Type := list Row.

(** [s.replace(pat, rep)] for a pattern that is not empty: occurrences are
    taken from the left and do not overlap.  [skip] counts the characters of
    a replaced occurrence still to be dropped. *)
Fixpoint replace_aux (pat rep : string) (skip : nat) (s : string) : string :=
  match s with
  | EmptyString => EmptyString
  | String c r =>
      match skip with
      | S k => replace_aux pat rep k r
      | O =>
          if PyStr.startswith s pat
          then rep ++ replace_aux pat rep (String.length pat - 1) r
          else String c (replace_aux pat rep O r)
      end
  end.

Definition replace (pat rep s : string) : string := replace_aux pat rep O s.

Section Conversion.

(** [datetime.fromisoformat], a function of the standard library; [None]
    stands for its [ValueError]. *)
Variable fromisoformat : string -> option DateTime.datetime.

(** The time stamp of [_row_to_transcript_entry]: ISO form first, then the
    two [strptime] patterns; a text none of them reads gives [None]. *)
Definition parse_timestamp (column : option string) : option DateTime.datetime :=
  if PyStr.truthy column then
    match column with
    | Some text =>
        let timestamp_str :=
          if PyStr.contains " +00:00" text then replace " +00:00" "+00:00" text else text in
        match fromisoformat timestamp_str with
        | Some d => Some d
        | None =>
            match Strptime.strptime text "%Y-%m-%d %H:%M:%S" with
            | Some d => Some d
            | None => Strptime.strptime text "%Y-%m-%d %H:%M:%S.%f"
            end
        end
    | None => None
    end
  else None.

(** [WisprParser._row_to_transcript_entry] *)
Definition _row_to_transcript_entry (row : Row) : Transcript.TranscriptEntry :=
  Transcript.mkEntry
    (transcriptEntityId row)
    (asrText row)
    (formattedText row)
    (editedText row)
    (parse_timestamp (timestamp row))
    (app row)
    (url row)
    (duration row)
    (numWords row)
    (status row)
    (language row)
    (conversationId row)
    (e2eLatency row)
    (averageLogProb row)
    (match isArchived row with
     | Some z => negb (z =? 0)
     | None => false
     end).

(** The keyword arguments of [get_entries]. *)
Record kwargs : Type := mkKw {
  kw_limit            : option Z;
  kw_offset           : option Z;
  kw_start_date       : option DateTime.datetime;
  kw_end_date         : option DateTime.datetime;
  kw_app              : option string;
  kw_status           : option string;
  kw_conversation_id  : option string;
  kw_include_archived : bool
}.

(** [get_entries()] with every argument at its default *)
Definition defaults : kwargs :=
  mkKw None None None None None None None false.

(** [column = ?] with a text parameter: false on NULL. *)
Definition sql_eq (column : option string) (param : string) : bool :=
  match column with
  | Some v => String.eqb v param
  | None => false
  end.

(** The condition a keyword adds when the Python value is truthy. *)
Definition when_truthy (arg : option string) (cond : string -> bool) : bool :=
  if PyStr.truthy arg then
    match arg with Some a => cond a | None => true end
  else true.

(** The WHERE clause [get_entries] builds.  The date bounds are bound as
    the text [isoformat()] gives and compared with the stored text. *)
Definition where_clause (kw : kwargs) (row : Row) : bool :=
  (if kw_include_archived kw then true
   else match isArchived row with
        | Some z => z =? 0
        | None => true
        end)
  && match kw_start_date kw with
     | Some d =>
         match timestamp row with
         | Some t => PyStr.leb (DateTime.isoformat d) t
         | None => false
         end
     | None => true
     end
  && match kw_end_date kw with
     | Some d =>
         match timestamp row with
         | Some t => PyStr.leb t (DateTime.isoformat d)
         | None => false
         end
     | None => true
     end
  && when_truthy (kw_app kw) (sql_eq (app row))
  && when_truthy (kw_status kw) (sql_eq (status row))
  && when_truthy (kw_conversation_id kw) (sql_eq (conversationId row)).

(** Order of two values of the [timestamp] column: NULL is the smallest,
    two texts compare bytewise. *)
Definition ts_leb (a b : option string) : bool :=
  match a, b with
  | None, _ => true
  | Some _, None => false
  | Some x, Some y => PyStr.leb x y
  end.

(** [ORDER BY timestamp DESC].  SQL leaves the order of rows with equal
    keys open; here they keep their table order, as SQLite's sorter does. *)
Fixpoint insert_desc (r : Row) (l : list Row) : list Row :=
  match l with
  | [] => [r]
  | x :: l' =>
      if ts_leb (timestamp x) (timestamp r) then r :: l
      else x :: insert_desc r l'
  end.

Definition order_by_timestamp_desc (l : list Row) : list Row :=
  fold_right insert_desc [] l.

(** Python truthiness of an [Optional[int]] *)
Definition truthy_int (o : option Z) : option Z :=
  match o with
  | Some n => if n =? 0 then None else Some n
  | None => None
  end.

Definition fits_int64 (n : Z) : bool :=
  (- 2 ^ 63 <=? n) && (n <? 2 ^ 63).

(** [LIMIT n]: a negative [n] means no bound. *)
Definition sql_limit (n : Z) (l : list Row) : list Row :=
  if n <? 0 then l else firstn (Z.to_nat n) l.

(** [OFFSET m]: a negative [m] skips nothing. *)
Definition sql_offset (m : Z) (l : list Row) : list Row :=
  skipn (Z.to_nat m) l.

(** The LIMIT and OFFSET clauses as [get_entries] appends them.  OFFSET
    without LIMIT is not SQL: the statement fails to prepare.  A bound
    outside 64 bits cannot be bound as a parameter. *)
Definition limit_offset (kw : kwargs) (l : list Row) : pyres (list Row) :=
  match truthy_int (kw_limit kw), truthy_int (kw_offset kw) with
  | None, None => Ok l
  | Some n, None =>
      if fits_int64 n then Ok (sql_limit n l) else Raise OverflowError
  | None, Some _ => Raise OperationalError
  | Some n, Some m =>
      if fits_int64 n && fits_int64 m
      then Ok (sql_limit n (sql_offset m l))
      else Raise OverflowError
  end.

(** The rows the statement of [get_entries] selects, in order, before the
    LIMIT and OFFSET clauses. *)
Definition select_rows (kw : kwargs) (db : database) : list Row :=
  order_by_timestamp_desc (filter (where_clause kw) db).

(** [WisprParser.get_entries] *)
Definition get_entries (kw : kwargs) (db : database)
  : pyres (list Transcript.TranscriptEntry) :=
  rows <- limit_offset kw (select_rows kw db) ;;
  Ok (map _row_to_transcript_entry rows).

(** [WisprParser.get_entry_by_id]: [fetchone] takes the first row found. *)
Definition get_entry_by_id (transcript_id : string) (db : database)
  : option Transcript.TranscriptEntry :=
  match find (fun row => String.eqb (transcriptEntityId row) transcript_id) db with
  | Some row => Some (_row_to_transcript_entry row)
  | None => None
  end.

(** [entry.f and query_lower in entry.f.lower()] *)
Definition field_matches (query_lower : string) (field : option string) : bool :=
  PyStr.truthy field &&
  match field with
  | Some text => PyStr.contains query_lower (PyStr.lower text)
  | None => false
  end.

Definition entry_matches (query_lower : string) (entry : Transcript.TranscriptEntry) : bool :=
  field_matches query_lower (Transcript.asr_text entry)
  || field_matches query_lower (Transcript.formatted_text entry)
  || field_matches query_lower (Transcript.edited_text entry).

(** [WisprParser.search_text]; the result is the entry list of the
    [Transcript] it returns. *)
Definition search_text (query : string) (kw : kwargs) (db : database)
  : pyres (list Transcript.TranscriptEntry) :=
  entries <- get_entries kw db ;;
  let query_lower := PyStr.lower query in
  Ok (filter (entry_matches query_lower) entries).

End Conversion.

(** *** [get_statistics] *)

Record statistics : Type := mkStats {
  total_entries    : Z;
  active_entries   : Z;
  archived_entries : Z;
  total_duration   : Q;
  total_words      : Z;
  avg_duration     : Q;
  avg_words        : Q;
  status_breakdown : list (string * Z);
  first_entry      : option string;
  last_entry       : option string
}.

Definition count (p : Row -> bool) (db : database) : Z :=
  Z.of_nat (List.length (filter p db)).

(** [WHERE duration IS NOT NULL AND numWords IS NOT NULL] *)
Definition both_present (row : Row) : bool :=
  match duration row, numWords row with
  | Some _, Some _ => true
  | _, _ => false
  end.

Definition sum_Q (l : list Q) : Q := fold_left Qplus l 0%Q.
Definition sum_Z (l : list Z) : Z := fold_left Z.add l 0.

Definition durations (rows : list Row) : list Q :=
  Strptime.filter_some (map duration rows).

Definition word_counts (rows : list Row) : list Z :=
  Strptime.filter_some (map numWords rows).

(** [AVG(x)] is NULL over no rows, and [NULL or 0] is [0]. *)
Definition avg_or_0 (total : Q) (n : nat) : Q :=
  match n with
  | O => 0%Q
  | S _ => (total / inject_Z (Z.of_nat n))%Q
  end.

(** Order of the group keys of [GROUP BY status]: NULL first, then text. *)
Definition key_compare (a b : option string) : comparison :=
  match a, b with
  | None, None => Eq
  | None, Some _ => Lt
  | Some _, None => Gt
  | Some x, Some y => PyStr.compare x y
  end.

(** One more row for group [k]; the groups are kept in key order. *)
Fixpoint bump (k : option string) (groups : list (option string * Z))
  : list (option string * Z) :=
  match groups with
  | [] => [(k, 1)]
  | (k', n) :: rest =>
      match key_compare k k' with
      | Eq => (k', n + 1) :: rest
      | Lt => (k, 1) :: groups
      | Gt => (k', n) :: bump k rest
      end
  end.

Definition group_by_status (db : database) : list (option string * Z) :=
  fold_left (fun groups row => bump (status row) groups) db [].

(** [ORDER BY count DESC] over the groups, one group put in place at a
    time.  SQL leaves the order of groups of equal count open; SQLite's
    sorter returns them in descending key order, and so does the model. *)
Fixpoint insert_count (g : option string * Z) (l : list (option string * Z))
  : list (option string * Z) :=
  match l with
  | [] => [g]
  | x :: l' => if snd x <=? snd g then g :: l else x :: insert_count g l'
  end.

Definition order_by_count_desc (groups : list (option string * Z))
  : list (option string * Z) :=
  fold_left (fun sorted g => insert_count g sorted) groups [].

(** [d[k] = v] on a dictionary kept in insertion order *)
Fixpoint dict_set (k : string) (v : Z) (d : list (string * Z)) : list (string * Z) :=
  match d with
  | [] => [(k, v)]
  | (k', v') :: rest =>
      if String.eqb k k' then (k', v) :: rest else (k', v') :: dict_set k v rest
  end.

(** [row["status"] or "unknown"] *)
Definition status_key (s : option string) : string :=
  if PyStr.truthy s then match s with Some t => t | None => "unknown" end
  else "unknown".

(** [{row["status"] or "unknown": row["count"] for row in ...}] *)
Definition breakdown_of (groups : list (option string * Z)) : list (string * Z) :=
  fold_left (fun d g => dict_set (status_key (fst g)) (snd g) d) groups [].

Definition present_timestamps (db : database) : list string :=
  Strptime.filter_some (map timestamp db).

(** [MIN] and [MAX] over texts; NULL over no rows. *)
Definition min_text (l : list string) : option string :=
  match l with
  | [] => None
  | x :: r => Some (fold_left (fun m y => if PyStr.leb m y then m else y) r x)
  end.

Definition max_text (l : list string) : option string :=
  match l with
  | [] => None
  | x :: r => Some (fold_left (fun m y => if PyStr.leb y m then m else y) r x)
  end.

(** [WisprParser.get_statistics] (the path of the database is left out) *)
Definition get_statistics (db : database) : statistics :=
  let total := Z.of_nat (List.length db) in
  let active := count (fun row => match isArchived row with
                                  | Some z => z =? 0
                                  | None => false
                                  end) db in
  let stats_rows := filter both_present db in
  let n := List.length stats_rows in
  mkStats
    total
    active
    (total - active)
    (sum_Q (durations stats_rows))
    (sum_Z (word_counts stats_rows))
    (avg_or_0 (sum_Q (durations stats_rows)) n)
    (avg_or_0 (inject_Z (sum_Z (word_counts stats_rows))) n)
    (breakdown_of (order_by_count_desc (group_by_status db)))
    (min_text (present_timestamps db))
    (max_text (present_timestamps db)).

End Parser.

(** ** [datetime.fromisoformat], for the worked examples

    The library function on texts of the shapes
    [YYYY-MM-DD] and [YYYY-MM-DD?HH:MM:SS[.f...][Z|+HH:MM|-HH:MM]], where [?]
    is any one character and digits of the fraction beyond the sixth are
    dropped.  The library reads further shapes; on those this model answers
    [None], and the examples below stay clear of them. *)

Module Iso.

Definition two : list (ascii * ascii) := [Strptime.d09; Strptime.d09].
Definition four : list (ascii * ascii) := two ++ two.

(** A literal character and then a fixed number of digits. *)
Definition after (c : ascii) (cls : list (ascii * ascii)) (s : string)
  : option (Z * string) :=
  match s with
  | String c' r =>
      if Ascii.eqb c c' then
        match Strptime.match_seq cls r with
        | Some (m, rest) => Some (Strptime.int_of_digits 0 m, rest)
        | None => None
        end
      else None
  | EmptyString => None
  end.

(** The fraction: up to six digits count, the digits after them are read
    and dropped. *)
Definition read_fraction (s : string) : option (Z * string) :=
  match s with
  | String "." r =>
      match DateParser.span_digits r with
      | (EmptyString, _) => None
      | (digits, rest) =>
          let kept := String.substring 0 6 digits in
          Some (Strptime.int_of_digits 0 kept * 10 ^ (6 - Z.of_nat (String.length kept)), rest)
      end
  | _ => Some (0, s)
  end.

(** The offset in minutes, [None] for a naive value. *)
Definition read_offset (s : string) : option (option Z) :=
  match s with
  | EmptyString => Some None
  | String "Z" EmptyString => Some (Some 0)
  | String sign r =>
      if Ascii.eqb sign "+" || Ascii.eqb sign "-" then
        match Strptime.match_seq two r with
        | Some (hh, rest) =>
            match after ":" two rest with
            | Some (mm, EmptyString) =>
                let off := Strptime.int_of_digits 0 hh * 60 + mm in
                if (off <? 24 * 60) && (mm <? 60)
                then Some (Some (if Ascii.eqb sign "-" then - off else off))
                else None
            | _ => None
            end
        | None => None
        end
      else None
  end.

Definition with_offset (tz : option Z) (r : pyres DateTime.datetime)
  : option DateTime.datetime :=
  match r with
  | Ok d => Some (DateTime.mkDT (DateTime.dt_us d) tz)
  | Raise _ => None
  end.

Definition fromisoformat (s : string) : option DateTime.datetime :=
  match Strptime.match_seq four s with
  | Some (y, s1) =>
      match after "-" two s1 with
      | Some (m, s2) =>
          match after "-" two s2 with
          | Some (d, EmptyString) =>
              with_offset None (DateTime.make (Strptime.int_of_digits 0 y) m d 0 0 0 0)
          | Some (d, String _ s3) =>
              match Strptime.match_seq two s3 with
              | Some (hh, s4) =>
                  match after ":" two s4 with
                  | Some (mi, s5) =>
                      match after ":" two s5 with
                      | Some (ss, s6) =>
                          match read_fraction s6 with
                          | Some (us, s7) =>
                              match read_offset s7 with
                              | Some tz =>
                                  with_offset tz
                                    (DateTime.make (Strptime.int_of_digits 0 y) m d
                                       (Strptime.int_of_digits 0 hh) mi ss us)
                              | None => None
                              end
                          | None => None
                          end
                      | None => None
                      end
                  | None => None
                  end
              | None => None
              end
          | None => None
          end
      | None => None
      end
  | None => None
  end.

End Iso.

(** ** The table from display names to bundle identifiers

    [search.py], [collect.py] and [tools.py] each carry the same table. *)

Module AppFilter.

Definition name_to_bundle : list (string * string) :=
  [ ("slack", "com.tinyspeck.slackmacgap");
    ("obsidian", "md.obsidian");
    ("messages", "com.apple.MobileSMS");
    ("vscode", "com.microsoft.VSCode");
    ("vs code", "com.microsoft.VSCode");
    ("chrome", "com.google.Chrome");
    ("wispr", "com.electron.wispr-flow");
    ("wispr flow", "com.electron.wispr-flow");
    ("chatgpt", "com.openai.chat");
    ("safari", "com.apple.Safari");
    ("mail", "com.apple.mail");
    ("notes", "com.apple.Notes") ].

(** [_resolve_app_filter]: an argument that is absent or empty gives no
    filter; one holding a dot is taken as it is. *)
Definition _resolve_app_filter (app : option string) : option string :=
  if PyStr.truthy app then
    match app with
    | Some a =>
        if PyStr.contains "." a then Some a
        else Some (Transcript.dict_get (PyStr.lower a) name_to_bundle a)
    | None => None
    end
  else None.

End AppFilter.

(** ** [cli/commands/search.py] *)

Module SearchCommand.

(** The parsed arguments of [search]. *)
Record args : Type := mkArgs {
  query            : string;
  limit            : Z;
  since            : option string;
  until            : option string;
  app              : option string;
  status           : option string;
  conversation     : option string;
  include_archived : bool;
  case_sensitive   : bool;
  highlight        : bool;
  context          : Z
}.

Inductive outcome : Type :=
| InvalidDate (text : string)                             (* exit code 1 *)
| NoResults                                               (* exit code 0 *)
| Results (entries : list Transcript.TranscriptEntry).    (* exit code 0 *)

(** A date argument: absent or empty is no filter, a text that does not
    parse ends the command. *)
Definition date_filter (now : DateTime.datetime) (arg : option string)
  : pyres (string + option DateTime.datetime) :=
  if PyStr.truthy arg then
    match arg with
    | Some text =>
        d <- DateParser.parse_date now text ;;
        match d with
        | Some v => Ok (inr (Some v))
        | None => Ok (inl text)
        end
    | None => Ok (inr None)
    end
  else Ok (inr None).

Section Run.

Variable fromisoformat : string -> option DateTime.datetime.

(** [SearchCommand.run], up to the choice of the entries it prints. *)
Definition run (now : DateTime.datetime) (a : args) (db : Parser.database)
  : pyres outcome :=
  start_date <- date_filter now (since a) ;;
  match start_date with
  | inl text => Ok (InvalidDate text)
  | inr start_date =>
      end_date <- date_filter now (until a) ;;
      match end_date with
      | inl text => Ok (InvalidDate text)
      | inr end_date =>
          entries <- Parser.search_text fromisoformat (query a)
                       (Parser.mkKw (Some (limit a)) None start_date end_date
                          (AppFilter._resolve_app_filter (app a))
                          (status a) (conversation a) (include_archived a))
                       db ;;
          match entries with
          | [] => Ok NoResults
          | _ => Ok (Results entries)
          end
      end
  end.

End Run.

End SearchCommand.

(** ** Look-up of one record: [mcp/tools.py] and [cli/commands/show.py] *)

Module Lookup.

(** [s[:n]] *)
Definition take (n : nat) (s : string) : string := String.substring 0 n s.

(** The result dictionary of the tool [get_transcript]. *)
Inductive tool_result : Type :=
| Entry (entry : Transcript.TranscriptEntry)
| MultipleMatches (transcript_id : string) (matches : list (string * string * string))
| NotFound (transcript_id : string).

(** What [show] prints while it looks for the entry. *)
Inductive printed : Type :=
| Warning (text : string)
| Line (text : string)
| Error (text : string).

Section Lookup.

Variable fromisoformat : string -> option DateTime.datetime.

(** The entries the prefix search looks at: [get_entries(limit=1000)]. *)
Definition recent (db : Parser.database) : pyres (list Transcript.TranscriptEntry) :=
  Parser.get_entries fromisoformat
    (Parser.mkKw (Some 1000) None None None None None None false) db.

Definition prefix_matches (transcript_id : string) (entries : list Transcript.TranscriptEntry)
  : list Transcript.TranscriptEntry :=
  filter (fun e => PyStr.startswith (Transcript.transcript_id e) transcript_id) entries.

(** One line of the [matches] list of the tool: id, app and text. *)
Definition candidate (m : Transcript.TranscriptEntry) : string * string * string :=
  (Transcript.transcript_id m, Transcript.app_name m, take 50 (Transcript.display_text m)).

(** [WisprTools._get_transcript], up to the rendering of the entry *)
Definition _get_transcript (transcript_id : string) (db : Parser.database)
  : pyres tool_result :=
  match Parser.get_entry_by_id fromisoformat transcript_id db with
  | Some entry => Ok (Entry entry)
  | None =>
      entries <- recent db ;;
      match prefix_matches transcript_id entries with
      | [m] => Ok (Entry m)
      | [] => Ok (NotFound transcript_id)
      | matches => Ok (MultipleMatches transcript_id (map candidate (firstn 10 matches)))
      end
  end.

(** The line [show] prints for one candidate. *)
Definition candidate_line (m : Transcript.TranscriptEntry) : string :=
  "  " ++ take 16 (Transcript.transcript_id m) ++ "... - " ++ Transcript.app_name m
  ++ " - " ++ take 50 (Transcript.display_text m) ++ "...".

(** [ShowCommand._find_entry]: what it prints and what it returns. *)
Definition _find_entry (transcript_id : string) (db : Parser.database)
  : pyres (list printed * option Transcript.TranscriptEntry) :=
  match Parser.get_entry_by_id fromisoformat transcript_id db with
  | Some entry => Ok ([], Some entry)
  | None =>
      if (String.length transcript_id <? 36)%nat then
        entries <- recent db ;;
        match prefix_matches transcript_id entries with
        | [m] => Ok ([], Some m)
        | [] => Ok ([], None)
        | matches =>
            Ok (Warning ("Multiple matches found for '" ++ transcript_id ++ "':")
                  :: map (fun m => Line (candidate_line m)) (firstn 10 matches),
                None)
        end
      else Ok ([], None)
  end.

(** [ShowCommand.run]: the messages in order, the entry shown if any, and
    the exit code. *)
Definition show_run (transcript_id : string) (db : Parser.database)
  : pyres (list printed * option Transcript.TranscriptEntry * Z) :=
  found <- _find_entry transcript_id db ;;
  match found with
  | (out, None) => Ok ((out ++ [Error ("Transcript not found: " ++ transcript_id)])%list, None, 1)
  | (out, Some entry) => Ok (out, Some entry, 0)
  end.

End Lookup.

End Lookup.

(** ** [cli/commands/collect.py] *)

Module CollectCommand.

Inductive output_format : Type := words | sentences | entries | raw.

(** The parsed arguments of [collect], the output directory apart. *)
Record args : Type := mkArgs {
  since         : string;
  until         : option string;
  app           : option string;
  min_words     : Z;
  exclude_short : bool;
  exclude_apps  : option (list string);
  format        : output_format;
  overwrite     : bool
}.

(** [entry.num_words and entry.num_words < bound] *)
Definition words_below (entry : Transcript.TranscriptEntry) (bound : Z) : bool :=
  match Transcript.num_words entry with
  | Some n => negb (n =? 0) && (n <? bound)
  | None => false
  end.

Definition excluded_app (a : args) (entry : Transcript.TranscriptEntry) : bool :=
  match exclude_apps a with
  | Some (x :: l) =>
      let app_name := PyStr.lower (Transcript.app_name entry) in
      existsb (fun excluded => PyStr.contains (PyStr.lower excluded) app_name) (x :: l)
  | _ => false
  end.

(** The body of the loop of [_filter_entries]: [true] keeps the entry. *)
Definition keeps (a : args) (entry : Transcript.TranscriptEntry) : bool :=
  let text := Transcript.display_text entry in
  if negb (PyStr.truthy (Some text)) || negb (PyStr.truthy (Some (PyStr.strip text)))
  then false
  else if words_below entry (min_words a) then false
  else if exclude_short a && words_below entry 5 then false
  else if excluded_app a entry then false
  else if Transcript.status_is entry "empty" || Transcript.status_is entry "no_audio"
          || Transcript.status_is entry "dismissed"
  then false
  else true.

(** [CollectCommand._filter_entries] *)
Definition _filter_entries (a : args) (l : list Transcript.TranscriptEntry)
  : list Transcript.TranscriptEntry :=
  filter (keeps a) l.

(** [daily_data[date_str].append(entry)] on a dictionary in insertion order *)
Fixpoint append_to_day (date_str : string) (entry : Transcript.TranscriptEntry)
  (daily : list (string * list Transcript.TranscriptEntry))
  : list (string * list Transcript.TranscriptEntry) :=
  match daily with
  | [] => [(date_str, [entry])]
  | (k, l) :: rest =>
      if String.eqb k date_str then (k, (l ++ [entry])%list) :: rest
      else (k, l) :: append_to_day date_str entry rest
  end.

(** [sorted(daily_data.items())]: the keys differ, so they decide. *)
Fixpoint insert_day (d : string * list Transcript.TranscriptEntry)
  (l : list (string * list Transcript.TranscriptEntry))
  : list (string * list Transcript.TranscriptEntry) :=
  match l with
  | [] => [d]
  | x :: l' => if PyStr.leb (fst d) (fst x) then d :: l else x :: insert_day d l'
  end.

(** [CollectCommand._group_by_date] *)
Definition _group_by_date (l : list Transcript.TranscriptEntry)
  : list (string * list Transcript.TranscriptEntry) :=
  fold_right insert_day []
    (fold_left (fun daily entry =>
                  match Transcript.timestamp entry with
                  | Some t => append_to_day (DateTime.strftime_Ymd t) entry daily
                  | None => daily
                  end) l []).

(** The two chains of [replace] of the raw format. *)
Definition strip_punctuation (text : string) : string :=
  fold_left (fun s c => PyStr.replace_char c " " s)
    ["."; ","; "!"; "?"; "("; ")"; ";"; ":"]%char text.

(** The line one entry gives in the raw format, if any. *)
Definition raw_line (entry : Transcript.TranscriptEntry) : option string :=
  let text := PyStr.strip (Transcript.display_text entry) in
  if PyStr.truthy (Some text) then
    let words := PyStr.join " " (PyStr.split_ws (strip_punctuation text)) in
    if PyStr.truthy (Some words) then Some words else None
  else None.

Section Content.

(** The three formats that begin with header lines (the part of
    [_generate_file_content] after the raw branch), not detailed here. *)
Variable headed_content :
  output_format -> string -> list Transcript.TranscriptEntry -> string.

Variable fromisoformat : string -> option DateTime.datetime.

(** [CollectCommand._generate_file_content] *)
Definition _generate_file_content (a : args) (date_str : string)
  (l : list Transcript.TranscriptEntry) : string :=
  match format a with
  | raw => PyStr.join PyStr.LF (Strptime.filter_some (map raw_line l))
  | f => headed_content f date_str l
  end.

Inductive outcome : Type :=
| InvalidDate (text : string)                               (* exit code 1 *)
| NoEntries                                                 (* exit code 0 *)
| Collected (written : list (string * string)) (skipped : list string).

(** The loop over the days: a day whose file exists is skipped unless
    [--overwrite] is given; the others are written, name and content. *)
Fixpoint write_days (a : args) (existing : list string)
  (daily : list (string * list Transcript.TranscriptEntry))
  : list (string * string) * list string :=
  match daily with
  | [] => ([], [])
  | (date_str, day_entries) :: rest =>
      let '(written, skipped) := write_days a existing rest in
      if DateParser.mem date_str existing && negb (overwrite a)
      then (written, date_str :: skipped)
      else ((date_str, _generate_file_content a date_str day_entries) :: written, skipped)
  end.

(** [CollectCommand.run]; [existing] names the days whose file is already
    in the output directory.  Failures of the file system are left out. *)
Definition run (now : DateTime.datetime) (a : args) (existing : list string)
  (db : Parser.database) : pyres outcome :=
  start_date <- DateParser.parse_date now (since a) ;;
  match start_date with
  | None => Ok (InvalidDate (since a))
  | Some start_date =>
      end_date <- SearchCommand.date_filter now (until a) ;;
      match end_date with
      | inl text => Ok (InvalidDate text)
      | inr end_date =>
          l <- Parser.get_entries fromisoformat
                 (Parser.mkKw None None (Some start_date) end_date
                    (AppFilter._resolve_app_filter (app a)) None None false)
                 db ;;
          match l with
          | [] => Ok NoEntries
          | _ =>
              let '(written, skipped) :=
                write_days a existing (_group_by_date (_filter_entries a l)) in
              Ok (Collected written skipped)
          end
      end
  end.

End Content.

End CollectCommand.

(** ** [mcp/server.py]: the JSON-RPC loop *)

Module MCPServer.

(** A decoded JSON text, as [json.loads] gives it. *)
#[local] Unset Elimination Schemes.
Inductive json : Type :=
| JNull
| JBool (b : bool)
| JInt (n : Z)
| JFloat (q : Q)
| JStr (s : string)
| JArr (items : list json)
| JObj (members : list (string * json)).
#[local] Set Elimination Schemes.

(** [d.get(key, default)] *)
Fixpoint get (key : string) (d : list (string * json)) (default : json) : json :=
  match d with
  | [] => default
  | (k, v) :: rest => if String.eqb k key then v else get key rest default
  end.

Fixpoint has_key (key : string) (d : list (string * json)) : bool :=
  match d with
  | [] => false
  | (k, _) :: rest => String.eqb k key || has_key key rest
  end.

(** Python truthiness of a decoded value *)
Definition truthy (v : json) : bool :=
  match v with
  | JNull | JBool false | JStr EmptyString | JArr [] | JObj [] => false
  | JInt n => negb (n =? 0)
  | JFloat q => negb (Qeq_bool q 0)
  | _ => true
  end.

Definition is_str (v : json) (s : string) : bool :=
  match v with
  | JStr t => String.eqb t s
  | _ => false
  end.

(** The parameters of the ten tool methods: the required ones, then the
    ones with a default. *)
Definition signatures : list (string * (list string * list string)) :=
  [ ("get_recent_transcripts", ([], ["limit"; "app"; "status"; "include_archived"]));
    ("list_transcripts",
       ([], ["since"; "until"; "app"; "status"; "limit"; "include_archived"]));
    ("search_transcripts", (["query"], ["since"; "until"; "app"; "limit"]));
    ("get_transcript", (["transcript_id"], ["include_context"]));
    ("get_conversations", ([], ["since"; "until"; "app"; "limit"]));
    ("get_conversation", (["conversation_id"], ["format"]));
    ("get_app_statistics", ([], ["limit"; "sort_by"; "min_entries"]));
    ("get_database_statistics", ([], ["since"; "until"; "app"]));
    ("export_transcripts",
       ([], ["format"; "since"; "until"; "app"; "limit"; "group_by_conversation"]));
    ("get_dictionary_entries", ([], [])) ].

Fixpoint signature_of (name : string) (l : list (string * (list string * list string)))
  : option (list string * list string) :=
  match l with
  | [] => None
  | (n, sg) :: rest => if String.eqb n name then Some sg else signature_of name rest
  end.

(** The call [method( **arguments )]: the value must be a mapping, every
    key a parameter of the method and every required parameter a key. *)
Definition binds (sg : list string * list string) (arguments : json) : bool :=
  match arguments with
  | JObj kv =>
      forallb (fun k => DateParser.mem (fst k) (fst sg ++ snd sg)%list) kv
      && forallb (fun p => has_key p kv) (fst sg)
  | _ => false
  end.

(** The server's surroundings: the bodies of the tool methods once their
    arguments are bound, and the renderings it takes from the library. *)
Record environment : Type := mkEnv {
  tool_body    : string -> list (string * json) -> pyres (list (string * json));
  tools_schema : json;
  loads        : string -> json + string;   (* [json.loads], or the text of its error *)
  dumps        : json -> string;            (* [json.dumps(v, indent=2, default=str)] *)
  str          : json -> string;            (* [str(v)] inside an f-string *)
  str_exn      : exn -> string              (* [str(e)] *)
}.

Section Server.

Variable env : environment.

(** [WisprTools.execute_tool]: the result dictionary. *)
Definition execute_tool (tool_name arguments : json) : list (string * json) :=
  match tool_name with
  | JStr name =>
      match signature_of name signatures with
      | Some sg =>
          if binds sg arguments then
            match arguments with
            | JObj kv =>
                match tool_body env name kv with
                | Ok result => result
                | Raise e =>
                    [("error", JStr ("Tool execution failed: " ++ str_exn env e))]
                end
            | _ => [("error", JStr ("Tool execution failed: " ++ str_exn env TypeError))]
            end
          else [("error", JStr ("Tool execution failed: " ++ str_exn env TypeError))]
      | None => [("error", JStr ("Unknown tool: " ++ name))]
      end
  | _ => [("error", JStr ("Unknown tool: " ++ str env tool_name))]
  end.

(** [MCPServer._error_response] *)
Definition _error_response (request_id : json) (code : Z) (message : json) : json :=
  JObj [ ("jsonrpc", JStr "2.0");
         ("id", request_id);
         ("error", JObj [("code", JInt code); ("message", message)]) ].

(** [MCPServer._handle_initialize] *)
Definition _handle_initialize (request_id : json) : json :=
  JObj [ ("jsonrpc", JStr "2.0");
         ("id", request_id);
         ("result",
          JObj [ ("protocolVersion", JStr "2024-11-05");
                 ("capabilities",
                  JObj [ ("tools", JObj []); ("resources", JObj []);
                         ("prompts", JObj []); ("logging", JObj []) ]);
                 ("serverInfo",
                  JObj [ ("name", JStr "wispr-mcp"); ("version", JStr "0.1.0") ]) ]) ].

(** [MCPServer._handle_tools_list] *)
Definition _handle_tools_list (request_id : json) : json :=
  JObj [ ("jsonrpc", JStr "2.0");
         ("id", request_id);
         ("result", JObj [("tools", tools_schema env)]) ].

(** [MCPServer._handle_ping] *)
Definition _handle_ping (request_id : json) : json :=
  JObj [ ("jsonrpc", JStr "2.0"); ("id", request_id); ("result", JObj []) ].

(** [MCPServer._handle_tools_call]; [params.get] exists on a dictionary
    only. *)
Definition _handle_tools_call (request_id params : json) : pyres json :=
  match params with
  | JObj p =>
      let tool_name := get "name" p JNull in
      let arguments := get "arguments" p (JObj []) in
      if negb (truthy tool_name) then
        Ok (_error_response request_id (-32602) (JStr "Missing tool name"))
      else
        let result := execute_tool tool_name arguments in
        if has_key "error" result then
          Ok (_error_response request_id (-32603) (get "error" result JNull))
        else
          Ok (JObj [ ("jsonrpc", JStr "2.0");
                     ("id", request_id);
                     ("result",
                      JObj [("content",
                             JArr [JObj [ ("type", JStr "text");
                                          ("text", JStr (dumps env (JObj result))) ]])]) ])
  | _ => Raise AttributeError
  end.

(** [MCPServer.handle_request].  On a value that is not a dictionary the
    first [get] raises before [request_id] is assigned, and the handler,
    which reads [request_id], raises in its turn. *)
Definition handle_request (request_data : json) : pyres json :=
  match request_data with
  | JObj d =>
      let method := get "method" d JNull in
      let params := get "params" d (JObj []) in
      let request_id := get "id" d JNull in
      let body :=
        if is_str method "initialize" then Ok (_handle_initialize request_id)
        else if is_str method "tools/list" then Ok (_handle_tools_list request_id)
        else if is_str method "tools/call" then _handle_tools_call request_id params
        else if is_str method "ping" then Ok (_handle_ping request_id)
        else Ok (_error_response request_id (-32601)
                   (JStr ("Method not found: " ++ str env method)))
      in
      match body with
      | Ok response => Ok response
      | Raise e =>
          Ok (_error_response request_id (-32603)
                (JStr ("Internal error: " ++ str_exn env e)))
      end
  | _ => Raise UnboundLocalError
  end.

(** One turn of the loop of [MCPServer.run] on a line that was read: the
    response printed, if any. *)
Definition process_line (line : string) : option json :=
  match PyStr.strip line with
  | EmptyString => None
  | text =>
      match loads env text with
      | inr message =>
          Some (_error_response JNull (-32700) (JStr ("Parse error: " ++ message)))
      | inl request =>
          match handle_request request with
          | Ok response => if truthy response then Some response else None
          | Raise e =>
              Some (_error_response JNull (-32603)
                      (JStr ("Server error: " ++ str_exn env e)))
          end
      end
  end.

(** [MCPServer.run] over the lines [readline] returns; the empty text is
    the end of the input. *)
Fixpoint run (lines : list string) : list json :=
  match lines with
  | [] => []
  | EmptyString :: _ => []
  | line :: rest =>
      match process_line line with
      | Some response => response :: run rest
      | None => run rest
      end
  end.

End Server.

(** The error code of a response, if it is an error. *)
Definition error_code (response : json) : option Z :=
  match response with
  | JObj d =>
      match get "error" d JNull with
      | JObj e => match get "code" e JNull with JInt c => Some c | _ => None end
      | _ => None
      end
  | _ => None
  end.

(** The [id] a request carries; [null] when it is not an object or has
    none. *)
Definition id_of (request : json) : json :=
  match request with
  | JObj d => get "id" d JNull
  | _ => JNull
  end.

Definition member (key : string) (response : json) : option json :=
  match response with
  | JObj d => if has_key key d then Some (get key d JNull) else None
  | _ => None
  end.

End MCPServer.

(** ** [mcp/tools.py]: the statistics tool *)

Module WisprTools.

(** The dictionary of the filtered branch of [_get_database_statistics]. *)
Record filtered_statistics : Type := mkFiltered {
  total_entries    : Z;
  active_entries   : Z;
  archived_entries : Z;
  total_duration   : Q;
  total_words      : Z;
  avg_duration     : Q;
  avg_words        : Q;
  status_breakdown : list (string * Z)
}.

Inductive statistics_result : Type :=
| InvalidDate (text : string)
| Filtered (stats : filtered_statistics)
| Overall (stats : Parser.statistics).

Definition valid (e : Transcript.TranscriptEntry) : bool :=
  match Transcript.duration e, Transcript.num_words e with
  | Some _, Some _ => true
  | _, _ => false
  end.

(** [status_breakdown[status] = status_breakdown.get(status, 0) + 1] *)
Fixpoint dict_incr (k : string) (d : list (string * Z)) : list (string * Z) :=
  match d with
  | [] => [(k, 1)]
  | (k', v) :: rest =>
      if String.eqb k k' then (k', v + 1) :: rest else (k', v) :: dict_incr k rest
  end.

Definition filtered (l : list Transcript.TranscriptEntry) : filtered_statistics :=
  let total := Z.of_nat (List.length l) in
  let active :=
    Z.of_nat (List.length (filter (fun e => negb (Transcript.is_archived e)) l)) in
  let valid_entries := filter valid l in
  mkFiltered
    total
    active
    (total - active)
    (Transcript.total_duration l)
    (Transcript.total_words l)
    (Parser.avg_or_0 (Transcript.total_duration valid_entries) (List.length valid_entries))
    (Parser.avg_or_0 (inject_Z (Transcript.total_words valid_entries))
       (List.length valid_entries))
    (fold_left (fun d e => dict_incr (Parser.status_key (Transcript.status e)) d) l []).

Section Tools.

Variable fromisoformat : string -> option DateTime.datetime.

(** [DateParser.parse_date(x) if x else None] *)
Definition optional_date (now : DateTime.datetime) (arg : option string)
  : pyres (option DateTime.datetime) :=
  if PyStr.truthy arg then
    match arg with
    | Some text => DateParser.parse_date now text
    | None => Ok None
    end
  else Ok None.

Definition is_none {A : Type} (o : option A) : bool :=
  match o with Some _ => false | None => true end.

(** The text of an argument inside a message *)
Definition text_of (arg : option string) : string :=
  match arg with Some t => t | None => "None" end.

(** [WisprTools._get_database_statistics] *)
Definition _get_database_statistics (now : DateTime.datetime)
  (since until app : option string) (db : Parser.database) : pyres statistics_result :=
  start_date <- optional_date now since ;;
  end_date <- optional_date now until ;;
  let app_filter := AppFilter._resolve_app_filter app in
  if PyStr.truthy since && is_none start_date then Ok (InvalidDate (text_of since))
  else if PyStr.truthy until && is_none end_date then Ok (InvalidDate (text_of until))
  else if negb (is_none start_date) || negb (is_none end_date) || PyStr.truthy app_filter
  then
    l <- Parser.get_entries fromisoformat
           (Parser.mkKw None None start_date end_date app_filter None None true) db ;;
    Ok (Filtered (filtered l))
  else Ok (Overall (Parser.get_statistics db)).

End Tools.

End WisprTools.

(** ** Worked inputs and the vocabulary of the statements *)

Module Examples.

(** A row that holds an id, a time stamp, a raw text and the archived flag,
    and NULL elsewhere. *)
Definition row (id : string) (ts : option string) (text : option string)
  (archived : option Z) : Parser.Row :=
  Parser.mkRow id text None None ts None None None None None None None None None archived.

(** An entry that holds the three texts, a status, a word count and a
    confidence, and nothing else. *)
Definition entry (asr formatted edited status : option string)
  (words : option Z) (conf : option Q) : Transcript.TranscriptEntry :=
  Transcript.mkEntry "id" asr formatted edited None None None None words status
    None None None conf false.

(** The reading of the clock written as an ISO text. *)
Definition clock (text : string) : DateTime.datetime :=
  match Iso.fromisoformat text with
  | Some d => d
  | None => DateTime.mkDT 0 None
  end.

(** [json.loads] on the few texts the examples feed it; any other text
    is reported as not being JSON. *)
Definition loads (text : string) : MCPServer.json + string :=
  if String.eqb text "42" then inl (MCPServer.JInt 42)
  else if String.eqb text "[]" then inl (MCPServer.JArr [])
  else if String.eqb text "{}" then inl (MCPServer.JObj [])
  else inr "Expecting value: line 1 column 1 (char 0)".

(** Surroundings in which every tool answers with an empty result. *)
Definition env : MCPServer.environment :=
  MCPServer.mkEnv (fun _ _ => Ok []) (MCPServer.JArr []) loads
    (fun _ => "{}") (fun _ => "None") (fun _ => "error").

(** The request [tools/call] with the given parameters and the id 7. *)
Definition tools_call (params : MCPServer.json) : MCPServer.json :=
  MCPServer.JObj [ ("jsonrpc", MCPServer.JStr "2.0"); ("id", MCPServer.JInt 7);
                   ("method", MCPServer.JStr "tools/call"); ("params", params) ].

End Examples.

Module Spec.

(** The keyword arguments [kw] with [limit=L]. *)
Definition with_limit (kw : Parser.kwargs) (L : Z) : Parser.kwargs :=
  Parser.mkKw (Some L) (Parser.kw_offset kw) (Parser.kw_start_date kw)
    (Parser.kw_end_date kw) (Parser.kw_app kw) (Parser.kw_status kw)
    (Parser.kw_conversation_id kw) (Parser.kw_include_archived kw).

(** The archived column holds the integer 0. *)
Definition flag_is_zero (r : Parser.Row) : bool :=
  match Parser.isArchived r with
  | Some z => z =? 0
  | None => false
  end.

(** The listing without LIMIT and OFFSET: the rows the filters keep, most
    recent first, converted. *)
Definition listing (fromisoformat : string -> option DateTime.datetime)
  (kw : Parser.kwargs) (db : Parser.database) : list Transcript.TranscriptEntry :=
  map (Parser._row_to_transcript_entry fromisoformat) (Parser.select_rows kw db).

(** The claim on the limit of a search, read at one limit [L]: the search
    returns at most [L] entries, all of them among the [L] most recent of
    the filtered listing. *)
Definition limit_claim (fromisoformat : string -> option DateTime.datetime)
  (query : string) (kw : Parser.kwargs) (db : Parser.database) (L : Z) : Prop :=
  exists res,
    Parser.search_text fromisoformat query (with_limit kw L) db = Ok res /\
    Z.of_nat (List.length res) <= L /\
    forall e, In e res -> In e (firstn (Z.to_nat L) (listing fromisoformat kw db)).

(** The archived column is NULL or holds the integer 0. *)
Definition not_archived (r : Parser.Row) : bool :=
  match Parser.isArchived r with
  | Some z => z =? 0
  | None => true
  end.

(** The stored records whose id starts with [P]. *)
Definition stored_with_prefix (P : string) (db : Parser.database) : list Parser.Row :=
  filter (fun r => PyStr.startswith (Parser.transcriptEntityId r) P) db.

(** The claim on the look-up by prefix, read at one store and one prefix:
    one stored id starting with [P] gives that record, none gives "not
    found", two or more give the ambiguity with the candidates listed. *)
Definition lookup_claim (fromisoformat : string -> option DateTime.datetime)
  (db : Parser.database) (P : string) : Prop :=
  (forall r, stored_with_prefix P db = [r] ->
     Lookup._get_transcript fromisoformat P db
       = Ok (Lookup.Entry (Parser._row_to_transcript_entry fromisoformat r))) /\
  (stored_with_prefix P db = [] ->
     Lookup._get_transcript fromisoformat P db = Ok (Lookup.NotFound P)) /\
  (forall r1 r2 rest, stored_with_prefix P db = r1 :: r2 :: rest ->
     exists candidates,
       Lookup._get_transcript fromisoformat P db = Ok (Lookup.MultipleMatches P candidates) /\
       forall r, In r (r1 :: r2 :: rest) ->
         In (Parser.transcriptEntityId r) (map (fun c => fst (fst c)) candidates)).

(** One of the four methods the server knows. *)
Definition known_method (method : MCPServer.json) : bool :=
  MCPServer.is_str method "initialize" || MCPServer.is_str method "tools/list"
  || MCPServer.is_str method "tools/call" || MCPServer.is_str method "ping".

(** A [tools/call] request that names one of the ten tools and whose
    arguments lack a parameter the tool requires. *)
Definition misses_required_argument (request : MCPServer.json) : bool :=
  match request with
  | MCPServer.JObj d =>
      MCPServer.is_str (MCPServer.get "method" d MCPServer.JNull) "tools/call" &&
      match MCPServer.get "params" d (MCPServer.JObj []) with
      | MCPServer.JObj p =>
          match MCPServer.get "name" p MCPServer.JNull,
                MCPServer.get "arguments" p (MCPServer.JObj []) with
          | MCPServer.JStr name, MCPServer.JObj kv =>
              match MCPServer.signature_of name MCPServer.signatures with
              | Some sg => negb (forallb (fun a => MCPServer.has_key a kv) (fst sg))
              | None => false
              end
          | _, _ => false
          end
      | _ => false
      end
  | _ => false
  end.

(** The claim on a missing tool argument, read at one request: whatever
    the surroundings, the response is the error -32602. *)
Definition missing_argument_claim (request : MCPServer.json) : Prop :=
  misses_required_argument request = true ->
  forall env, exists response,
    MCPServer.handle_request env request = Ok response /\
    MCPServer.error_code response = Some (-32602).

Fixpoint all_chars (p : ascii -> bool) (s : string) : bool :=
  match s with
  | EmptyString => true
  | String c r => p c && all_chars p r
  end.

Definition is_letter (c : ascii) : bool :=
  let n := nat_of_ascii c in
  ((65 <=? n)%nat && (n <=? 90)%nat) || ((97 <=? n)%nat && (n <=? 122)%nat).

Definition is_lower_letter (c : ascii) : bool :=
  let n := nat_of_ascii c in (97 <=? n)%nat && (n <=? 122)%nat.

(** The length of a unit as the claim gives it, in microseconds: an hour,
    24 hours, 168 hours, 30 days, 365 days. *)
Definition unit_length (unit : string) : option Z :=
  if DateParser.mem unit ["h"; "hour"; "hours"] then Some DateTime.us_per_hour
  else if DateParser.mem unit ["d"; "day"; "days"] then Some (24 * DateTime.us_per_hour)
  else if DateParser.mem unit ["w"; "week"; "weeks"] then Some (168 * DateTime.us_per_hour)
  else if DateParser.mem unit ["m"; "month"; "months"]
  then Some (30 * (24 * DateTime.us_per_hour))
  else if DateParser.mem unit ["y"; "year"; "years"]
  then Some (365 * (24 * DateTime.us_per_hour))
  else None.

(** The decimal value of a run of digits. *)
Definition value (digits : string) : Z := Strptime.int_of_digits 0 digits.

(** The relative form: white space, digits, white space, a unit in any
    case, white space. *)
Definition relative_form (s ws1 digits ws2 unit ws3 : string) : Prop :=
  s = (ws1 ++ digits ++ ws2 ++ unit ++ ws3)%string /\
  all_chars PyStr.isspace ws1 = true /\
  all_chars PyStr.isspace ws2 = true /\
  all_chars PyStr.isspace ws3 = true /\
  digits <> ""%string /\
  all_chars DateParser.is_digit digits = true.

(** The claim on relative dates, read at one clock and one text: whenever
    the text has the relative form, the parser returns the clock minus the
    amount times the unit. *)
Definition relative_date_claim (now : DateTime.datetime) (s : string) : Prop :=
  forall ws1 digits ws2 unit ws3 len,
    relative_form s ws1 digits ws2 unit ws3 ->
    unit_length (PyStr.lower unit) = Some len ->
    DateParser.parse_date now s
    = Ok (Some (DateTime.mkDT (DateTime.dt_us now - value digits * len)
                  (DateTime.dt_tz now))).

Definition nospace (c : ascii) : bool := negb (PyStr.isspace c).

(** The eight characters the raw format replaces by blanks. *)
Definition is_punctuation (c : ascii) : bool :=
  existsb (Ascii.eqb c) ["."; ","; "!"; "?"; "("; ")"; ";"; ":"]%char.

(** Neither one of the eight characters nor white space other than the
    blank. *)
Definition plain_char (c : ascii) : bool :=
  negb (is_punctuation c) && (negb (PyStr.isspace c) || Ascii.eqb c " ").

(** The arguments [collect DIR --format raw], the others at their default. *)
Definition raw_args : CollectCommand.args :=
  CollectCommand.mkArgs "7d" None None 1 false None CollectCommand.raw false.

(** The expected content of the scenario. *)
Definition hello_testing : string := ("Hello world" ++ PyStr.LF ++ "Testing")%string.

(** The claim on the raw collection, read at one clock and one store of two
    rows that show "Hello, world!" and "Testing." and bear the date
    [date]: the one file written holds "Hello world", a line feed and
    "Testing". *)
Definition raw_collect_claim (now : DateTime.datetime) (r1 r2 : Parser.Row)
  (date : string) : Prop :=
  let e1 := Parser._row_to_transcript_entry Iso.fromisoformat r1 in
  let e2 := Parser._row_to_transcript_entry Iso.fromisoformat r2 in
  Transcript.display_text e1 = "Hello, world!"%string ->
  Transcript.display_text e2 = "Testing."%string ->
  option_map DateTime.strftime_Ymd (Transcript.timestamp e1) = Some date ->
  option_map DateTime.strftime_Ymd (Transcript.timestamp e2) = Some date ->
  forall headed_content,
    CollectCommand.run headed_content Iso.fromisoformat now raw_args [] [r1; r2]
    = Ok (CollectCommand.Collected [(date, hello_testing)] []).

End Spec.


(** ** Order of [datetime] values *)

Module DTOrder.

Definition aware (d : DateTime.datetime) : bool :=
  match DateTime.dt_tz d with Some _ => true | None => false end.

(** The reading on the UTC scale; a naive value counts as it stands. *)
Definition utc (d : DateTime.datetime) : Z :=
  DateTime.dt_us d
  - match DateTime.dt_tz d with
    | Some off => off * DateTime.us_per_minute
    | None => 0
    end.

(** [a < b]: a naive and an aware value do not compare. *)
Definition lt (a b : DateTime.datetime) : pyres bool :=
  if Bool.eqb (aware a) (aware b) then Ok (utc a <? utc b) else Raise TypeError.

(** [datetime.min] *)
Definition datetime_min : DateTime.datetime := DateTime.mkDT 0 None.

(** [x or datetime.min] for an optional time stamp *)
Definition or_min (t : option DateTime.datetime) : DateTime.datetime :=
  match t with Some d => d | None => datetime_min end.

(** All naive or all aware: what a sort or a [min] needs to go through.
    On two or more keys of both kinds some comparison is between the two
    kinds and raises; on fewer there is nothing to compare. *)
Definition uniform (keys : list DateTime.datetime) : bool :=
  forallb aware keys || forallb (fun k => negb (aware k)) keys.

Section Sorting.

Context {A : Type}.
Variable key : A -> DateTime.datetime.

(** Ascending, stable: an element goes before the first one that is not
    smaller. *)
Fixpoint insert_asc (x : A) (l : list A) : list A :=
  match l with
  | [] => [x]
  | y :: l' =>
      if utc (key x) <=? utc (key y) then x :: l else y :: insert_asc x l'
  end.

(** Descending, stable ([reverse=True] keeps the order of equal keys). *)
Fixpoint insert_desc (x : A) (l : list A) : list A :=
  match l with
  | [] => [x]
  | y :: l' =>
      if utc (key y) <=? utc (key x) then x :: l else y :: insert_desc x l'
  end.

(** [l.sort(key=key)] *)
Definition sort (l : list A) : pyres (list A) :=
  if uniform (map key l) then Ok (fold_right insert_asc [] l) else Raise TypeError.

(** [l.sort(key=key, reverse=True)] *)
Definition sort_reverse (l : list A) : pyres (list A) :=
  if uniform (map key l) then Ok (fold_right insert_desc [] l) else Raise TypeError.

End Sorting.

(** [min(cur :: l)]: the first of the smallest. *)
Fixpoint min_from (cur : DateTime.datetime) (l : list DateTime.datetime)
  : pyres DateTime.datetime :=
  match l with
  | [] => Ok cur
  | x :: r => b <- lt x cur ;; min_from (if b then x else cur) r
  end.

(** [max(cur :: l)]: the first of the greatest. *)
Fixpoint max_from (cur : DateTime.datetime) (l : list DateTime.datetime)
  : pyres DateTime.datetime :=
  match l with
  | [] => Ok cur
  | x :: r => b <- lt cur x ;; max_from (if b then x else cur) r
  end.

End DTOrder.

(** ** [core/transcript.py]: the operations on a result set *)

Module TranscriptOps.

(** [TranscriptEntry.has_audio] *)
Definition has_audio (e : Transcript.TranscriptEntry) : bool :=
  negb (Transcript.status_is e "no_audio" || Transcript.status_is e "empty").

(** [breakdown[k] = breakdown.get(k, 0) + 1] over the entries *)
Definition breakdown (key : Transcript.TranscriptEntry -> string)
  (l : list Transcript.TranscriptEntry) : list (string * Z) :=
  fold_left (fun d e => WisprTools.dict_incr (key e) d) l [].

(** [Transcript.app_breakdown] *)
Definition app_breakdown (l : list Transcript.TranscriptEntry) : list (string * Z) :=
  breakdown Transcript.app_name l.

(** [Transcript.status_breakdown] *)
Definition status_breakdown (l : list Transcript.TranscriptEntry) : list (string * Z) :=
  breakdown (fun e => Parser.status_key (Transcript.status e)) l.

Definition eq_opt (o : option string) (s : string) : bool :=
  match o with Some t => String.eqb t s | None => false end.

(** [Transcript.filter_by_app] *)
Definition filter_by_app (app : string) (l : list Transcript.TranscriptEntry)
  : list Transcript.TranscriptEntry :=
  filter (fun e => eq_opt (Transcript.app e) app
                   || String.eqb (PyStr.lower (Transcript.app_name e)) (PyStr.lower app)) l.

(** [Transcript.filter_by_status] *)
Definition filter_by_status (status : string) (l : list Transcript.TranscriptEntry)
  : list Transcript.TranscriptEntry :=
  filter (fun e => eq_opt (Transcript.status e) status) l.

(** One turn of the loop of [filter_by_date_range] (and of
    [Conversation.get_entries_in_range]): whether the entry is kept. *)
Definition in_range (start_date end_date : option DateTime.datetime)
  (e : Transcript.TranscriptEntry) : pyres bool :=
  match Transcript.timestamp e with
  | None => Ok false
  | Some t =>
      early <- match start_date with
               | Some s => DTOrder.lt t s
               | None => Ok false
               end ;;
      if early then Ok false
      else
        late <- match end_date with
                | Some u => DTOrder.lt u t
                | None => Ok false
                end ;;
        Ok (negb late)
  end.

(** [Transcript.filter_by_date_range] *)
Fixpoint filter_by_date_range (start_date end_date : option DateTime.datetime)
  (l : list Transcript.TranscriptEntry) : pyres (list Transcript.TranscriptEntry) :=
  match l with
  | [] => Ok []
  | e :: r =>
      keep <- in_range start_date end_date e ;;
      rest <- filter_by_date_range start_date end_date r ;;
      Ok (if keep then e :: rest else rest)
  end.

(** [Transcript.search_text] and [Conversation.search_text]: the display
    text alone is searched. *)
Definition search_text (query : string) (l : list Transcript.TranscriptEntry)
  : list Transcript.TranscriptEntry :=
  filter (fun e => PyStr.contains (PyStr.lower query)
                     (PyStr.lower (Transcript.display_text e))) l.

End TranscriptOps.

(** ** [core/conversation.py] *)

Module Conversation.

Record Conversation : Type := mkConversation {
  conversation_id : string;
  entries         : list Transcript.TranscriptEntry;
  app             : option string;
  start_time      : option DateTime.datetime;
  end_time        : option DateTime.datetime
}.

(** [max(app_counts, key=app_counts.get)]: the first key of the greatest
    count. *)
Fixpoint argmax (best : string * Z) (d : list (string * Z)) : string :=
  match d with
  | [] => fst best
  | (k, v) :: r => if snd best <? v then argmax (k, v) r else argmax best r
  end.

(** The counts of the apps of the entries that bear one. *)
Definition app_counts (l : list Transcript.TranscriptEntry) : list (string * Z) :=
  fold_left (fun d e =>
               if PyStr.truthy (Transcript.app e) then
                 match Transcript.app e with
                 | Some a => WisprTools.dict_incr a d
                 | None => d
                 end
               else d) l [].

(** The app the constructor settles on when none is given. *)
Definition most_common_app (l : list Transcript.TranscriptEntry) : option string :=
  match app_counts l with
  | [] => None
  | first :: rest => Some (argmax first rest)
  end.

(** The constructor with [__post_init__]: the entries are sorted by time
    stamp, an entry without one counting as [datetime.min]; start and end
    are the least and the greatest time stamp. *)
Definition make (conversation_id : string) (l : list Transcript.TranscriptEntry)
  (app : option string) : pyres Conversation :=
  match l with
  | [] => Ok (mkConversation conversation_id [] app None None)
  | _ =>
      sorted <- DTOrder.sort (fun x => DTOrder.or_min (Transcript.timestamp x)) l ;;
      times <- match Strptime.filter_some (map Transcript.timestamp sorted) with
               | [] => Ok (None, None)
               | t :: r =>
                   lo <- DTOrder.min_from t r ;;
                   hi <- DTOrder.max_from t r ;;
                   Ok (Some lo, Some hi)
               end ;;
      Ok (mkConversation conversation_id sorted
            (if PyStr.truthy app then app else most_common_app sorted)
            (fst times) (snd times))
  end.

(** [Conversation.duration] *)
Definition duration (c : Conversation) : Q := Transcript.total_duration (entries c).

(** [Conversation.total_words] *)
Definition total_words (c : Conversation) : Z := Transcript.total_words (entries c).

(** [Conversation.app_name] *)
Definition app_name (c : Conversation) : string :=
  if PyStr.truthy (app c) then
    match app c with
    | Some a => Transcript.dict_get a Transcript.app_mappings a
    | None => "Unknown"
    end
  else "Unknown".

(** [Conversation.full_text] *)
Definition full_text (c : Conversation) : string :=
  PyStr.join " "
    (filter (fun text => PyStr.truthy (Some text))
       (map Transcript.display_text (entries c))).

(** [s.rfind(" ")]: the index of the last blank, if there is one. *)
Fixpoint rfind_blank (s : string) : option nat :=
  match s with
  | EmptyString => None
  | String c r =>
      match rfind_blank r with
      | Some i => Some (S i)
      | None => if Ascii.eqb c " " then Some O else None
      end
  end.

(** [Conversation.summary] *)
Definition summary (c : Conversation) : string :=
  match entries c with
  | [] => "Empty conversation"
  | _ =>
      let full_text := full_text c in
      if (String.length full_text <=? 100)%nat then full_text
      else
        let summary := Lookup.take 100 full_text in
        let summary :=
          match rfind_blank summary with
          | Some last_space =>
              if (50 <? last_space)%nat then Lookup.take last_space summary else summary
          | None => summary
          end in
        (summary ++ "...")%string
  end.

(** [Conversation.quality_score]: the mean of the scores of the entries. *)
Definition quality_score (c : Conversation) : Q :=
  Parser.avg_or_0 (Parser.sum_Q (map Transcript.quality_score (entries c)))
    (List.length (entries c)).

(** [Conversation.has_audio] *)
Definition has_audio (c : Conversation) : bool :=
  existsb TranscriptOps.has_audio (entries c).

(** [Conversation.entry_count] *)
Definition entry_count (c : Conversation) : Z := Z.of_nat (List.length (entries c)).

(** [Conversation.get_entries_in_range] *)
Fixpoint entries_in_range (start_time end_time : option DateTime.datetime)
  (l : list Transcript.TranscriptEntry) : pyres (list Transcript.TranscriptEntry) :=
  match l with
  | [] => Ok []
  | e :: r =>
      keep <- TranscriptOps.in_range start_time end_time e ;;
      rest <- entries_in_range start_time end_time r ;;
      Ok (if keep then e :: rest else rest)
  end.

Definition get_entries_in_range (c : Conversation)
  (start_time end_time : option DateTime.datetime)
  : pyres (list Transcript.TranscriptEntry) :=
  entries_in_range start_time end_time (entries c).

(** [Conversation.search_text] *)
Definition search_text (c : Conversation) (query : string)
  : list Transcript.TranscriptEntry :=
  TranscriptOps.search_text query (entries c).

End Conversation.

(** ** [core/parser.py]: conversations and apps *)

Module ParserGroups.

(** [entry.conversation_id or f"single_{entry.transcript_id}"] *)
Definition conv_id (e : Transcript.TranscriptEntry) : string :=
  if PyStr.truthy (Transcript.conversation_id e) then
    match Transcript.conversation_id e with
    | Some c => c
    | None => ("single_" ++ Transcript.transcript_id e)%string
    end
  else ("single_" ++ Transcript.transcript_id e)%string.

(** [d[k].append(e)], a new key coming last *)
Fixpoint append_to (k : string) (e : Transcript.TranscriptEntry)
  (d : list (string * list Transcript.TranscriptEntry))
  : list (string * list Transcript.TranscriptEntry) :=
  match d with
  | [] => [(k, [e])]
  | (k', l) :: rest =>
      if String.eqb k k' then (k', (l ++ [e])%list) :: rest
      else (k', l) :: append_to k e rest
  end.

(** The dictionary [conversations_dict] of [get_conversations] *)
Definition conversations_dict (l : list Transcript.TranscriptEntry)
  : list (string * list Transcript.TranscriptEntry) :=
  fold_left (fun d e => append_to (conv_id e) e d) l [].

(** The loop that builds one [Conversation] per key; the first constructor
    that raises ends it. *)
Fixpoint make_all (d : list (string * list Transcript.TranscriptEntry))
  : pyres (list Conversation.Conversation) :=
  match d with
  | [] => Ok []
  | (k, l) :: rest =>
      c <- Conversation.make k l None ;;
      cs <- make_all rest ;;
      Ok (c :: cs)
  end.

Section Groups.

Variable fromisoformat : string -> option DateTime.datetime.

(** [WisprParser.get_conversations] *)
Definition get_conversations (kw : Parser.kwargs) (db : Parser.database)
  : pyres (list Conversation.Conversation) :=
  l <- Parser.get_entries fromisoformat kw db ;;
  conversations <- make_all (conversations_dict l) ;;
  DTOrder.sort_reverse (fun c => DTOrder.or_min (Conversation.start_time c)) conversations.

(** [WisprParser.get_conversation_by_id] *)
Definition get_conversation_by_id (conversation_id : string) (db : Parser.database)
  : pyres (option Conversation.Conversation) :=
  l <- Parser.get_entries fromisoformat
         (Parser.mkKw None None None None None None (Some conversation_id) false) db ;;
  match l with
  | [] => Ok None
  | _ => c <- Conversation.make conversation_id l None ;; Ok (Some c)
  end.

End Groups.

End ParserGroups.

(** ** [core/parser.py]: [get_apps], and the tool over it *)

Module Apps.

(** One dictionary of the list [get_apps] returns. *)
Record app_stats : Type := mkApp {
  app_id         : string;
  app_name       : string;
  total_entries  : Z;
  total_duration : Q;
  total_words    : Z;
  avg_latency    : Q;
  last_used      : option string
}.

(** [WHERE app IS NOT NULL AND app != ''] *)
Definition has_app (row : Parser.Row) : bool := PyStr.truthy (Parser.app row).

Definition app_of (row : Parser.Row) : string :=
  match Parser.app row with Some a => a | None => "" end.

(** [GROUP BY app]: one more row for group [k]; the groups are kept in
    key order, the rows of a group in table order. *)
Fixpoint add_row (k : string) (row : Parser.Row) (groups : list (string * list Parser.Row))
  : list (string * list Parser.Row) :=
  match groups with
  | [] => [(k, [row])]
  | (k', rows) :: rest =>
      match PyStr.compare k k' with
      | Eq => (k', (rows ++ [row])%list) :: rest
      | Lt => (k, [row]) :: groups
      | Gt => (k', rows) :: add_row k row rest
      end
  end.

Definition group_by_app (db : Parser.database) : list (string * list Parser.Row) :=
  fold_left (fun groups row => add_row (app_of row) row groups) (filter has_app db) [].

(** The aggregates of one group, with [or 0] where [get_apps] has it. *)
Definition aggregate (g : string * list Parser.Row) : app_stats :=
  let rows := snd g in
  let latencies := Strptime.filter_some (map Parser.e2eLatency rows) in
  mkApp
    (fst g)
    (Transcript.dict_get (fst g) Transcript.app_mappings (fst g))
    (Z.of_nat (List.length rows))
    (Parser.sum_Q (Parser.durations rows))
    (Parser.sum_Z (Parser.word_counts rows))
    (Parser.avg_or_0 (Parser.sum_Q latencies) (List.length latencies))
    (Parser.max_text (Parser.present_timestamps rows)).

(** [ORDER BY total_entries DESC], one group put in place at a time; groups
    of equal size come in descending key order, as SQLite returns them. *)
Fixpoint insert_app (a : app_stats) (l : list app_stats) : list app_stats :=
  match l with
  | [] => [a]
  | x :: l' =>
      if total_entries x <=? total_entries a then a :: l else x :: insert_app a l'
  end.

(** [WisprParser.get_apps] *)
Definition get_apps (db : Parser.database) : list app_stats :=
  fold_left (fun sorted g => insert_app (aggregate g) sorted) (group_by_app db) [].

(** The value a sort of the tool compares: a number, or a text. *)
Inductive sort_value : Type :=
| Number (q : Q)
| Text (s : string).

(** [x[sort_key] or 0] *)
Definition sort_value_of (sort_by : string) (a : app_stats) : sort_value :=
  if String.eqb sort_by "words" then Number (inject_Z (total_words a))
  else if String.eqb sort_by "duration" then Number (total_duration a)
  else if String.eqb sort_by "latency" then Number (avg_latency a)
  else if String.eqb sort_by "last_used" then
    (if PyStr.truthy (last_used a) then
       match last_used a with Some t => Text t | None => Number 0 end
     else Number 0)
  else Number (inject_Z (total_entries a)).

Definition is_text (v : sort_value) : bool :=
  match v with Text _ => true | Number _ => false end.

(** Numbers compare with numbers and texts with texts; a sort over both
    raises [TypeError]. *)
Definition comparable (vs : list sort_value) : bool :=
  forallb is_text vs || forallb (fun v => negb (is_text v)) vs.

(** [a <= b] on two values of one kind *)
Definition value_leb (a b : sort_value) : bool :=
  match a, b with
  | Number x, Number y => Qle_bool x y
  | Text x, Text y => PyStr.leb x y
  | _, _ => false
  end.

(** Descending and stable, as [sort(key=..., reverse=True)]. *)
Fixpoint insert_by (sort_by : string) (a : app_stats) (l : list app_stats)
  : list app_stats :=
  match l with
  | [] => [a]
  | x :: l' =>
      if value_leb (sort_value_of sort_by x) (sort_value_of sort_by a)
      then a :: l else x :: insert_by sort_by a l'
  end.

(** [l[:n]] for any integer [n] *)
Definition slice_to {A : Type} (n : Z) (l : list A) : list A :=
  if n <? 0 then firstn (List.length l - Z.to_nat (- n)) l
  else firstn (Z.to_nat n) l.

(** [WisprTools._get_app_statistics]: the list under the key [apps]. *)
Definition _get_app_statistics (limit : Z) (sort_by : string) (min_entries : Z)
  (db : Parser.database) : pyres (list app_stats) :=
  let apps := filter (fun a => min_entries <=? total_entries a) (get_apps db) in
  if comparable (map (sort_value_of sort_by) apps)
  then Ok (slice_to limit (fold_right (insert_by sort_by) [] apps))
  else Raise TypeError.

End Apps.

(** ** [cli/commands/search.py]: locating the matches *)

Module Matches.

(** [s[n:]] *)
Fixpoint drop (n : nat) (s : string) : string :=
  match n, s with
  | O, _ => s
  | S n', String _ r => drop n' r
  | S _, EmptyString => EmptyString
  end.

(** The lowest index, counted from [i], at which [sub] occurs in [s]. *)
Fixpoint find_at (sub s : string) (i : nat) : option nat :=
  if PyStr.startswith s sub then Some i
  else match s with
       | EmptyString => None
       | String _ r => find_at sub r (S i)
       end.

(** [s.find(sub, start)]; [None] stands for -1. *)
Definition find (sub s : string) (start : nat) : option nat :=
  if (String.length s <? start)%nat then None else find_at sub (drop start s) start.

(** The loop of [_find_matches]; [fuel] bounds its turns. *)
Fixpoint find_loop (fuel : nat) (search_query search_text : string) (qlen start : nat)
  : list (nat * nat) :=
  match fuel with
  | O => []
  | S fuel' =>
      match find search_query search_text start with
      | None => []
      | Some pos =>
          (pos, (pos + qlen)%nat) :: find_loop fuel' search_query search_text qlen (S pos)
      end
  end.

(** [SearchCommand._find_matches].  Each turn moves [start] forward, and
    [find] fails once it passes the end: the length of the text and two
    more turns are enough. *)
Definition _find_matches (case_sensitive : bool) (text query : string) : list (nat * nat) :=
  let search_text := if case_sensitive then text else PyStr.lower text in
  let search_query := if case_sensitive then query else PyStr.lower query in
  find_loop (String.length text + 2) search_query search_text (String.length query) 0.

End Matches.


(** ** Rows for the worked examples *)

Module Samples.

(** A row that holds an id, a time stamp, a raw text, an app, a status, a
    conversation, a duration, a word count and the archived flag, and NULL
    elsewhere. *)
Definition row (id ts text : string) (app status conversation : option string)
  (duration : option Q) (words : option Z) (archived : Z) : Parser.Row :=
  Parser.mkRow id (Some text) None None (Some ts) app None duration words status None
    conversation None None (Some archived).

(** Three rows of one morning: two in Slack, one of them archived, and one
    in the notes. *)
Definition morning : Parser.database :=
  [ row "m1-aaaa" "2025-06-20 09:00:00" "good morning team"
      (Some "com.tinyspeck.slackmacgap") (Some "formatted") (Some "c1") (Some (3 # 1)%Q) (Some 3) 0;
    row "m2-bbbb" "2025-06-20 09:05:00" "shopping list"
      (Some "com.apple.Notes") (Some "formatted") (Some "c2") (Some (2 # 1)%Q) (Some 2) 0;
    row "m3-cccc" "2025-06-20 09:10:00" "see you at noon"
      (Some "com.tinyspeck.slackmacgap") (Some "empty") (Some "c1") None None 1 ].

(** The converted row, as the access layer returns it. *)
Definition entry (r : Parser.Row) : Transcript.TranscriptEntry :=
  Parser._row_to_transcript_entry Iso.fromisoformat r.

(** The keyword arguments of a listing by app. *)
Definition by_app (app : string) : Parser.kwargs :=
  Parser.mkKw None None None None (Some app) None None false.

(** A row whose time stamp bears a time zone, and one without time stamp. *)
Definition zoned : Parser.Row :=
  row "z1-dddd" "2025-06-20T09:00:00+00:00" "good morning" None None (Some "c9") None None 0.

Definition unstamped : Parser.Row :=
  Parser.mkRow "u1-eeee" (Some "no clock") None None None None None None None None None
    (Some "c9") None None (Some 0).

(** The conversation of the three rows of the morning, given latest
    first. *)
Definition talk : Conversation.Conversation :=
  match Conversation.make "c1" (map entry (rev morning)) None with
  | Ok c => c
  | Raise _ => Conversation.mkConversation "c1" [] None None None
  end.

(** The conversations of the morning, as the access layer groups them. *)
Definition talks : list Conversation.Conversation :=
  match ParserGroups.get_conversations Iso.fromisoformat Parser.defaults morning with
  | Ok cs => cs
  | Raise _ => []
  end.

End Samples.
(** ** Further vocabulary of the statements *)

Module Terms.


(** The keyword arguments [kw] with [limit=L, offset=m]. *)
Definition with_page (kw : Parser.kwargs) (L m : Z) : Parser.kwargs :=
  Parser.mkKw (Some L) (Some m) (Parser.kw_start_date kw)
    (Parser.kw_end_date kw) (Parser.kw_app kw) (Parser.kw_status kw)
    (Parser.kw_conversation_id kw) (Parser.kw_include_archived kw).

(** Descending order of the stored time stamps, NULL last. *)
Definition desc (a b : Parser.Row) : Prop :=
  Parser.ts_leb (Parser.timestamp b) (Parser.timestamp a) = true.


(** The total of the counts of a histogram. *)
Definition sum_counts (d : list (string * Z)) : Z :=
  fold_right (fun kv acc => snd kv + acc) 0 d.

(** The number of elements of [l] whose key is [k]. *)
Definition count_key {A : Type} (key : A -> string) (k : string) (l : list A) : Z :=
  Z.of_nat (List.length (filter (fun x => String.eqb (key x) k) l)).

(** One of the three texts of the entry is [text]. *)
Definition has_text (e : Transcript.TranscriptEntry) (text : string) : Prop :=
  Transcript.asr_text e = Some text \/ Transcript.formatted_text e = Some text
  \/ Transcript.edited_text e = Some text.

(** [hay] holds [needle] when both are put in lower case. *)
Definition holds_nocase (needle hay : string) : Prop :=
  exists before after,
    PyStr.lower hay = (before ++ PyStr.lower needle ++ after)%string.

(** The count a histogram holds under the key [k]; 0 when it has none. *)
Definition count_in (d : list (string * Z)) (k : string) : Z :=
  Parser.sum_Z (map snd (filter (fun kv => String.eqb (fst kv) k) d)).


(** The lines read before the end of the input, which [readline] reports
    as the empty text. *)
Fixpoint before_eof (lines : list string) : list string :=
  match lines with
  | [] => []
  | EmptyString :: _ => []
  | line :: rest => line :: before_eof rest
  end.

(** The line holds white space only. *)
Definition blank (line : string) : bool :=
  match PyStr.strip line with
  | EmptyString => true
  | _ => false
  end.

(** A response bears a result or an error, and not both. *)
Definition result_xor_error (response : MCPServer.json) : Prop :=
  (MCPServer.member "result" response <> None /\ MCPServer.member "error" response = None) \/
  (MCPServer.member "result" response = None /\ MCPServer.member "error" response <> None).

(** The entry bears a time stamp of the day [k], written [YYYY-MM-DD]. *)
Definition on_day (k : string) (e : Transcript.TranscriptEntry) : bool :=
  match Transcript.timestamp e with
  | Some t => String.eqb (DateTime.strftime_Ymd t) k
  | None => false
  end.

(** The entries a dictionary of days holds under [k]; none without it. *)
Fixpoint day_entries (k : string) (daily : list (string * list Transcript.TranscriptEntry))
  : list Transcript.TranscriptEntry :=
  match daily with
  | [] => []
  | (k', l) :: rest => if String.eqb k' k then l else day_entries k rest
  end.

(** Strictly ascending order of the days. *)
Definition day_before (a b : string * list Transcript.TranscriptEntry) : Prop :=
  PyStr.compare (fst a) (fst b) = Lt.

(** The status is one of those that stand for no real speech. *)
Definition no_speech (e : Transcript.TranscriptEntry) : bool :=
  Transcript.status_is e "empty" || Transcript.status_is e "no_audio"
  || Transcript.status_is e "dismissed".

(** [sub] occurs in [s] at the index [p]. *)
Definition occurs_at (sub s : string) (p : nat) : bool :=
  PyStr.startswith (Matches.drop p s) sub.

(** The indices of [s], its length included, at which [sub] occurs. *)
Definition occurrences (sub s : string) : list nat :=
  filter (occurs_at sub s) (seq 0 (S (String.length s))).

(** The key by which a conversation sorts its entries: the time stamp, and
    [datetime.min] for an entry without one. *)
Definition time_key (e : Transcript.TranscriptEntry) : DateTime.datetime :=
  DTOrder.or_min (Transcript.timestamp e).

(** [a] is not later than [b]. *)
Definition not_later (a b : Transcript.TranscriptEntry) : Prop :=
  DTOrder.utc (time_key a) <= DTOrder.utc (time_key b).

(** The entry bears a time stamp with a time zone. *)
Definition stamped_aware (e : Transcript.TranscriptEntry) : bool :=
  match Transcript.timestamp e with
  | Some t => DTOrder.aware t
  | None => false
  end.

(** Some entry bears a time stamp with a time zone while another bears one
    without, or none. *)
Definition mixed_time_stamps (l : list Transcript.TranscriptEntry) : bool :=
  existsb stamped_aware l && existsb (fun e => negb (stamped_aware e)) l.

(** [a] starts no earlier than [b]; a conversation without start counts as
    starting at the earliest instant. *)
Definition starts_not_before (a b : Conversation.Conversation) : Prop :=
  DTOrder.utc (DTOrder.or_min (Conversation.start_time b))
  <= DTOrder.utc (DTOrder.or_min (Conversation.start_time a)).

(** The entry belongs to the conversation [k]. *)
Definition in_conversation (k : string) (e : Transcript.TranscriptEntry) : bool :=
  String.eqb (ParserGroups.conv_id e) k.

(** The row belongs to the app [k]: its app is not NULL, not empty, and is
    [k]. *)
Definition of_app (k : string) (r : Parser.Row) : bool :=
  Apps.has_app r && String.eqb (Apps.app_of r) k.

(** The rows a grouping holds under [k]; none without it. *)
Fixpoint group_rows (k : string) (groups : list (string * list Parser.Row))
  : list Parser.Row :=
  match groups with
  | [] => []
  | (k', rows) :: rest => if String.eqb k' k then rows else group_rows k rest
  end.

(** Strictly ascending order of the keys of a grouping. *)
Definition key_before (a b : string * list Parser.Row) : Prop :=
  PyStr.compare (fst a) (fst b) = Lt.

(** Descending order of the number of entries. *)
Definition more_entries (a b : Apps.app_stats) : Prop :=
  Apps.total_entries b <= Apps.total_entries a.

(** [a] does not sort after [b] in the descending order of [sort_by]. *)
Definition sorts_before (sort_by : string) (a b : Apps.app_stats) : Prop :=
  Apps.value_leb (Apps.sort_value_of sort_by b) (Apps.sort_value_of sort_by a) = true.

(** The apps with [min_entries] entries or more. *)
Definition eligible (min_entries : Z) (db : Parser.database) : list Apps.app_stats :=
  filter (fun a => min_entries <=? Apps.total_entries a) (Apps.get_apps db).

(** Two values of the status column are the same. *)
Definition same_status (a b : option string) : bool :=
  match a, b with
  | None, None => true
  | Some x, Some y => String.eqb x y
  | _, _ => false
  end.

(** The number of stored rows whose status is [k]. *)
Definition rows_with_status (k : option string) (db : Parser.database) : Z :=
  Z.of_nat (List.length (filter (fun r => same_status (Parser.status r) k) db)).

(** The total of the counts of the groups whose key is [k]. *)
Definition group_count (k : option string) (groups : list (option string * Z)) : Z :=
  Parser.sum_Z (map snd (filter (fun g => same_status (fst g) k) groups)).

(** Strictly ascending order of the group keys. *)
Definition group_before (a b : option string * Z) : Prop :=
  Parser.key_compare (fst a) (fst b) = Lt.
End Terms.

(* ================================================================== *)
(** * Verified properties *)
(* ================================================================== *)

Local Open Scope list_scope.

(** ** Entry record *)

(** C4.  The display text of an entry is its edited text when that is not
    empty, else its formatted text when that is not empty, else its
    raw-recognition text when that is not empty, else the empty string.
    "Not empty" is Python truthiness: present and of non-zero length. *)
Theorem display_text_precedence :
  forall e : Transcript.TranscriptEntry,
    (forall s, Transcript.edited_text e = Some s -> s <> "" -> Transcript.display_text e = s) /\
    (forall s, (Transcript.edited_text e = None \/ Transcript.edited_text e = Some "") ->
               Transcript.formatted_text e = Some s -> s <> "" ->
               Transcript.display_text e = s) /\
    (forall s, (Transcript.edited_text e = None \/ Transcript.edited_text e = Some "") ->
               (Transcript.formatted_text e = None \/ Transcript.formatted_text e = Some "") ->
               Transcript.asr_text e = Some s -> s <> "" ->
               Transcript.display_text e = s) /\
    ((Transcript.edited_text e = None \/ Transcript.edited_text e = Some "") ->
     (Transcript.formatted_text e = None \/ Transcript.formatted_text e = Some "") ->
     (Transcript.asr_text e = None \/ Transcript.asr_text e = Some "") ->
     Transcript.display_text e = "").
Proof.
  intros e. unfold Transcript.display_text.
  repeat split.
  - intros s H Hs. rewrite H. destruct s; [congruence | reflexivity].
  - intros s [H | H] Hf Hs; rewrite H, Hf; destruct s; simpl; congruence.
  - intros s [H | H] [Hf | Hf] Ha Hs; rewrite H, Hf, Ha; destruct s; simpl; congruence.
  - intros [H | H] [Hf | Hf] [Ha | Ha]; rewrite H, Hf, Ha; reflexivity.
Qed.



Lemma display_text_precedence_witness :
  Transcript.display_text
    (Examples.entry (Some "raw") (Some "Formatted.") (Some "") None None None)
  = "Formatted.".
Proof.
  apply (proj1 (proj2 (display_text_precedence
           (Examples.entry (Some "raw") (Some "Formatted.") (Some "") None None None)))).
  - right; reflexivity.
  - reflexivity.
  - discriminate.
Defined.

(** C5.  The quality score of an entry is its confidence whenever the
    confidence is set.  Otherwise it is 0.8 when the status is [formatted]
    and the word count is greater than 0; failing that, 0.1 when the status
    is [empty] or the display text is empty; and 0.5 in all remaining
    cases. *)
Theorem quality_score_cases :
  forall e : Transcript.TranscriptEntry,
    let formatted_with_words :=
      Transcript.status e = Some "formatted" /\
      exists n, Transcript.num_words e = Some n /\ 0 < n in
    let empty :=
      Transcript.status e = Some "empty" \/ Transcript.display_text e = "" in
    (forall c, Transcript.confidence e = Some c -> Transcript.quality_score e = c) /\
    (Transcript.confidence e = None ->
       (formatted_with_words -> Transcript.quality_score e = (8 # 10)%Q) /\
       (~ formatted_with_words -> empty -> Transcript.quality_score e = (1 # 10)%Q) /\
       (~ formatted_with_words -> ~ empty -> Transcript.quality_score e = (1 # 2)%Q)).
Proof.
  intros e fw emp. unfold Transcript.quality_score.
  split.
  - intros c Hc. rewrite Hc. reflexivity.
  - intros Hc. rewrite Hc.
    assert (Hfw : Transcript.status_is e "formatted" && Transcript.has_words e = true <-> fw).
    { unfold fw, Transcript.status_is, Transcript.has_words.
      rewrite andb_true_iff. split.
      - intros [Hs Hw]. destruct (Transcript.status e) as [t |]; [| discriminate].
        apply String.eqb_eq in Hs. subst t. split; [reflexivity |].
        destruct (Transcript.num_words e) as [n |]; [| discriminate].
        exists n. split; [reflexivity |].
        apply andb_true_iff in Hw. destruct Hw as [_ Hw]. apply Z.ltb_lt in Hw. exact Hw.
      - intros [Hs [n [Hn Hpos]]]. rewrite Hs, Hn. split.
        + reflexivity.
        + apply andb_true_iff. split.
          * apply negb_true_iff. apply Z.eqb_neq. lia.
          * apply Z.ltb_lt. exact Hpos. }
    assert (Hemp : Transcript.status_is e "empty"
                   || negb (PyStr.truthy (Some (Transcript.display_text e))) = true <-> emp).
    { unfold emp, Transcript.status_is. rewrite orb_true_iff. split.
      - intros [Hs | Hd].
        + left. destruct (Transcript.status e) as [t |]; [| discriminate].
          apply String.eqb_eq in Hs. subst t. reflexivity.
        + right. destruct (Transcript.display_text e); [reflexivity | discriminate].
      - intros [Hs | Hd].
        + left. rewrite Hs. reflexivity.
        + right. rewrite Hd. reflexivity. }
    destruct (Transcript.status_is e "formatted" && Transcript.has_words e) eqn:E1.
    + repeat split; intros; try reflexivity; exfalso;
        match goal with H : ~ fw |- _ => apply H; apply Hfw; reflexivity end.
    + assert (Hnfw : ~ fw) by (intros H; apply Hfw in H; discriminate).
      destruct (Transcript.status_is e "empty"
                || negb (PyStr.truthy (Some (Transcript.display_text e)))) eqn:E2.
      * repeat split; intros; try reflexivity; try contradiction.
        exfalso. match goal with H : ~ emp |- _ => apply H; apply Hemp; reflexivity end.
      * assert (Hnemp : ~ emp) by (intros H; apply Hemp in H; discriminate).
        repeat split; intros; try reflexivity; contradiction.
Qed.

Lemma quality_score_cases_witness :
  Transcript.quality_score
    (Examples.entry (Some "hello there") None None (Some "formatted") (Some 2) None)
  = (8 # 10)%Q.
Proof.
  apply (proj1 (proj2 (quality_score_cases
           (Examples.entry (Some "hello there") None None (Some "formatted") (Some 2) None))
         eq_refl)).
  split.
  - reflexivity.
  - exists 2. split; [reflexivity | lia].
Defined.

(** ** Strings *)

Lemma startswith_spec :
  forall s p, PyStr.startswith s p = true <-> exists r, s = (p ++ r)%string.
Proof.
  intros s p. revert s. induction p as [| a p IH]; intros s.
  - split; [intros _; exists s; reflexivity | intros _; destruct s; reflexivity].
  - destruct s as [| b s]; simpl.
    + split; [discriminate | intros [r Hr]; discriminate].
    + rewrite andb_true_iff, IH. split.
      * intros [Hab [r Hr]]. apply Ascii.eqb_eq in Hab. subst. exists r. reflexivity.
      * intros [r Hr]. injection Hr as Hb Hs. subst. split.
        -- apply Ascii.eqb_refl.
        -- exists r. reflexivity.
Qed.

(** [needle in hay] holds exactly when [hay] is some text, then [needle],
    then some text. *)
Lemma contains_spec :
  forall needle hay,
    PyStr.contains needle hay = true <->
    exists before after, hay = (before ++ needle ++ after)%string.
Proof.
  intros needle hay. induction hay as [| c hay IH].
  - cbn [PyStr.contains]. rewrite orb_false_r, startswith_spec. split.
    + intros [r Hr]. exists ""%string, r. exact Hr.
    + intros [b [a H]]. destruct b; [exists a; exact H | discriminate].
  - cbn [PyStr.contains]. rewrite orb_true_iff, startswith_spec, IH. split.
    + intros [[r Hr] | [b [a H]]].
      * exists ""%string, r. exact Hr.
      * exists (String c b), a. simpl. rewrite H. reflexivity.
    + intros [b [a H]]. destruct b as [| c' b].
      * left. exists a. exact H.
      * right. simpl in H. injection H as _ H. exists b, a. exact H.
Qed.

(** ** Access layer *)

Section AccessLayer.

Variable fromisoformat : string -> option DateTime.datetime.

Lemma insert_desc_In :
  forall (r x : Parser.Row) (l : list Parser.Row),
    In x (Parser.insert_desc r l) <-> x = r \/ In x l.
Proof.
  intros r x l. induction l as [| y l IH]; simpl.
  - intuition.
  - destruct (Parser.ts_leb (Parser.timestamp y) (Parser.timestamp r)); simpl.
    + intuition.
    + rewrite IH. intuition.
Qed.

Lemma order_by_timestamp_desc_In :
  forall (x : Parser.Row) (l : list Parser.Row),
    In x (Parser.order_by_timestamp_desc l) <-> In x l.
Proof.
  intros x l. unfold Parser.order_by_timestamp_desc.
  induction l as [| y l IH]; simpl.
  - reflexivity.
  - rewrite insert_desc_In, IH. intuition.
Qed.

Lemma select_rows_In :
  forall kw db r,
    In r (Parser.select_rows kw db) <-> In r db /\ Parser.where_clause kw r = true.
Proof.
  intros kw db r. unfold Parser.select_rows.
  rewrite order_by_timestamp_desc_In. apply filter_In.
Qed.

Lemma count_app :
  forall p (l1 l2 : list Parser.Row),
    Parser.count p (l1 ++ l2) = Parser.count p l1 + Parser.count p l2.
Proof.
  intros p l1 l2. unfold Parser.count.
  rewrite filter_app, length_app. lia.
Qed.

(** C10.  A row whose archived column is NULL is returned by the default
    listing (where it is not archived), and yet the global statistics count
    it among the archived entries: the active entries are exactly the rows
    whose flag is the integer 0, the archived ones are the total minus the
    active ones, so that the row adds one to the archived count and nothing
    to the active count. *)
Theorem null_archived_listed_yet_counted_archived :
  forall (before after : list Parser.Row) (r : Parser.Row),
    Parser.isArchived r = None ->
    let db := (before ++ r :: after)%list in
    let without := (before ++ after)%list in
    (exists l, Parser.get_entries fromisoformat Parser.defaults db = Ok l /\
               In (Parser._row_to_transcript_entry fromisoformat r) l) /\
    Transcript.is_archived (Parser._row_to_transcript_entry fromisoformat r) = false /\
    Parser.active_entries (Parser.get_statistics db) = Parser.count Spec.flag_is_zero db /\
    Parser.archived_entries (Parser.get_statistics db)
      = Parser.total_entries (Parser.get_statistics db)
        - Parser.active_entries (Parser.get_statistics db) /\
    Parser.active_entries (Parser.get_statistics db)
      = Parser.active_entries (Parser.get_statistics without) /\
    Parser.archived_entries (Parser.get_statistics db)
      = Parser.archived_entries (Parser.get_statistics without) + 1.
Proof.
  intros before after r Hnull db without.
  assert (Hact : Parser.count Spec.flag_is_zero db
                 = Parser.count Spec.flag_is_zero without).
  { unfold db, without. rewrite !count_app. f_equal.
    unfold Parser.count. simpl. unfold Spec.flag_is_zero at 1.
    rewrite Hnull. reflexivity. }
  split; [| split; [| split; [| split; [| split]]]].
  - exists (map (Parser._row_to_transcript_entry fromisoformat)
                (Parser.select_rows Parser.defaults db)).
    split; [reflexivity |].
    apply in_map. apply select_rows_In. split.
    + unfold db. apply in_or_app. right. left. reflexivity.
    + unfold Parser.where_clause. simpl. rewrite Hnull. reflexivity.
  - unfold Parser._row_to_transcript_entry. simpl. rewrite Hnull. reflexivity.
  - reflexivity.
  - reflexivity.
  - exact Hact.
  - change (Z.of_nat (List.length db) - Parser.count Spec.flag_is_zero db
            = Z.of_nat (List.length without) - Parser.count Spec.flag_is_zero without + 1).
    rewrite Hact. unfold db, without. rewrite !length_app. simpl. lia.
Qed.

Lemma filter_length_le :
  forall (A : Type) (p : A -> bool) (l : list A),
    (List.length (filter p l) <= List.length l)%nat.
Proof.
  intros A p l. induction l as [| x l IH]; simpl.
  - lia.
  - destruct (p x); simpl; lia.
Qed.

(** C9 (amended).  For every limit [L] with [0 < L < 2^63], the limit is
    applied to the filtered listing before the text is matched: the search
    returns the matching entries among the [L] most recent entries of the
    listing, so at most [L] entries, each of them in that window, and an
    entry of the listing outside the window is not returned, however few
    matches the window holds. *)
Theorem search_limit_window :
  forall (query : string) (kw : Parser.kwargs) (db : Parser.database) (L : Z),
    0 < L < 2 ^ 63 ->
    Parser.truthy_int (Parser.kw_offset kw) = None ->
    let window := firstn (Z.to_nat L) (Spec.listing fromisoformat kw db) in
    exists res,
      Parser.search_text fromisoformat query (Spec.with_limit kw L) db = Ok res /\
      res = filter (Parser.entry_matches (PyStr.lower query)) window /\
      Z.of_nat (List.length res) <= L /\
      (forall e, In e res -> In e window) /\
      (forall e, In e (skipn (Z.to_nat L) (Spec.listing fromisoformat kw db)) ->
                 ~ In e window -> ~ In e res).
Proof.
  intros query kw db L HL Hoff window.
  exists (filter (Parser.entry_matches (PyStr.lower query)) window).
  assert (Hin : forall e, In e (filter (Parser.entry_matches (PyStr.lower query)) window) ->
                          In e window).
  { intros e He. apply filter_In in He. tauto. }
  split; [| split; [reflexivity | split; [| split]]].
  - unfold Parser.search_text, Parser.get_entries, Parser.limit_offset.
    change (Parser.kw_limit (Spec.with_limit kw L)) with (Some L).
    change (Parser.kw_offset (Spec.with_limit kw L)) with (Parser.kw_offset kw).
    change (Parser.select_rows (Spec.with_limit kw L) db) with (Parser.select_rows kw db).
    rewrite Hoff. unfold Parser.truthy_int.
    replace (L =? 0) with false by (symmetry; apply Z.eqb_neq; lia).
    replace (Parser.fits_int64 L) with true.
    2:{ symmetry. unfold Parser.fits_int64. apply andb_true_iff. split.
        - apply Z.leb_le. lia.
        - apply Z.ltb_lt. lia. }
    unfold Parser.sql_limit.
    replace (L <? 0) with false by (symmetry; apply Z.ltb_ge; lia).
    simpl. unfold window, Spec.listing. rewrite firstn_map. reflexivity.
  - pose proof (filter_length_le _ (Parser.entry_matches (PyStr.lower query)) window) as H1.
    assert (H2 : (List.length window <= Z.to_nat L)%nat).
    { unfold window. rewrite length_firstn. lia. }
    lia.
  - exact Hin.
  - intros e _ Hout He. apply Hout. apply Hin. exact He.
Qed.

(** The part of the search that holds whatever the flags: a returned entry
    is an entry of the filtered listing, and one of its three texts, put in
    lower case, holds the query put in lower case. *)
Lemma search_text_sound :
  forall query kw db res e,
    Parser.search_text fromisoformat query kw db = Ok res ->
    In e res ->
    (exists l, Parser.get_entries fromisoformat kw db = Ok l /\ In e l) /\
    exists text,
      (Transcript.asr_text e = Some text \/ Transcript.formatted_text e = Some text
       \/ Transcript.edited_text e = Some text) /\
      exists before after,
        PyStr.lower text = (before ++ PyStr.lower query ++ after)%string.
Proof.
  intros query kw db res e Hres He. unfold Parser.search_text in Hres.
  destruct (Parser.get_entries fromisoformat kw db) as [l | x] eqn:El; [| discriminate].
  simpl in Hres. injection Hres as Hres. subst res.
  apply filter_In in He. destruct He as [Hin Hm]. split.
  - exists l. split; [reflexivity | exact Hin].
  - unfold Parser.entry_matches, Parser.field_matches in Hm.
    rewrite !orb_true_iff, !andb_true_iff in Hm.
    destruct Hm as [[[_ H] | [_ H]] | [_ H]].
    + destruct (Transcript.asr_text e) as [t |]; [| discriminate].
      exists t. split; [tauto | apply contains_spec; exact H].
    + destruct (Transcript.formatted_text e) as [t |]; [| discriminate].
      exists t. split; [tauto | apply contains_spec; exact H].
    + destruct (Transcript.edited_text e) as [t |]; [| discriminate].
      exists t. split; [tauto | apply contains_spec; exact H].
Qed.

(** The listing the prefix search reads: the non-archived rows, most
    recent first, cut to a thousand. *)
Lemma recent_window :
  forall db,
    Lookup.recent fromisoformat db
    = Ok (map (Parser._row_to_transcript_entry fromisoformat)
            (firstn 1000 (Parser.order_by_timestamp_desc (filter Spec.not_archived db)))).
Proof.
  intros db.
  assert (Hw : filter (Parser.where_clause
                         (Parser.mkKw (Some 1000) None None None None None None false)) db
               = filter Spec.not_archived db).
  { apply filter_ext. intros r. unfold Parser.where_clause, Spec.not_archived.
    cbn [Parser.kw_include_archived Parser.kw_start_date Parser.kw_end_date Parser.kw_app
         Parser.kw_status Parser.kw_conversation_id Parser.when_truthy PyStr.truthy].
    rewrite !andb_true_r. reflexivity. }
  assert (Hl : forall l,
             Parser.limit_offset
               (Parser.mkKw (Some 1000) None None None None None None false) l
             = Ok (firstn 1000 l)) by reflexivity.
  unfold Lookup.recent, Parser.get_entries, Parser.select_rows.
  rewrite Hl, Hw. reflexivity.
Qed.

(** C2 (amended).  The look-up first tries the id as a whole and returns
    the record that bears it.  Failing that, it reads the window of the
    thousand most recent non-archived records: one id there starting with
    [P] gives that record, none gives "not found", two or more give the
    ambiguity with the first ten candidates and no record.  The command
    line reads the window only for a [P] shorter than 36 characters, prints
    the candidates as a warning and then reports "not found". *)
Theorem lookup_by_id_then_prefix :
  forall (db : Parser.database) (P : string),
    let window :=
      map (Parser._row_to_transcript_entry fromisoformat)
        (firstn 1000 (Parser.order_by_timestamp_desc (filter Spec.not_archived db))) in
    let ms := Lookup.prefix_matches P window in
    (forall e, Parser.get_entry_by_id fromisoformat P db = Some e ->
       Lookup._get_transcript fromisoformat P db = Ok (Lookup.Entry e) /\
       Lookup.show_run fromisoformat P db = Ok ([], Some e, 0)) /\
    (Parser.get_entry_by_id fromisoformat P db = None ->
       (forall m, ms = [m] ->
          Lookup._get_transcript fromisoformat P db = Ok (Lookup.Entry m)) /\
       (ms = [] ->
          Lookup._get_transcript fromisoformat P db = Ok (Lookup.NotFound P)) /\
       ((2 <= List.length ms)%nat ->
          Lookup._get_transcript fromisoformat P db
          = Ok (Lookup.MultipleMatches P (map Lookup.candidate (firstn 10 ms)))) /\
       ((String.length P < 36)%nat ->
          (forall m, ms = [m] ->
             Lookup.show_run fromisoformat P db = Ok ([], Some m, 0)) /\
          (ms = [] ->
             Lookup.show_run fromisoformat P db
             = Ok ([Lookup.Error ("Transcript not found: " ++ P)], None, 1)) /\
          ((2 <= List.length ms)%nat ->
             Lookup.show_run fromisoformat P db
             = Ok (Lookup.Warning ("Multiple matches found for '" ++ P ++ "':")
                     :: map (fun m => Lookup.Line (Lookup.candidate_line m)) (firstn 10 ms)
                     ++ [Lookup.Error ("Transcript not found: " ++ P)],
                   None, 1))) /\
       ((36 <= String.length P)%nat ->
          Lookup.show_run fromisoformat P db
          = Ok ([Lookup.Error ("Transcript not found: " ++ P)], None, 1))).
Proof.
  intros db P window ms. split.
  - intros e He. unfold Lookup.show_run, Lookup._find_entry, Lookup._get_transcript.
    rewrite He. split; reflexivity.
  - intros Hnone.
    unfold Lookup.show_run, Lookup._find_entry, Lookup._get_transcript.
    rewrite Hnone, recent_window. fold window. cbn [bind]. fold ms.
    split; [| split; [| split; [| split]]].
    + intros m Hm. rewrite Hm. reflexivity.
    + intros Hm. rewrite Hm. reflexivity.
    + intros Hlen. destruct ms as [| m1 [| m2 rest]]; simpl in Hlen; try lia. reflexivity.
    + intros HP. apply Nat.ltb_lt in HP. rewrite HP.
      split; [| split].
      * intros m Hm. rewrite Hm. reflexivity.
      * intros Hm. rewrite Hm. reflexivity.
      * intros Hlen. destruct ms as [| m1 [| m2 rest]]; simpl in Hlen; try lia. reflexivity.
    + intros HP. apply Nat.ltb_ge in HP. rewrite HP. reflexivity.
Qed.

End AccessLayer.

Lemma null_archived_listed_yet_counted_archived_witness :
  let r := Examples.row "n1" (Some "2025-06-20 10:00:00") (Some "note") None in
  let a := Examples.row "a0" (Some "2025-06-20 11:00:00") (Some "kept") (Some 0) in
  (exists l, Parser.get_entries Iso.fromisoformat Parser.defaults [a; r] = Ok l /\
             In (Parser._row_to_transcript_entry Iso.fromisoformat r) l) /\
  Parser.active_entries (Parser.get_statistics [a; r]) = 1 /\
  Parser.archived_entries (Parser.get_statistics [a; r]) = 1.
Proof.
  intros r a.
  destruct (null_archived_listed_yet_counted_archived Iso.fromisoformat [a] [] r eq_refl)
    as (Hlist & _ & Hactive & _ & _ & Harch).
  split; [exact Hlist |].
  split; [exact (eq_trans Hactive eq_refl) | exact (eq_trans Harch eq_refl)].
Defined.

Lemma search_limit_window_witness :
  let recent := Examples.row "r2" (Some "2025-06-20 11:00:00") (Some "alpha") (Some 0) in
  let older := Examples.row "r1" (Some "2025-06-20 10:00:00") (Some "beta") (Some 0) in
  Parser.search_text Iso.fromisoformat "beta" (Spec.with_limit Parser.defaults 1)
    [older; recent] = Ok [] /\
  In (Parser._row_to_transcript_entry Iso.fromisoformat older)
     (Spec.listing Iso.fromisoformat Parser.defaults [older; recent]).
Proof.
  intros recent older.
  destruct (search_limit_window Iso.fromisoformat "beta" Parser.defaults [older; recent] 1)
    as (res & Hres & Heq & _).
  - lia.
  - reflexivity.
  - split.
    + rewrite Hres, Heq. reflexivity.
    + right. left. reflexivity.
Defined.

(** C9, as stated, fails at the limit 0, which Python reads as "no limit":
    a search with [limit=0] returns the one matching entry of the store. *)
Lemma limit_zero_is_no_limit :
  ~ Spec.limit_claim Iso.fromisoformat "note" Parser.defaults
      [Examples.row "n1" (Some "2025-06-20 10:00:00") (Some "a note") (Some 0)] 0.
Proof.
  intros (res & Hres & Hlen & _).
  vm_compute in Hres. injection Hres as Hres. subst res.
  simpl in Hlen. lia.
Qed.

(** ** Search from the command line *)

(** C1, at the input where the code departs from it.  [search Hello
    --case-sensitive] on a store whose one entry reads "hello world" returns
    that entry, although none of its three texts holds "Hello": the flag
    never reaches the filter, which always compares in lower case. *)
Theorem case_sensitive_search_returns_other_case :
  let db := [Examples.row "e1" (Some "2025-06-20 10:00:00") (Some "hello world") (Some 0)] in
  let a := SearchCommand.mkArgs "Hello" 50 None None None None None false true false 0 in
  exists e,
    SearchCommand.run Iso.fromisoformat (Examples.clock "2025-06-21 12:00:00") a db
      = Ok (SearchCommand.Results [e]) /\
    Transcript.asr_text e = Some "hello world"%string /\
    Transcript.formatted_text e = None /\
    Transcript.edited_text e = None /\
    PyStr.contains "Hello" "hello world" = false.
Proof.
  intros db a.
  exists (Parser._row_to_transcript_entry Iso.fromisoformat
            (Examples.row "e1" (Some "2025-06-20 10:00:00") (Some "hello world") (Some 0))).
  repeat split; vm_compute; reflexivity.
Qed.

(** The date bounds are compared as texts.  [isoformat] separates date
    and time by "T", the store by a blank, and the blank is the smaller
    character: an entry stamped 23:00 passes the bound [--until] of 10:00 of
    the same day. *)
Lemma until_bound_compared_as_text :
  let db := [Examples.row "e1" (Some "2025-06-20 23:00:00") (Some "hello world") (Some 0)] in
  let a := SearchCommand.mkArgs "hello" 50 None (Some "2025-06-20 10:00") None None None
             false false false 0 in
  exists e,
    SearchCommand.run Iso.fromisoformat (Examples.clock "2025-06-21 12:00:00") a db
      = Ok (SearchCommand.Results [e]) /\
    Transcript.timestamp e = Some (Examples.clock "2025-06-20 23:00:00") /\
    DateParser.parse_date (Examples.clock "2025-06-21 12:00:00") "2025-06-20 10:00"
      = Ok (Some (Examples.clock "2025-06-20 10:00:00")) /\
    DateTime.dt_us (Examples.clock "2025-06-20 10:00:00")
      < DateTime.dt_us (Examples.clock "2025-06-20 23:00:00").
Proof.
  intros db a.
  exists (Parser._row_to_transcript_entry Iso.fromisoformat
            (Examples.row "e1" (Some "2025-06-20 23:00:00") (Some "hello world") (Some 0))).
  repeat split; vm_compute; reflexivity.
Qed.

(** ** Global statistics *)

(** C7, at the input where the code departs from it.  A store holds one
    row, of 7 words and with no duration.  The global statistics report 0
    words in total, the sum being taken, like the mean, over the rows where
    both columns are present; the statistics of the same tool under a
    filter that keeps the row report 7. *)
Theorem global_sums_skip_rows_with_a_null :
  let r := Parser.mkRow "w1" (Some "seven words or so in here") None None
             (Some "2025-06-20 10:00:00") (Some "md.obsidian") None None (Some 7)
             (Some "formatted") None None None None (Some 0) in
  let now := Examples.clock "2025-06-21 12:00:00" in
  (exists stats,
     WisprTools._get_database_statistics Iso.fromisoformat now None None None [r]
       = Ok (WisprTools.Overall stats) /\
     Parser.total_entries stats = 1 /\ Parser.total_words stats = 0) /\
  (exists stats,
     WisprTools._get_database_statistics Iso.fromisoformat now None None (Some "obsidian") [r]
       = Ok (WisprTools.Filtered stats) /\
     WisprTools.total_entries stats = 1 /\ WisprTools.total_words stats = 7).
Proof.
  intros r now. split.
  - exists (Parser.get_statistics [r]). repeat split.
  - exists (WisprTools.filtered [Parser._row_to_transcript_entry Iso.fromisoformat r]).
    repeat split.
Qed.

(** The histogram of the global statistics keeps one count per key: the
    rows without a status and the rows whose status is the empty text both
    go under "unknown", and the later group replaces the earlier one. *)
Lemma global_histogram_overwrites_unknown :
  let r := fun s => Parser.mkRow "x" None None None None None None None None s
                      None None None None (Some 0) in
  Parser.status_breakdown (Parser.get_statistics [r None; r None; r (Some ""%string)])
  = [("unknown"%string, 1)].
Proof. reflexivity. Qed.

(** ** Look-up of one record *)

Lemma lookup_by_id_then_prefix_witness :
  let db := [ Examples.row "abcdef-0001" (Some "2025-06-20 10:00:00") (Some "one") (Some 0);
              Examples.row "abcxyz-0002" (Some "2025-06-20 11:00:00") (Some "two") (Some 0) ] in
  Lookup._get_transcript Iso.fromisoformat "abcdef" db
  = Ok (Lookup.Entry (Parser._row_to_transcript_entry Iso.fromisoformat
          (Examples.row "abcdef-0001" (Some "2025-06-20 10:00:00") (Some "one") (Some 0)))) /\
  Lookup._get_transcript Iso.fromisoformat "abc" db
  = Ok (Lookup.MultipleMatches "abc"
          [("abcxyz-0002", "Unknown", "two"); ("abcdef-0001", "Unknown", "one")]%string).
Proof.
  intros db.
  pose proof (lookup_by_id_then_prefix Iso.fromisoformat db "abcdef") as [_ H1].
  pose proof (lookup_by_id_then_prefix Iso.fromisoformat db "abc") as [_ H2].
  split.
  - apply (proj1 (H1 eq_refl)). reflexivity.
  - apply (proj1 (proj2 (proj2 (H2 eq_refl)))). simpl. lia.
Defined.

(** C2, as stated, fails on a store whose only record bearing the prefix
    is archived: the prefix search reads the default listing, which leaves
    archived records out, and reports "not found". *)
Lemma archived_record_not_found_by_prefix :
  ~ Spec.lookup_claim Iso.fromisoformat
      [Examples.row "abcdef-0001" (Some "2025-06-20 10:00:00") (Some "one") (Some 1)]
      "abcdef".
Proof.
  intros [H _].
  specialize (H _ eq_refl). vm_compute in H. discriminate H.
Qed.

(** Two further inputs of the same kind: an archived record hides the
    ambiguity, and an id that is itself a prefix of another is returned at
    once. *)
Lemma ambiguity_resolved_silently :
  (exists e,
     Lookup._get_transcript Iso.fromisoformat "abc"
       [ Examples.row "abcdef-0001" None (Some "one") (Some 1);
         Examples.row "abcxyz-0002" None (Some "two") (Some 0) ]
     = Ok (Lookup.Entry e) /\ Transcript.transcript_id e = "abcxyz-0002"%string) /\
  (exists e,
     Lookup._get_transcript Iso.fromisoformat "abc"
       [ Examples.row "abc" None (Some "one") (Some 0);
         Examples.row "abcd" None (Some "two") (Some 0) ]
     = Ok (Lookup.Entry e) /\ Transcript.transcript_id e = "abc"%string).
Proof.
  split; eexists; split; reflexivity.
Qed.

(** ** JSON-RPC server *)

Section Server.

Variable env : MCPServer.environment.

(** A call that does not bind (a required parameter is missing, a key is
    no parameter, the arguments are no mapping) ends inside [execute_tool],
    whose result then holds the key [error]. *)
Lemma execute_tool_unbound :
  forall name sg arguments,
    MCPServer.signature_of name MCPServer.signatures = Some sg ->
    MCPServer.binds sg arguments = false ->
    MCPServer.has_key "error" (MCPServer.execute_tool env (MCPServer.JStr name) arguments)
    = true.
Proof.
  intros name sg arguments Hsg Hb. unfold MCPServer.execute_tool.
  rewrite Hsg, Hb. reflexivity.
Qed.

Lemma handle_request_shape :
  forall d response,
    MCPServer.handle_request env (MCPServer.JObj d) = Ok response ->
    MCPServer.member "jsonrpc" response = Some (MCPServer.JStr "2.0") /\
    MCPServer.member "id" response = Some (MCPServer.get "id" d MCPServer.JNull) /\
    MCPServer.truthy response = true.
Proof.
  intros d response H. unfold MCPServer.handle_request in H.
  repeat match type of H with
         | context [if ?b then _ else _] => destruct b
         end;
    try (injection H as H; subst response; repeat split; reflexivity).
  unfold MCPServer._handle_tools_call in H.
  destruct (MCPServer.get "params" d (MCPServer.JObj []));
    try (injection H as H; subst response; repeat split; reflexivity).
  repeat match type of H with
         | context [if ?b then _ else _] => destruct b
         end;
    injection H as H; subst response; repeat split; reflexivity.
Qed.

(** C3 (amended).  Every response carries [jsonrpc] "2.0" and the id of
    the request, null when the line does not decode or the request is no
    object or bears none.  A line that is not JSON gives -32700, a method
    the server does not know -32601, a [tools/call] without tool name
    -32602.  An internal failure gives -32603: a result of the tool that
    bears an error, which includes a call that lacks an argument the named
    tool requires; parameters that are no object; a request that is no
    object. *)
Theorem rpc_responses :
  (forall line response,
     MCPServer.process_line env line = Some response ->
     MCPServer.member "jsonrpc" response = Some (MCPServer.JStr "2.0") /\
     MCPServer.member "id" response
     = Some (match MCPServer.loads env (PyStr.strip line) with
             | inl request => MCPServer.id_of request
             | inr _ => MCPServer.JNull
             end)) /\
  (forall line message,
     PyStr.strip line <> ""%string ->
     MCPServer.loads env (PyStr.strip line) = inr message ->
     exists response,
       MCPServer.process_line env line = Some response /\
       MCPServer.error_code response = Some (-32700)) /\
  (forall d,
     Spec.known_method (MCPServer.get "method" d MCPServer.JNull) = false ->
     exists response,
       MCPServer.handle_request env (MCPServer.JObj d) = Ok response /\
       MCPServer.error_code response = Some (-32601)) /\
  (forall d p,
     MCPServer.is_str (MCPServer.get "method" d MCPServer.JNull) "tools/call" = true ->
     MCPServer.get "params" d (MCPServer.JObj []) = MCPServer.JObj p ->
     (MCPServer.truthy (MCPServer.get "name" p MCPServer.JNull) = false ->
      exists response,
        MCPServer.handle_request env (MCPServer.JObj d) = Ok response /\
        MCPServer.error_code response = Some (-32602)) /\
     (MCPServer.truthy (MCPServer.get "name" p MCPServer.JNull) = true ->
      MCPServer.has_key "error"
        (MCPServer.execute_tool env (MCPServer.get "name" p MCPServer.JNull)
           (MCPServer.get "arguments" p (MCPServer.JObj []))) = true ->
      exists response,
        MCPServer.handle_request env (MCPServer.JObj d) = Ok response /\
        MCPServer.error_code response = Some (-32603)) /\
     (forall name sg,
        MCPServer.get "name" p MCPServer.JNull = MCPServer.JStr name ->
        MCPServer.signature_of name MCPServer.signatures = Some sg ->
        MCPServer.binds sg (MCPServer.get "arguments" p (MCPServer.JObj [])) = false ->
        exists response,
          MCPServer.handle_request env (MCPServer.JObj d) = Ok response /\
          MCPServer.error_code response = Some (-32603))) /\
  (forall d,
     MCPServer.is_str (MCPServer.get "method" d MCPServer.JNull) "tools/call" = true ->
     (forall p, MCPServer.get "params" d (MCPServer.JObj []) <> MCPServer.JObj p) ->
     exists response,
       MCPServer.handle_request env (MCPServer.JObj d) = Ok response /\
       MCPServer.error_code response = Some (-32603)) /\
  (forall line request,
     PyStr.strip line <> ""%string ->
     MCPServer.loads env (PyStr.strip line) = inl request ->
     (forall d, request <> MCPServer.JObj d) ->
     exists response,
       MCPServer.process_line env line = Some response /\
       MCPServer.error_code response = Some (-32603)).
Proof.
  assert (Hcall : forall d p,
            MCPServer.is_str (MCPServer.get "method" d MCPServer.JNull) "tools/call" = true ->
            MCPServer.get "params" d (MCPServer.JObj []) = MCPServer.JObj p ->
            MCPServer.truthy (MCPServer.get "name" p MCPServer.JNull) = true ->
            MCPServer.has_key "error"
              (MCPServer.execute_tool env (MCPServer.get "name" p MCPServer.JNull)
                 (MCPServer.get "arguments" p (MCPServer.JObj []))) = true ->
            exists response,
              MCPServer.handle_request env (MCPServer.JObj d) = Ok response /\
              MCPServer.error_code response = Some (-32603)).
  { intros d p Hm Hp Hn He. unfold MCPServer.handle_request.
    destruct (MCPServer.get "method" d MCPServer.JNull) as [| | | | m | |];
      try discriminate Hm.
    simpl in Hm. apply String.eqb_eq in Hm. subst m. simpl.
    rewrite Hp. simpl. rewrite Hn. simpl. rewrite He. eexists. split; reflexivity. }
  split; [| split; [| split; [| split; [| split]]]].
  - intros line response H. unfold MCPServer.process_line in H.
    destruct (PyStr.strip line) as [| c t]; [discriminate |].
    destruct (MCPServer.loads env (String c t)) as [request | message].
    + destruct (MCPServer.handle_request env request) as [r | e] eqn:Hr.
      * destruct request; try discriminate Hr.
        apply handle_request_shape in Hr. destruct Hr as (Hj & Hi & Ht).
        rewrite Ht in H. injection H as H. subst r. split; assumption.
      * injection H as H. subst response.
        destruct request; try (split; reflexivity).
        unfold MCPServer.handle_request in Hr.
        destruct (if MCPServer.is_str (MCPServer.get "method" members MCPServer.JNull)
                       "initialize" then _ else _); discriminate Hr.
    + injection H as H. subst response. split; reflexivity.
  - intros line message Hne Hl. unfold MCPServer.process_line.
    destruct (PyStr.strip line) as [| c t]; [congruence |].
    rewrite Hl. eexists. split; reflexivity.
  - intros d Hk. unfold Spec.known_method in Hk.
    apply orb_false_iff in Hk. destruct Hk as [Hk H4].
    apply orb_false_iff in Hk. destruct Hk as [Hk H3].
    apply orb_false_iff in Hk. destruct Hk as [H1 H2].
    unfold MCPServer.handle_request. rewrite H1, H2, H3, H4.
    eexists. split; reflexivity.
  - intros d p Hm Hp. split; [| split].
    + intros Hn. unfold MCPServer.handle_request.
      destruct (MCPServer.get "method" d MCPServer.JNull) as [| | | | m | |];
        try discriminate Hm.
      simpl in Hm. apply String.eqb_eq in Hm. subst m. simpl.
      rewrite Hp. simpl. rewrite Hn. simpl. eexists. split; reflexivity.
    + apply Hcall; assumption.
    + intros name sg Hname Hsg Hb.
      assert (Hne : name <> ""%string).
      { intros ->. discriminate Hsg. }
      apply (Hcall d p Hm Hp).
      * rewrite Hname. destruct name; [congruence | reflexivity].
      * rewrite Hname. apply (execute_tool_unbound name sg); assumption.
  - intros d Hm Hp. unfold MCPServer.handle_request.
    destruct (MCPServer.get "method" d MCPServer.JNull) as [| | | | m | |];
      try discriminate Hm.
    simpl in Hm. apply String.eqb_eq in Hm. subst m. simpl.
    destruct (MCPServer.get "params" d (MCPServer.JObj [])) as [| | | | | | p];
      try (eexists; split; reflexivity).
    exfalso. apply (Hp p). reflexivity.
  - intros line request Hne Hl Hobj. unfold MCPServer.process_line.
    destruct (PyStr.strip line) as [| c t]; [congruence |].
    rewrite Hl.
    destruct request as [| | | | | | d]; try (eexists; split; reflexivity).
    exfalso. apply (Hobj d). reflexivity.
Qed.

End Server.

Lemma rpc_responses_witness :
  exists response,
    MCPServer.handle_request Examples.env
      (Examples.tools_call (MCPServer.JObj [("arguments", MCPServer.JObj [])]))
    = Ok response /\
    MCPServer.error_code response = Some (-32602).
Proof.
  unfold Examples.tools_call.
  apply (proj1 (proj1 (proj2 (proj2 (proj2 (rpc_responses Examples.env))))
                  [ ("jsonrpc", MCPServer.JStr "2.0"); ("id", MCPServer.JInt 7);
                    ("method", MCPServer.JStr "tools/call");
                    ("params", MCPServer.JObj [("arguments", MCPServer.JObj [])]) ]
                  [("arguments", MCPServer.JObj [])] eq_refl eq_refl)).
  reflexivity.
Defined.

(** C3, as stated, fails on a call of [search_transcripts] without its
    required [query]: the response is the internal error -32603. *)
Lemma missing_query_is_internal_error :
  ~ Spec.missing_argument_claim
      (Examples.tools_call
         (MCPServer.JObj [ ("name", MCPServer.JStr "search_transcripts");
                           ("arguments", MCPServer.JObj []) ])).
Proof.
  intros H. destruct (H eq_refl Examples.env) as (response & Hr & Hc).
  vm_compute in Hr. injection Hr as Hr. subst response. discriminate Hc.
Qed.

(** ** Date parser *)

Lemma all_chars_app :
  forall p a b,
    Spec.all_chars p (a ++ b)%string = Spec.all_chars p a && Spec.all_chars p b.
Proof.
  intros p a b. induction a as [| c a IH]; simpl.
  - reflexivity.
  - rewrite IH. apply andb_assoc.
Qed.

Lemma all_chars_weaken :
  forall (p q : ascii -> bool) s,
    (forall c, p c = true -> q c = true) ->
    Spec.all_chars p s = true -> Spec.all_chars q s = true.
Proof.
  intros p q s Hpq. induction s as [| c s IH]; simpl.
  - reflexivity.
  - rewrite !andb_true_iff. intros [Hc Hs]. split; auto.
Qed.

(** Character classes, by their codes. *)
Lemma isspace_code :
  forall c, PyStr.isspace c = true <->
            (9 <= nat_of_ascii c <= 13 \/ 28 <= nat_of_ascii c <= 32)%nat.
Proof.
  intros c. unfold PyStr.isspace.
  rewrite orb_true_iff, !andb_true_iff, !Nat.leb_le. tauto.
Qed.

Lemma is_digit_code :
  forall c, DateParser.is_digit c = true <-> (48 <= nat_of_ascii c <= 57)%nat.
Proof.
  intros c. unfold DateParser.is_digit, Strptime.in_range.
  rewrite andb_true_iff, !Nat.leb_le. reflexivity.
Qed.

Lemma is_upper_code :
  forall c, PyStr.is_upper c = true <-> (65 <= nat_of_ascii c <= 90)%nat.
Proof.
  intros c. unfold PyStr.is_upper. rewrite andb_true_iff, !Nat.leb_le. reflexivity.
Qed.

Lemma is_letter_code :
  forall c, Spec.is_letter c = true <->
            (65 <= nat_of_ascii c <= 90 \/ 97 <= nat_of_ascii c <= 122)%nat.
Proof.
  intros c. unfold Spec.is_letter.
  rewrite orb_true_iff, !andb_true_iff, !Nat.leb_le. tauto.
Qed.

Lemma is_lower_letter_code :
  forall c, Spec.is_lower_letter c = true <-> (97 <= nat_of_ascii c <= 122)%nat.
Proof.
  intros c. unfold Spec.is_lower_letter. rewrite andb_true_iff, !Nat.leb_le. reflexivity.
Qed.

Lemma not_true_false : forall b : bool, ~ b = true -> b = false.
Proof. intros []; congruence. Qed.

Lemma digit_not_space :
  forall c, DateParser.is_digit c = true -> PyStr.isspace c = false.
Proof.
  intros c H. apply is_digit_code in H. apply not_true_false.
  rewrite isspace_code. lia.
Qed.

Lemma space_not_digit :
  forall c, PyStr.isspace c = true -> DateParser.is_digit c = false.
Proof.
  intros c H. apply isspace_code in H. apply not_true_false.
  rewrite is_digit_code. lia.
Qed.

Lemma letter_not_space :
  forall c, Spec.is_letter c = true -> PyStr.isspace c = false.
Proof.
  intros c H. apply is_letter_code in H. apply not_true_false.
  rewrite isspace_code. lia.
Qed.

Lemma letter_not_digit :
  forall c, Spec.is_letter c = true -> DateParser.is_digit c = false.
Proof.
  intros c H. apply is_letter_code in H. apply not_true_false.
  rewrite is_digit_code. lia.
Qed.

Lemma lower_char_fixed :
  forall c, PyStr.is_upper c = false -> PyStr.lower_char c = c.
Proof. intros c H. unfold PyStr.lower_char. rewrite H. reflexivity. Qed.

Lemma space_not_upper :
  forall c, PyStr.isspace c = true -> PyStr.is_upper c = false.
Proof.
  intros c H. apply isspace_code in H. apply not_true_false.
  rewrite is_upper_code. lia.
Qed.

Lemma digit_not_upper :
  forall c, DateParser.is_digit c = true -> PyStr.is_upper c = false.
Proof.
  intros c H. apply is_digit_code in H. apply not_true_false.
  rewrite is_upper_code. lia.
Qed.

(** A character whose lower case is a small letter is a letter. *)
Lemma letter_of_lower :
  forall c, Spec.is_lower_letter (PyStr.lower_char c) = true -> Spec.is_letter c = true.
Proof.
  intros c H. unfold PyStr.lower_char in H.
  destruct (PyStr.is_upper c) eqn:E.
  - apply is_upper_code in E. apply is_letter_code. lia.
  - apply is_lower_letter_code in H. apply is_letter_code. lia.
Qed.

Lemma lower_app :
  forall a b, PyStr.lower (a ++ b)%string = (PyStr.lower a ++ PyStr.lower b)%string.
Proof.
  intros a b. induction a as [| c a IH]; simpl.
  - reflexivity.
  - rewrite IH. reflexivity.
Qed.

Lemma lower_fixed :
  forall s, Spec.all_chars (fun c => negb (PyStr.is_upper c)) s = true -> PyStr.lower s = s.
Proof.
  induction s as [| c s IH]; simpl.
  - reflexivity.
  - rewrite andb_true_iff, negb_true_iff. intros [Hc Hs].
    rewrite (lower_char_fixed c Hc), (IH Hs). reflexivity.
Qed.

Lemma letters_of_lower :
  forall s, Spec.all_chars Spec.is_lower_letter (PyStr.lower s) = true ->
            Spec.all_chars Spec.is_letter s = true.
Proof.
  induction s as [| c s IH]; simpl.
  - reflexivity.
  - rewrite !andb_true_iff. intros [Hc Hs]. split.
    + apply letter_of_lower. exact Hc.
    + apply IH. exact Hs.
Qed.

(** *** [strip] *)

Lemma lstrip_spaces :
  forall ws t, Spec.all_chars PyStr.isspace ws = true ->
               PyStr.lstrip (ws ++ t)%string = PyStr.lstrip t.
Proof.
  intros ws t. induction ws as [| c ws IH]; simpl.
  - reflexivity.
  - rewrite andb_true_iff. intros [Hc Hs]. rewrite Hc. apply IH. exact Hs.
Qed.

Lemma lstrip_fixed :
  forall c r, PyStr.isspace c = false -> PyStr.lstrip (String c r) = String c r.
Proof. intros c r H. simpl. rewrite H. reflexivity. Qed.

Lemma rstrip_all_spaces :
  forall ws, Spec.all_chars PyStr.isspace ws = true -> PyStr.rstrip ws = ""%string.
Proof.
  induction ws as [| c ws IH]; simpl.
  - reflexivity.
  - rewrite andb_true_iff. intros [Hc Hs]. rewrite (IH Hs), Hc. reflexivity.
Qed.

Lemma rstrip_spaces :
  forall t ws, Spec.all_chars PyStr.isspace ws = true ->
               PyStr.rstrip (t ++ ws)%string = PyStr.rstrip t.
Proof.
  intros t ws Hws. induction t as [| c t IH]; simpl.
  - apply rstrip_all_spaces. exact Hws.
  - rewrite IH. reflexivity.
Qed.

Lemma rstrip_no_space :
  forall u, Spec.all_chars (fun c => negb (PyStr.isspace c)) u = true -> PyStr.rstrip u = u.
Proof.
  induction u as [| c u IH]; simpl.
  - reflexivity.
  - rewrite andb_true_iff, negb_true_iff. intros [Hc Hu].
    rewrite (IH Hu). destruct u; [rewrite Hc |]; reflexivity.
Qed.

Lemma rstrip_fixed :
  forall a u, u <> ""%string ->
              Spec.all_chars (fun c => negb (PyStr.isspace c)) u = true ->
              PyStr.rstrip (a ++ u)%string = (a ++ u)%string.
Proof.
  intros a u Hne Hu. induction a as [| c a IH]; simpl.
  - apply rstrip_no_space. exact Hu.
  - rewrite IH. destruct (a ++ u)%string eqn:E; [| reflexivity].
    destruct a; simpl in E; [contradiction | discriminate].
Qed.

(** *** The expression of the relative form *)

Lemma span_digits_app :
  forall d rest,
    Spec.all_chars DateParser.is_digit d = true ->
    (forall c r, rest = String c r -> DateParser.is_digit c = false) ->
    DateParser.span_digits (d ++ rest)%string = (d, rest).
Proof.
  intros d rest Hd Hrest. induction d as [| c d IH]; simpl.
  - destruct rest as [| c r]; [reflexivity |].
    simpl. rewrite (Hrest c r eq_refl). reflexivity.
  - simpl in Hd. apply andb_true_iff in Hd. destruct Hd as [Hc Hd].
    rewrite Hc, (IH Hd). reflexivity.
Qed.

Lemma int_of_digits_bounds :
  forall s acc, Spec.all_chars DateParser.is_digit s = true -> 0 <= acc ->
                0 <= Strptime.int_of_digits acc s.
Proof.
  induction s as [| c s IH]; simpl; intros acc Hs Hacc.
  - exact Hacc.
  - apply andb_true_iff in Hs. destruct Hs as [Hc Hs].
    apply IH; [exact Hs |]. apply is_digit_code in Hc. lia.
Qed.

(** The fifteen unit words are made of small letters. *)
Lemma unit_words :
  forall w len, Spec.unit_length w = Some len ->
                DateParser.mem w DateParser.units = true /\
                w <> ""%string /\
                Spec.all_chars Spec.is_lower_letter w = true.
Proof.
  intros w len H.
  assert (Hm : DateParser.mem w DateParser.units = true).
  { unfold Spec.unit_length in H. unfold DateParser.units. cbn [DateParser.mem] in *.
    repeat match type of H with
           | context [String.eqb w ?x] => destruct (String.eqb w x); cbn [orb] in *
           end; try reflexivity; discriminate H. }
  split; [exact Hm |].
  unfold DateParser.units in Hm. cbn [DateParser.mem] in Hm.
  repeat (apply orb_true_iff in Hm; destruct Hm as [Hm | Hm];
          [apply String.eqb_eq in Hm; subst w; split; [discriminate | reflexivity] |]).
  discriminate Hm.
Qed.

Lemma append_assoc_s :
  forall a b c : string, ((a ++ b) ++ c = a ++ (b ++ c))%string.
Proof.
  intros a b c. induction a as [| x a IH]; simpl.
  - reflexivity.
  - rewrite IH. reflexivity.
Qed.

Lemma lower_letter_is_letter :
  forall c, Spec.is_lower_letter c = true -> Spec.is_letter c = true.
Proof.
  intros c H. apply is_lower_letter_code in H. apply is_letter_code. lia.
Qed.

(** What [strip] and [lower] leave of a text of the relative form, and how
    the expression reads it. *)
Lemma relative_form_read :
  forall s ws1 digits ws2 unit ws3 len,
    Spec.relative_form s ws1 digits ws2 unit ws3 ->
    Spec.unit_length (PyStr.lower unit) = Some len ->
    s <> ""%string /\
    PyStr.lower (PyStr.strip s) = (digits ++ ws2 ++ PyStr.lower unit)%string /\
    DateParser.match_relative (digits ++ ws2 ++ PyStr.lower unit)%string
    = Some (digits, PyStr.lower unit).
Proof.
  intros s ws1 digits ws2 unit ws3 len (Hs & H1 & H2 & H3 & Hne & Hd) Hlen.
  destruct (unit_words _ _ Hlen) as (Hmem & Hwne & Hw).
  assert (Hletters : Spec.all_chars Spec.is_letter unit = true)
    by (apply letters_of_lower; exact Hw).
  assert (Hune : unit <> ""%string) by (intros ->; apply Hwne; reflexivity).
  destruct digits as [| d0 digits']; [congruence |].
  assert (Hd0 : DateParser.is_digit d0 = true).
  { simpl in Hd. apply andb_true_iff in Hd. tauto. }
  split; [| split].
  - subst s. destruct ws1; discriminate.
  - subst s. unfold PyStr.strip.
    rewrite (lstrip_spaces ws1 _ H1).
    change ((String d0 digits' ++ ws2 ++ unit ++ ws3)%string)
      with (String d0 (digits' ++ ws2 ++ unit ++ ws3)%string).
    rewrite (lstrip_fixed d0 _ (digit_not_space d0 Hd0)).
    change (String d0 (digits' ++ ws2 ++ unit ++ ws3)%string)
      with ((String d0 digits' ++ ws2 ++ unit ++ ws3)%string).
    rewrite <- (append_assoc_s ws2 unit ws3).
    rewrite <- (append_assoc_s (String d0 digits') (ws2 ++ unit) ws3).
    rewrite (rstrip_spaces _ ws3 H3).
    rewrite <- (append_assoc_s (String d0 digits') ws2 unit).
    rewrite (rstrip_fixed _ unit Hune).
    2:{ apply (all_chars_weaken Spec.is_letter); [| exact Hletters].
        intros c Hc. rewrite (letter_not_space c Hc). reflexivity. }
    rewrite !lower_app.
    rewrite (lower_fixed (String d0 digits')).
    2:{ apply (all_chars_weaken DateParser.is_digit); [| exact Hd].
        intros c Hc. rewrite (digit_not_upper c Hc). reflexivity. }
    rewrite (lower_fixed ws2).
    2:{ apply (all_chars_weaken PyStr.isspace); [| exact H2].
        intros c Hc. rewrite (space_not_upper c Hc). reflexivity. }
    apply append_assoc_s.
  - unfold DateParser.match_relative.
    rewrite (span_digits_app (String d0 digits') (ws2 ++ PyStr.lower unit)%string Hd).
    + rewrite (lstrip_spaces ws2 _ H2).
      destruct (PyStr.lower unit) as [| w0 w'] eqn:Ew; [congruence |].
      simpl in Hw. apply andb_true_iff in Hw. destruct Hw as [Hw0 _].
      rewrite (lstrip_fixed w0 w'
                 (letter_not_space w0 (lower_letter_is_letter w0 Hw0))).
      rewrite Hmem. reflexivity.
    + intros c r Hr. destruct ws2 as [| x ws2'].
      * simpl in Hr. rewrite Hr in Hw. simpl in Hw.
        apply andb_true_iff in Hw. destruct Hw as [Hc _].
        apply letter_not_digit. apply lower_letter_is_letter. exact Hc.
      * simpl in Hr. injection Hr as Hx _. subst x.
        simpl in H2. apply andb_true_iff in H2. destruct H2 as [Hc _].
        apply space_not_digit. exact Hc.
Qed.

Lemma ago_ok :
  forall now us,
    0 <= us ->
    0 <= DateTime.dt_us now - us ->
    DateTime.dt_us now < DateTime.MAXORDINAL * DateTime.us_per_day ->
    DateParser.ago now us
    = Ok (Some (DateTime.mkDT (DateTime.dt_us now - us) (DateTime.dt_tz now))).
Proof.
  intros now us Hus Hlo Hhi. unfold DateParser.ago, DateTime.timedelta.
  assert (Hday : 0 < DateTime.us_per_day) by reflexivity.
  assert (Hq : 0 <= us / DateTime.us_per_day < DateTime.MAXORDINAL).
  { split.
    - apply Z.div_pos; lia.
    - apply Z.div_lt_upper_bound; lia. }
  replace (Z.abs (us / DateTime.us_per_day) <=? 999999999) with true.
  2:{ symmetry. apply Z.leb_le. rewrite Z.abs_eq by lia.
      unfold DateTime.MAXORDINAL in Hq. lia. }
  cbn [bind]. unfold DateTime.sub_timedelta.
  replace ((0 <=? DateTime.dt_us now - us)
           && (DateTime.dt_us now - us <? DateTime.MAXORDINAL * DateTime.us_per_day))
    with true.
  2:{ symmetry. apply andb_true_iff. split; [apply Z.leb_le | apply Z.ltb_lt]; lia. }
  reflexivity.
Qed.

(** C6 (amended).  For a text of the relative form whose run of digits has
    at most 4300 characters, and a clock from which the amount times the
    unit can be taken without leaving the calendar, the parser returns the
    clock minus the amount times the unit: an hour, 24 hours, 168 hours, 30
    days or 365 days.  What the relative form gives is returned as it is,
    the absolute formats being tried only when the relative form does not
    match; and a text that matches neither, such as "bad", gives null and
    raises nothing. *)
Theorem parse_date_contract :
  (forall now s ws1 digits ws2 unit ws3 len,
     Spec.relative_form s ws1 digits ws2 unit ws3 ->
     Spec.unit_length (PyStr.lower unit) = Some len ->
     (String.length digits <= 4300)%nat ->
     DateTime.dt_us now < DateTime.MAXORDINAL * DateTime.us_per_day ->
     0 <= DateTime.dt_us now - Spec.value digits * len ->
     DateParser.parse_date now s
     = Ok (Some (DateTime.mkDT (DateTime.dt_us now - Spec.value digits * len)
                   (DateTime.dt_tz now)))) /\
  (forall now s d,
     DateParser.parse_relative_date now s = Ok (Some d) ->
     DateParser.parse_date now s = Ok (Some d)) /\
  (forall now s,
     DateParser.parse_relative_date now s = Ok None ->
     DateParser.parse_date now s = Ok (DateParser.parse_absolute_date s)) /\
  (forall now s,
     DateParser.match_relative (PyStr.lower (PyStr.strip s)) = None ->
     DateParser.parse_absolute_date s = None ->
     DateParser.parse_date now s = Ok None) /\
  (forall now, DateParser.parse_date now "bad" = Ok None).
Proof.
  split; [| split; [| split; [| split]]].
  - intros now s ws1 digits ws2 unit ws3 len Hform Hlen Hdig Hmax Hlo.
    destruct (relative_form_read _ _ _ _ _ _ _ Hform Hlen) as (Hne & Hstrip & Hmatch).
    assert (Hamount : 0 <= Spec.value digits).
    { apply int_of_digits_bounds; [apply Hform | lia]. }
    unfold DateParser.parse_date, DateParser.parse_relative_date.
    destruct s as [| c0 r0] eqn:Es; [congruence |].
    rewrite Hstrip, Hmatch. unfold DateParser.int_.
    replace (String.length digits <=? DateParser.int_max_str_digits)%nat with true
      by (symmetry; apply Nat.leb_le; exact Hdig).
    cbn [bind]. fold (Spec.value digits).
    unfold Spec.unit_length in Hlen.
    assert (Hpos : 0 < DateTime.us_per_hour) by reflexivity.
    destruct (DateParser.mem (PyStr.lower unit) ["h"; "hour"; "hours"]%string).
    { injection Hlen as Hlen. subst len. rewrite ago_ok;
        [reflexivity
        | apply Z.mul_nonneg_nonneg;
            [exact Hamount | unfold DateTime.us_per_hour, DateTime.us_per_second; lia]
        | exact Hlo | exact Hmax]. }
    destruct (DateParser.mem (PyStr.lower unit) ["d"; "day"; "days"]%string).
    { injection Hlen as Hlen. subst len.
      replace (Spec.value digits * DateTime.us_per_day)
        with (Spec.value digits * (24 * DateTime.us_per_hour))
        by (unfold DateTime.us_per_day, DateTime.us_per_hour; lia).
      rewrite ago_ok;
        [reflexivity
        | apply Z.mul_nonneg_nonneg;
            [exact Hamount | unfold DateTime.us_per_hour, DateTime.us_per_second; lia]
        | exact Hlo | exact Hmax]. }
    destruct (DateParser.mem (PyStr.lower unit) ["w"; "week"; "weeks"]%string).
    { injection Hlen as Hlen. subst len.
      replace (Spec.value digits * DateTime.us_per_week)
        with (Spec.value digits * (168 * DateTime.us_per_hour))
        by (unfold DateTime.us_per_week, DateTime.us_per_day, DateTime.us_per_hour; lia).
      rewrite ago_ok;
        [reflexivity
        | apply Z.mul_nonneg_nonneg;
            [exact Hamount | unfold DateTime.us_per_hour, DateTime.us_per_second; lia]
        | exact Hlo | exact Hmax]. }
    destruct (DateParser.mem (PyStr.lower unit) ["m"; "month"; "months"]%string).
    { injection Hlen as Hlen. subst len.
      replace (Spec.value digits * 30 * DateTime.us_per_day)
        with (Spec.value digits * (30 * (24 * DateTime.us_per_hour)))
        by (unfold DateTime.us_per_day, DateTime.us_per_hour; lia).
      rewrite ago_ok;
        [reflexivity
        | apply Z.mul_nonneg_nonneg;
            [exact Hamount | unfold DateTime.us_per_hour, DateTime.us_per_second; lia]
        | exact Hlo | exact Hmax]. }
    destruct (DateParser.mem (PyStr.lower unit) ["y"; "year"; "years"]%string).
    { injection Hlen as Hlen. subst len.
      replace (Spec.value digits * 365 * DateTime.us_per_day)
        with (Spec.value digits * (365 * (24 * DateTime.us_per_hour)))
        by (unfold DateTime.us_per_day, DateTime.us_per_hour; lia).
      rewrite ago_ok;
        [reflexivity
        | apply Z.mul_nonneg_nonneg;
            [exact Hamount | unfold DateTime.us_per_hour, DateTime.us_per_second; lia]
        | exact Hlo | exact Hmax]. }
    discriminate Hlen.
  - intros now s d H. unfold DateParser.parse_date. rewrite H. reflexivity.
  - intros now s H. unfold DateParser.parse_date. rewrite H. reflexivity.
  - intros now s Hrel Habs. unfold DateParser.parse_date, DateParser.parse_relative_date.
    destruct s as [| c0 r0]; [reflexivity |].
    rewrite Hrel. cbn [bind]. rewrite Habs. reflexivity.
  - intros now. reflexivity.
Qed.

Lemma parse_date_contract_witness :
  DateParser.parse_date (Examples.clock "2025-06-21 12:00:00") " 3 Days "
  = Ok (Some (Examples.clock "2025-06-18 12:00:00")).
Proof.
  apply (proj1 parse_date_contract (Examples.clock "2025-06-21 12:00:00")
           " 3 Days " " " "3" " " "Days" " " (24 * DateTime.us_per_hour)).
  - repeat split. discriminate.
  - reflexivity.
  - simpl. lia.
  - reflexivity.
  - discriminate.
Defined.

(** C6, as stated, fails on "9999y": the relative form matches, and the
    instant 9999 times 365 days before the clock lies before year 1, which
    no [datetime] holds; the subtraction raises [OverflowError]. *)
Lemma relative_date_out_of_calendar :
  ~ Spec.relative_date_claim (Examples.clock "2026-11-04 12:00:00") "9999y".
Proof.
  intros H.
  specialize (H "" "9999" "" "y" "" (365 * (24 * DateTime.us_per_hour)))%string.
  assert (Hraise : DateParser.parse_date (Examples.clock "2026-11-04 12:00:00") "9999y"
                   = Raise OverflowError) by reflexivity.
  rewrite Hraise in H. discriminate H.
  - repeat split. discriminate.
  - reflexivity.
Qed.

(** ** Daily word collection *)

Lemma rev_string_twice :
  forall s a b, PyStr.rev_string a (PyStr.rev_string b s) = PyStr.rev_string (s ++ a)%string b.
Proof.
  induction s as [| c s IH]; intros a b; simpl.
  - reflexivity.
  - rewrite IH. reflexivity.
Qed.

Lemma rev_string_involutive :
  forall s, PyStr.rev_string "" (PyStr.rev_string "" s) = s.
Proof.
  intros s. rewrite rev_string_twice. simpl.
  induction s as [| c s IH]; simpl; [reflexivity | rewrite IH; reflexivity].
Qed.

Lemma rev_string_empty :
  forall s acc, PyStr.rev_string acc s = ""%string -> acc = ""%string /\ s = ""%string.
Proof.
  induction s as [| c s IH]; intros acc H; simpl in H.
  - split; [exact H | reflexivity].
  - apply IH in H. destruct H as [H _]. discriminate H.
Qed.

Lemma all_chars_rev_string :
  forall p s acc,
    Spec.all_chars p (PyStr.rev_string acc s)
    = Spec.all_chars p acc && Spec.all_chars p s.
Proof.
  intros p. induction s as [| c s IH]; intros acc; simpl.
  - rewrite andb_true_r. reflexivity.
  - rewrite IH. simpl.
    destruct (p c), (Spec.all_chars p acc), (Spec.all_chars p s); reflexivity.
Qed.

Lemma split_ws_aux_word :
  forall w cur rest,
    Spec.all_chars Spec.nospace w = true ->
    PyStr.split_ws_aux cur (w ++ rest)%string
    = PyStr.split_ws_aux (PyStr.rev_string cur w) rest.
Proof.
  induction w as [| c w IH]; intros cur rest Hw; simpl.
  - reflexivity.
  - simpl in Hw. apply andb_true_iff in Hw. destruct Hw as [Hc Hw].
    unfold Spec.nospace in Hc. apply negb_true_iff in Hc. rewrite Hc.
    apply IH. exact Hw.
Qed.

(** Splitting what was joined by single blanks gives the words back. *)
Lemma split_ws_join :
  forall ws,
    Forall (fun w => w <> ""%string /\ Spec.all_chars Spec.nospace w = true) ws ->
    PyStr.split_ws (PyStr.join " " ws) = ws.
Proof.
  intros ws H. unfold PyStr.split_ws. induction H as [| w ws [Hne Hw] Hws IH].
  - reflexivity.
  - assert (Hrev : PyStr.rev_string "" w <> ""%string).
    { intros E. apply rev_string_empty in E. tauto. }
    destruct ws as [| w2 ws'].
    + cbn [PyStr.join].
      replace w with (w ++ "")%string at 1
        by (clear; induction w; simpl; [| rewrite IHw]; reflexivity).
      rewrite (split_ws_aux_word w "" "" Hw). simpl.
      destruct (PyStr.rev_string "" w) eqn:E; [congruence |].
      rewrite <- E, rev_string_involutive. reflexivity.
    + cbn [PyStr.join].
      rewrite (split_ws_aux_word w "" _ Hw).
      cbn [append PyStr.split_ws_aux].
      change (PyStr.isspace " ") with true. cbv iota.
      destruct (PyStr.rev_string "" w) eqn:E; [congruence |].
      rewrite <- E, rev_string_involutive. f_equal. exact IH.
Qed.

(** The words of a text: none is empty, none holds white space, and their
    characters are characters of the text. *)
Lemma split_ws_aux_words :
  forall (p : ascii -> bool) s cur,
    Spec.all_chars p s = true ->
    Spec.all_chars (fun c => p c && Spec.nospace c) cur = true ->
    Forall (fun w => w <> ""%string /\
                     Spec.all_chars (fun c => p c && Spec.nospace c) w = true)
           (PyStr.split_ws_aux cur s).
Proof.
  intros p. induction s as [| c s IH]; intros cur Hs Hcur.
  - simpl. destruct cur as [| x cur'] eqn:E; [constructor |].
    constructor; [| constructor]. split.
    + intros H. apply rev_string_empty in H. destruct H as [_ H]. discriminate H.
    + rewrite all_chars_rev_string. rewrite Hcur. reflexivity.
  - simpl in Hs. apply andb_true_iff in Hs. destruct Hs as [Hc Hs]. simpl.
    destruct (PyStr.isspace c) eqn:Ec.
    + destruct cur as [| x cur'] eqn:E.
      * apply IH; [exact Hs | reflexivity].
      * constructor.
        -- split.
           ++ intros H. apply rev_string_empty in H. destruct H as [_ H]. discriminate H.
           ++ rewrite all_chars_rev_string. rewrite Hcur. reflexivity.
        -- apply IH; [exact Hs | reflexivity].
    + apply IH; [exact Hs |]. simpl. rewrite Hc, Hcur.
      unfold Spec.nospace. rewrite Ec. reflexivity.
Qed.

Lemma all_chars_join :
  forall (p : ascii -> bool) ws,
    p " "%char = true ->
    Forall (fun w => Spec.all_chars p w = true) ws ->
    Spec.all_chars p (PyStr.join " " ws) = true.
Proof.
  intros p ws Hb H. induction H as [| w ws Hw Hws IH].
  - reflexivity.
  - destruct ws as [| w2 ws'].
    + exact Hw.
    + change (PyStr.join " " (w :: w2 :: ws'))
        with (w ++ " " ++ PyStr.join " " (w2 :: ws'))%string.
      rewrite !all_chars_app, Hw, IH. simpl. rewrite Hb. reflexivity.
Qed.

(** After the chain of [replace], none of the eight characters is left. *)
Lemma strip_punctuation_chars :
  forall t,
    Spec.all_chars (fun c => negb (Spec.is_punctuation c))
      (CollectCommand.strip_punctuation t) = true.
Proof.
  assert (Hstep : forall a r,
            CollectCommand.strip_punctuation (String a r)
            = String (if Spec.is_punctuation a then " "%char else a)
                     (CollectCommand.strip_punctuation r)).
  { intros a r. unfold CollectCommand.strip_punctuation, Spec.is_punctuation.
    cbn [fold_left PyStr.replace_char existsb].
    f_equal.
    repeat match goal with
           | |- context [Ascii.eqb a ?x] =>
               destruct (Ascii.eqb_spec a x); [subst a; reflexivity |]
           end.
    reflexivity. }
  induction t as [| a t IH].
  - reflexivity.
  - rewrite Hstep. simpl. rewrite IH.
    destruct (Spec.is_punctuation a) eqn:E; [reflexivity | rewrite E; reflexivity].
Qed.

Lemma plain_of_word_char :
  forall c,
    negb (Spec.is_punctuation c) && Spec.nospace c = true -> Spec.plain_char c = true.
Proof.
  intros c H. apply andb_true_iff in H. destruct H as [H1 H2].
  unfold Spec.plain_char. unfold Spec.nospace in H2. rewrite H1, H2. reflexivity.
Qed.

(** C8 (amended).  In the raw format the content of a day is made of the
    lines of its entries in the order of the listing, the most recent entry
    first, joined by line feeds, with no header.  The line of an entry is
    its display text with the characters . , ! ? ( ) ; : replaced by blanks
    and the white space collapsed: its words joined by single blanks; an
    entry that leaves no word gives no line.  So two entries showing
    "Hello, world!" and "Testing.", listed in this order, give "Hello world",
    a line feed and "Testing", and the command gives that file when the
    first entry is the more recent of the two. *)
Theorem raw_collection :
  forall headed_content : CollectCommand.output_format -> string ->
                          list Transcript.TranscriptEntry -> string,
    (forall a date l,
       CollectCommand.format a = CollectCommand.raw ->
       CollectCommand._generate_file_content headed_content a date l
       = PyStr.join PyStr.LF (Strptime.filter_some (map CollectCommand.raw_line l))) /\
    (forall e line,
       CollectCommand.raw_line e = Some line ->
       line = PyStr.join " "
                (PyStr.split_ws
                   (CollectCommand.strip_punctuation
                      (PyStr.strip (Transcript.display_text e)))) /\
       line <> ""%string /\
       Spec.all_chars Spec.plain_char line = true /\
       PyStr.join " " (PyStr.split_ws line) = line) /\
    (forall a date e1 e2,
       CollectCommand.format a = CollectCommand.raw ->
       Transcript.display_text e1 = "Hello, world!"%string ->
       Transcript.display_text e2 = "Testing."%string ->
       CollectCommand._generate_file_content headed_content a date [e1; e2]
       = Spec.hello_testing) /\
    CollectCommand.run headed_content Iso.fromisoformat
      (Examples.clock "2025-06-21 12:00:00") Spec.raw_args []
      [ Examples.row "t1" (Some "2025-06-20 10:00:00") (Some "Testing.") (Some 0);
        Examples.row "h2" (Some "2025-06-20 11:00:00") (Some "Hello, world!") (Some 0) ]
    = Ok (CollectCommand.Collected [("2025-06-20"%string, Spec.hello_testing)] []).
Proof.
  intros headed_content. split; [| split; [| split]].
  - intros a date l Hraw. unfold CollectCommand._generate_file_content.
    rewrite Hraw. reflexivity.
  - intros e line H. unfold CollectCommand.raw_line in H.
    destruct (PyStr.truthy (Some (PyStr.strip (Transcript.display_text e))));
      [| discriminate H].
    set (text := CollectCommand.strip_punctuation
                   (PyStr.strip (Transcript.display_text e))) in *.
    destruct (PyStr.truthy (Some (PyStr.join " " (PyStr.split_ws text)))) eqn:Et;
      [| discriminate H].
    injection H as H. subst line.
    pose proof (split_ws_aux_words (fun c => negb (Spec.is_punctuation c)) text ""
                  (strip_punctuation_chars _) eq_refl) as Hwords.
    fold (PyStr.split_ws text) in Hwords.
    split; [reflexivity |]. split; [| split].
    + intros E. rewrite E in Et. discriminate Et.
    + apply all_chars_join; [reflexivity |].
      eapply Forall_impl; [| exact Hwords].
      intros w [_ Hw]. simpl in Hw.
      apply (all_chars_weaken _ _ _ plain_of_word_char Hw).
    + rewrite split_ws_join; [reflexivity |].
      eapply Forall_impl; [| exact Hwords].
      intros w [Hne Hw]. split; [exact Hne |].
      apply (all_chars_weaken (fun c => negb (Spec.is_punctuation c) && Spec.nospace c));
        [| exact Hw].
      intros c Hc. apply andb_true_iff in Hc. tauto.
  - intros a date e1 e2 Hraw H1 H2. unfold CollectCommand._generate_file_content.
    rewrite Hraw. unfold CollectCommand.raw_line. cbn [map]. rewrite H1, H2. reflexivity.
  - reflexivity.
Qed.

Lemma raw_collection_witness :
  CollectCommand._generate_file_content (fun _ _ _ => ""%string) Spec.raw_args "2025-06-20"
    [ Examples.entry None (Some "Hello, world!") None None None None;
      Examples.entry (Some "testing") None (Some "Testing.") None None None ]
  = Spec.hello_testing.
Proof.
  apply (proj1 (proj2 (proj2 (raw_collection (fun _ _ _ => ""%string))))); reflexivity.
Defined.

(** C8, as stated, fails when the entry showing "Hello, world!" is the
    older of the two: the listing puts the most recent entry first, and the
    file reads "Testing", a line feed and "Hello world". *)
Lemma raw_collection_follows_recency :
  ~ Spec.raw_collect_claim (Examples.clock "2025-06-21 12:00:00")
      (Examples.row "h1" (Some "2025-06-20 10:00:00") (Some "Hello, world!") (Some 0))
      (Examples.row "t2" (Some "2025-06-20 11:00:00") (Some "Testing.") (Some 0))
      "2025-06-20".
Proof.
  intros H.
  specialize (H eq_refl eq_refl eq_refl eq_refl (fun _ _ _ => ""%string)).
  vm_compute in H. discriminate H.
Qed.

(* ================================================================== *)
(** * Further properties of the access layer *)
(* ================================================================== *)

(** ** The order of texts *)

Lemma compare_refl : forall a, PyStr.compare a a = Eq.
Proof.
  induction a as [| c a IH]; simpl.
  - reflexivity.
  - rewrite Nat.compare_refl. exact IH.
Qed.

Lemma compare_antisym :
  forall a b, PyStr.compare b a = CompOpp (PyStr.compare a b).
Proof.
  induction a as [| x a IH]; destruct b as [| y b]; simpl; try reflexivity.
  rewrite (Nat.compare_antisym (nat_of_ascii x) (nat_of_ascii y)).
  destruct (Nat.compare (nat_of_ascii x) (nat_of_ascii y)); simpl; auto.
Qed.

Lemma compare_eq :
  forall a b, PyStr.compare a b = Eq -> a = b.
Proof.
  induction a as [| x a IH]; destruct b as [| y b]; simpl; try discriminate.
  - reflexivity.
  - destruct (Nat.compare (nat_of_ascii x) (nat_of_ascii y)) eqn:E; try discriminate.
    intros H. apply Nat.compare_eq in E.
    assert (x = y).
    { rewrite <- (ascii_nat_embedding x), <- (ascii_nat_embedding y), E. reflexivity. }
    subst y. rewrite (IH b H). reflexivity.
Qed.

Lemma compare_lt_trans :
  forall a b c,
    PyStr.compare a b = Lt -> PyStr.compare b c = Lt -> PyStr.compare a c = Lt.
Proof.
  induction a as [| x a IH]; destruct b as [| y b]; destruct c as [| z c];
    simpl; try discriminate; try reflexivity.
  destruct (Nat.compare (nat_of_ascii x) (nat_of_ascii y)) eqn:Exy; try discriminate;
    destruct (Nat.compare (nat_of_ascii y) (nat_of_ascii z)) eqn:Eyz; try discriminate;
    intros H1 H2.
  - apply Nat.compare_eq in Exy, Eyz. rewrite Exy, Eyz, Nat.compare_refl.
    apply (IH b c H1 H2).
  - apply Nat.compare_eq in Exy. rewrite Exy, Eyz. reflexivity.
  - apply Nat.compare_eq in Eyz. rewrite <- Eyz, Exy. reflexivity.
  - apply Nat.compare_lt_iff in Exy, Eyz.
    replace (Nat.compare (nat_of_ascii x) (nat_of_ascii z)) with Lt; [reflexivity |].
    symmetry. apply Nat.compare_lt_iff. lia.
Qed.

Lemma leb_total : forall a b, PyStr.leb a b = true \/ PyStr.leb b a = true.
Proof.
  intros a b. unfold PyStr.leb. rewrite (compare_antisym a b).
  destruct (PyStr.compare a b); simpl; auto.
Qed.

Lemma leb_trans :
  forall a b c, PyStr.leb a b = true -> PyStr.leb b c = true -> PyStr.leb a c = true.
Proof.
  intros a b c. unfold PyStr.leb.
  destruct (PyStr.compare a b) eqn:Eab; try discriminate;
    destruct (PyStr.compare b c) eqn:Ebc; try discriminate; intros _ _.
  - apply compare_eq in Eab, Ebc. subst. rewrite compare_refl. reflexivity.
  - apply compare_eq in Eab. subst. rewrite Ebc. reflexivity.
  - apply compare_eq in Ebc. subst. rewrite Eab. reflexivity.
  - rewrite (compare_lt_trans a b c Eab Ebc). reflexivity.
Qed.

Lemma ts_leb_total :
  forall a b, Parser.ts_leb a b = true \/ Parser.ts_leb b a = true.
Proof.
  intros [x |] [y |]; simpl; auto. apply leb_total.
Qed.

Lemma ts_leb_trans :
  forall a b c,
    Parser.ts_leb a b = true -> Parser.ts_leb b c = true -> Parser.ts_leb a c = true.
Proof.
  intros [x |] [y |] [z |]; simpl; try discriminate; auto. apply leb_trans.
Qed.

(** ** The listing *)

Section Listing.

Variable fromisoformat : string -> option DateTime.datetime.

Lemma insert_desc_perm :
  forall r l, Permutation (Parser.insert_desc r l) (r :: l).
Proof.
  intros r l. induction l as [| x l IH]; simpl.
  - apply Permutation_refl.
  - destruct (Parser.ts_leb (Parser.timestamp x) (Parser.timestamp r)).
    + apply Permutation_refl.
    + apply perm_trans with (x :: r :: l).
      * apply perm_skip. exact IH.
      * apply perm_swap.
Qed.

Lemma order_by_timestamp_desc_perm :
  forall l, Permutation (Parser.order_by_timestamp_desc l) l.
Proof.
  induction l as [| x l IH]; simpl.
  - apply perm_nil.
  - unfold Parser.order_by_timestamp_desc in *. simpl.
    apply perm_trans with (x :: fold_right Parser.insert_desc [] l).
    + apply insert_desc_perm.
    + apply perm_skip. exact IH.
Qed.

Lemma insert_desc_sorted :
  forall r l, StronglySorted Terms.desc l -> StronglySorted Terms.desc (Parser.insert_desc r l).
Proof.
  intros r l H. induction H as [| x l Hs IH Hx]; simpl.
  - constructor; constructor.
  - destruct (Parser.ts_leb (Parser.timestamp x) (Parser.timestamp r)) eqn:E.
    + constructor.
      * constructor; assumption.
      * constructor; [exact E |].
        rewrite Forall_forall in *. intros y Hy. unfold Terms.desc in *.
        apply (ts_leb_trans _ (Parser.timestamp x)); [apply Hx; exact Hy | exact E].
    + constructor; [exact IH |].
      rewrite Forall_forall in *. intros y Hy.
      apply insert_desc_In in Hy. destruct Hy as [Hy | Hy].
      * subst y. unfold Terms.desc.
        destruct (ts_leb_total (Parser.timestamp x) (Parser.timestamp r)) as [H | H];
          [congruence | exact H].
      * apply Hx. exact Hy.
Qed.

Lemma order_by_timestamp_desc_sorted :
  forall l, StronglySorted Terms.desc (Parser.order_by_timestamp_desc l).
Proof.
  induction l as [| x l IH]; unfold Parser.order_by_timestamp_desc in *; simpl.
  - constructor.
  - apply insert_desc_sorted. exact IH.
Qed.

(** What [get_entries] returns is the conversion of the rows the LIMIT and
    OFFSET clauses leave of the selected rows. *)
Lemma get_entries_rows :
  forall kw db l,
    Parser.get_entries fromisoformat kw db = Ok l ->
    exists rows,
      Parser.limit_offset kw (Parser.select_rows kw db) = Ok rows /\
      l = map (Parser._row_to_transcript_entry fromisoformat) rows.
Proof.
  intros kw db l H. unfold Parser.get_entries in H.
  destruct (Parser.limit_offset kw (Parser.select_rows kw db)) as [rows | e];
    [| discriminate H].
  simpl in H. injection H as H. exists rows. split; [reflexivity | congruence].
Qed.

Lemma In_firstn : forall (A : Type) n (l : list A) x, In x (firstn n l) -> In x l.
Proof.
  intros A n. induction n as [| n IH]; intros [| y l] x H; simpl in *; try contradiction.
  destruct H as [H | H]; [left; exact H | right; apply IH; exact H].
Qed.

Lemma In_skipn : forall (A : Type) n (l : list A) x, In x (skipn n l) -> In x l.
Proof.
  intros A n. induction n as [| n IH]; intros [| y l] x H; simpl in *; try contradiction.
  - exact H.
  - right. apply IH. exact H.
Qed.

Lemma limit_offset_In :
  forall kw l rows r,
    Parser.limit_offset kw l = Ok rows -> In r rows -> In r l.
Proof.
  intros kw l rows r H Hr. unfold Parser.limit_offset, Parser.sql_limit, Parser.sql_offset in H.
  destruct (Parser.truthy_int (Parser.kw_limit kw)) as [n |];
    destruct (Parser.truthy_int (Parser.kw_offset kw)) as [m |]; try discriminate H.
  - destruct (Parser.fits_int64 n && Parser.fits_int64 m); [| discriminate H].
    injection H as H. subst rows.
    destruct (n <? 0).
    + apply In_skipn in Hr. exact Hr.
    + apply In_firstn in Hr. apply In_skipn in Hr. exact Hr.
  - destruct (Parser.fits_int64 n); [| discriminate H].
    injection H as H. subst rows.
    destruct (n <? 0); [exact Hr | apply In_firstn in Hr; exact Hr].
  - injection H as H. subst rows. exact Hr.
Qed.

(** Every entry of a listing comes from a stored row that passes the WHERE
    clause. *)
Lemma get_entries_In :
  forall kw db l e,
    Parser.get_entries fromisoformat kw db = Ok l -> In e l ->
    exists r, In r db /\ Parser.where_clause kw r = true /\
              e = Parser._row_to_transcript_entry fromisoformat r.
Proof.
  intros kw db l e H He.
  destruct (get_entries_rows kw db l H) as (rows & Hrows & Hl). subst l.
  apply in_map_iff in He. destruct He as (r & Hr & Hin).
  exists r. apply (limit_offset_In kw _ rows r Hrows) in Hin.
  apply select_rows_In in Hin. destruct Hin as [Hdb Hw].
  split; [exact Hdb | split; [exact Hw | symmetry; exact Hr]].
Qed.

(** X1.  Unless archived entries are asked for, no entry of a listing is
    archived, whatever the other filters, the limit and the offset. *)
Theorem listing_never_archived_by_default :
  forall kw db l e,
    Parser.kw_include_archived kw = false ->
    Parser.get_entries fromisoformat kw db = Ok l ->
    In e l ->
    Transcript.is_archived e = false.
Proof.
  intros kw db l e Hkw H He.
  destruct (get_entries_In kw db l e H He) as (r & _ & Hw & ->).
  unfold Parser.where_clause in Hw. rewrite Hkw in Hw.
  repeat (apply andb_true_iff in Hw; destruct Hw as [Hw _]).
  unfold Parser._row_to_transcript_entry. simpl.
  destruct (Parser.isArchived r) as [z |]; [rewrite Hw |]; reflexivity.
Qed.

Lemma when_truthy_sql_eq :
  forall arg column a,
    Parser.when_truthy arg (Parser.sql_eq column) = true ->
    arg = Some a -> a <> ""%string -> column = Some a.
Proof.
  intros arg column a H Harg Hne. subst arg.
  destruct a as [| c a]; [congruence |].
  simpl in H. unfold Parser.sql_eq in H.
  destruct column as [v |]; [| discriminate H].
  apply String.eqb_eq in H. congruence.
Qed.

(** X2.  The app, status and conversation filters are exact: when one of
    them is given and not empty, every entry of the listing bears exactly
    that value. *)
Theorem listing_respects_filters :
  forall kw db l e,
    Parser.get_entries fromisoformat kw db = Ok l ->
    In e l ->
    (forall a, Parser.kw_app kw = Some a -> a <> ""%string ->
               Transcript.app e = Some a) /\
    (forall s, Parser.kw_status kw = Some s -> s <> ""%string ->
               Transcript.status e = Some s) /\
    (forall c, Parser.kw_conversation_id kw = Some c -> c <> ""%string ->
               Transcript.conversation_id e = Some c).
Proof.
  intros kw db l e H He.
  destruct (get_entries_In kw db l e H He) as (r & _ & Hw & ->).
  unfold Parser.where_clause in Hw.
  apply andb_true_iff in Hw. destruct Hw as [Hw Hc].
  apply andb_true_iff in Hw. destruct Hw as [Hw Hs].
  apply andb_true_iff in Hw. destruct Hw as [_ Ha].
  split; [| split]; intros v Hv Hne; simpl.
  - apply (when_truthy_sql_eq _ _ v Ha Hv Hne).
  - apply (when_truthy_sql_eq _ _ v Hs Hv Hne).
  - apply (when_truthy_sql_eq _ _ v Hc Hv Hne).
Qed.

(** X3.  Without limit and offset the listing holds every row the filters
    keep, each once, in descending order of the stored time stamp, the
    rows without time stamp last. *)
Theorem unlimited_listing_sorted_and_complete :
  forall kw db,
    Parser.truthy_int (Parser.kw_limit kw) = None ->
    Parser.truthy_int (Parser.kw_offset kw) = None ->
    exists rows,
      Parser.get_entries fromisoformat kw db
      = Ok (map (Parser._row_to_transcript_entry fromisoformat) rows) /\
      Permutation rows (filter (Parser.where_clause kw) db) /\
      StronglySorted Terms.desc rows.
Proof.
  intros kw db Hl Ho. exists (Parser.select_rows kw db).
  split; [| split].
  - unfold Parser.get_entries, Parser.limit_offset. rewrite Hl, Ho. reflexivity.
  - apply order_by_timestamp_desc_perm.
  - apply order_by_timestamp_desc_sorted.
Qed.

Lemma firstn_add :
  forall (A : Type) (n m : nat) (l : list A),
    firstn (n + m) l = firstn n l ++ firstn m (skipn n l).
Proof.
  intros A n m. induction n as [| n IH]; intros l; simpl.
  - reflexivity.
  - destruct l as [| x l]; simpl.
    + destruct m; reflexivity.
    + rewrite IH. reflexivity.
Qed.

(** X4.  Paging composes: for a limit [L > 0], the page at offset 0
    followed by the page at offset [L] is the listing under limit [2 L].
    An offset without a limit (none, or 0) is refused by the store. *)
Theorem pages_compose :
  forall kw db,
    (forall L,
       0 < L -> 2 * L < 2 ^ 63 ->
       exists p1 p2 both,
         Parser.get_entries fromisoformat (Terms.with_page kw L 0) db = Ok p1 /\
         Parser.get_entries fromisoformat (Terms.with_page kw L L) db = Ok p2 /\
         Parser.get_entries fromisoformat (Terms.with_page kw (2 * L) 0) db = Ok both /\
         both = p1 ++ p2) /\
    (forall m,
       Parser.truthy_int (Parser.kw_limit kw) = None ->
       Parser.truthy_int (Parser.kw_offset kw) = Some m ->
       Parser.get_entries fromisoformat kw db = Raise OperationalError).
Proof.
  intros kw db. split.
  - intros L HL Hmax.
    set (conv := Parser._row_to_transcript_entry fromisoformat).
    set (rows := Parser.select_rows kw db).
    assert (Hfit : forall n, 0 < n < 2 ^ 63 -> Parser.fits_int64 n = true).
    { intros n Hn. unfold Parser.fits_int64. apply andb_true_iff.
      split; [apply Z.leb_le | apply Z.ltb_lt]; lia. }
    assert (Hnz : forall n, 0 < n -> Parser.truthy_int (Some n) = Some n).
    { intros n Hn. unfold Parser.truthy_int.
      replace (n =? 0) with false by (symmetry; apply Z.eqb_neq; lia). reflexivity. }
    assert (Hlim : forall n l, 0 < n -> Parser.sql_limit n l = firstn (Z.to_nat n) l).
    { intros n l Hn. unfold Parser.sql_limit.
      replace (n <? 0) with false by (symmetry; apply Z.ltb_ge; lia). reflexivity. }
    exists (map conv (firstn (Z.to_nat L) rows)),
           (map conv (firstn (Z.to_nat L) (skipn (Z.to_nat L) rows))),
           (map conv (firstn (Z.to_nat (2 * L)) rows)).
    split; [| split; [| split]].
    + unfold Parser.get_entries, Parser.limit_offset.
      change (Parser.kw_limit (Terms.with_page kw L 0)) with (Some L).
      change (Parser.kw_offset (Terms.with_page kw L 0)) with (Some 0).
      change (Parser.select_rows (Terms.with_page kw L 0) db) with rows.
      rewrite (Hnz L HL). change (Parser.truthy_int (Some 0)) with (@None Z).
      rewrite Hfit by lia. rewrite Hlim by lia. reflexivity.
    + unfold Parser.get_entries, Parser.limit_offset.
      change (Parser.kw_limit (Terms.with_page kw L L)) with (Some L).
      change (Parser.kw_offset (Terms.with_page kw L L)) with (Some L).
      change (Parser.select_rows (Terms.with_page kw L L) db) with rows.
      rewrite (Hnz L HL). rewrite Hfit by lia. rewrite Hlim by lia. reflexivity.
    + unfold Parser.get_entries, Parser.limit_offset.
      change (Parser.kw_limit (Terms.with_page kw (2 * L) 0)) with (Some (2 * L)).
      change (Parser.kw_offset (Terms.with_page kw (2 * L) 0)) with (Some 0).
      change (Parser.select_rows (Terms.with_page kw (2 * L) 0) db) with rows.
      rewrite (Hnz (2 * L)) by lia. change (Parser.truthy_int (Some 0)) with (@None Z).
      rewrite Hfit by lia. rewrite Hlim by lia. reflexivity.
    + rewrite <- map_app. f_equal.
      replace (Z.to_nat (2 * L)) with (Z.to_nat L + Z.to_nat L)%nat by lia.
      apply firstn_add.
  - intros m Hl Ho. unfold Parser.get_entries, Parser.limit_offset.
    rewrite Hl, Ho. reflexivity.
Qed.

Lemma get_entry_by_id_Some :
  forall id db e,
    Parser.get_entry_by_id fromisoformat id db = Some e ->
    Transcript.transcript_id e = id /\
    exists r, In r db /\ Parser.transcriptEntityId r = id /\
              e = Parser._row_to_transcript_entry fromisoformat r.
Proof.
  intros id db e H. unfold Parser.get_entry_by_id in H.
  destruct (find (fun row => String.eqb (Parser.transcriptEntityId row) id) db)
    as [r |] eqn:E; [| discriminate H].
  injection H as H. subst e. apply find_some in E. destruct E as [Hin Heq].
  apply String.eqb_eq in Heq. split; [exact Heq |].
  exists r. repeat split; assumption.
Qed.

Lemma get_entry_by_id_None :
  forall id db,
    Parser.get_entry_by_id fromisoformat id db = None <->
    forall r, In r db -> Parser.transcriptEntityId r <> id.
Proof.
  intros id db. unfold Parser.get_entry_by_id.
  destruct (find (fun row => String.eqb (Parser.transcriptEntityId row) id) db)
    as [r |] eqn:E.
  - split; [discriminate |]. intros H. apply find_some in E. destruct E as [Hin Heq].
    apply String.eqb_eq in Heq. exfalso. apply (H r Hin Heq).
  - split; [| reflexivity]. intros _ r Hin Heq.
    apply (find_none _ _ E) in Hin. apply String.eqb_neq in Hin. contradiction.
Qed.

(** X5.  The look-up by id returns an entry bearing exactly the id asked
    for, taken from a stored row, and returns nothing only when no stored
    row bears that id. *)
Theorem get_entry_by_id_exact :
  forall id db,
    (forall e, Parser.get_entry_by_id fromisoformat id db = Some e ->
               Transcript.transcript_id e = id /\
               exists r, In r db /\ Parser.transcriptEntityId r = id /\
                         e = Parser._row_to_transcript_entry fromisoformat r) /\
    (Parser.get_entry_by_id fromisoformat id db = None <->
     forall r, In r db -> Parser.transcriptEntityId r <> id).
Proof.
  intros id db. split.
  - apply get_entry_by_id_Some.
  - apply get_entry_by_id_None.
Qed.

End Listing.

Lemma listing_never_archived_by_default_witness :
  Transcript.is_archived (Samples.entry (nth 0 Samples.morning Samples.unstamped)) = false.
Proof.
  apply (listing_never_archived_by_default Iso.fromisoformat Parser.defaults
           Samples.morning (map Samples.entry (rev (firstn 2 Samples.morning)))).
  - reflexivity.
  - reflexivity.
  - right. left. reflexivity.
Defined.

Lemma listing_respects_filters_witness :
  Transcript.app (Samples.entry (nth 0 Samples.morning Samples.unstamped))
  = Some "com.tinyspeck.slackmacgap"%string.
Proof.
  apply (proj1 (listing_respects_filters Iso.fromisoformat
                  (Samples.by_app "com.tinyspeck.slackmacgap") Samples.morning
                  (map Samples.entry (firstn 1 Samples.morning))
                  (Samples.entry (nth 0 Samples.morning Samples.unstamped))
                  eq_refl (or_introl eq_refl))).
  - reflexivity.
  - discriminate.
Defined.

Lemma unlimited_listing_sorted_and_complete_witness :
  exists rows,
    Parser.get_entries Iso.fromisoformat Parser.defaults Samples.morning
    = Ok (map (Parser._row_to_transcript_entry Iso.fromisoformat) rows) /\
    Permutation rows (filter (Parser.where_clause Parser.defaults) Samples.morning) /\
    StronglySorted Terms.desc rows.
Proof.
  apply (unlimited_listing_sorted_and_complete Iso.fromisoformat Parser.defaults
           Samples.morning); reflexivity.
Defined.

Lemma pages_compose_witness :
  exists p1 p2 both,
    Parser.get_entries Iso.fromisoformat (Terms.with_page Parser.defaults 1 0)
      Samples.morning = Ok p1 /\
    Parser.get_entries Iso.fromisoformat (Terms.with_page Parser.defaults 1 1)
      Samples.morning = Ok p2 /\
    Parser.get_entries Iso.fromisoformat (Terms.with_page Parser.defaults (2 * 1) 0)
      Samples.morning = Ok both /\
    both = p1 ++ p2.
Proof.
  apply (proj1 (pages_compose Iso.fromisoformat Parser.defaults Samples.morning) 1).
  - lia.
  - reflexivity.
Defined.

Lemma get_entry_by_id_exact_witness :
  Transcript.transcript_id
    (Samples.entry (Samples.row "m3-cccc" "2025-06-20 09:10:00" "see you at noon"
       (Some "com.tinyspeck.slackmacgap") (Some "empty") (Some "c1") None None 1))
  = "m3-cccc"%string.
Proof.
  apply (proj1 (get_entry_by_id_exact Iso.fromisoformat "m3-cccc" Samples.morning)).
  reflexivity.
Defined.

(** ** Search *)

Section Search.

Variable fromisoformat : string -> option DateTime.datetime.

Lemma field_matches_spec :
  forall q field,
    Parser.field_matches (PyStr.lower q) field = true <->
    exists text, field = Some text /\ text <> ""%string /\ Terms.holds_nocase q text.
Proof.
  intros q field. unfold Parser.field_matches, Terms.holds_nocase.
  rewrite andb_true_iff. split.
  - intros [Ht Hc]. destruct field as [text |]; [| discriminate Ht].
    exists text. split; [reflexivity |]. split.
    + intros ->. discriminate Ht.
    + apply contains_spec. exact Hc.
  - intros (text & -> & Hne & Hc). split.
    + destruct text; [congruence | reflexivity].
    + apply contains_spec. exact Hc.
Qed.

Lemma entry_matches_spec :
  forall q e,
    Parser.entry_matches (PyStr.lower q) e = true <->
    exists text, Terms.has_text e text /\ text <> ""%string /\ Terms.holds_nocase q text.
Proof.
  intros q e. unfold Parser.entry_matches, Terms.has_text.
  rewrite !orb_true_iff, !field_matches_spec. split.
  - intros [[(t & H & R) | (t & H & R)] | (t & H & R)]; exists t; tauto.
  - intros (t & [H | [H | H]] & R).
    + left. left. exists t. tauto.
    + left. right. exists t. tauto.
    + right. exists t. tauto.
Qed.

(** X6.  The search returns exactly the entries of the filtered listing of
    which one of the three texts is not empty and holds the query, both put
    in lower case: none is missed and none is added. *)
Theorem search_text_exact :
  forall query kw db l,
    Parser.get_entries fromisoformat kw db = Ok l ->
    exists res,
      Parser.search_text fromisoformat query kw db = Ok res /\
      forall e,
        In e res <->
        In e l /\
        exists text, Terms.has_text e text /\ text <> ""%string /\
                     Terms.holds_nocase query text.
Proof.
  intros query kw db l H.
  exists (filter (Parser.entry_matches (PyStr.lower query)) l). split.
  - unfold Parser.search_text. rewrite H. reflexivity.
  - intros e. rewrite filter_In, entry_matches_spec. reflexivity.
Qed.

Lemma display_text_empty_iff :
  forall e,
    Transcript.display_text e = ""%string <->
    PyStr.truthy (Transcript.asr_text e) = false /\
    PyStr.truthy (Transcript.formatted_text e) = false /\
    PyStr.truthy (Transcript.edited_text e) = false.
Proof.
  intros e. unfold Transcript.display_text.
  destruct (Transcript.edited_text e) as [[| c1 s1] |];
    destruct (Transcript.formatted_text e) as [[| c2 s2] |];
    destruct (Transcript.asr_text e) as [[| c3 s3] |]; simpl;
    split; try (intros H; discriminate H); try (intros (H1 & H2 & H3); discriminate);
      try (intros _; repeat split; reflexivity); intros _; reflexivity.
Qed.

(** X7.  A search for the empty text returns every entry of the listing
    that shows some text, and no entry without text. *)
Theorem search_for_empty_text :
  forall kw db l,
    Parser.get_entries fromisoformat kw db = Ok l ->
    exists res,
      Parser.search_text fromisoformat "" kw db = Ok res /\
      forall e, In e res <-> In e l /\ Transcript.display_text e <> ""%string.
Proof.
  intros kw db l H.
  exists (filter (Parser.entry_matches (PyStr.lower "")) l). split.
  - unfold Parser.search_text. rewrite H. reflexivity.
  - intros e. rewrite filter_In.
    assert (Hm : Parser.entry_matches (PyStr.lower "") e = true <->
                 Transcript.display_text e <> ""%string).
    { unfold Parser.entry_matches, Parser.field_matches.
      rewrite display_text_empty_iff.
      assert (Hc : forall t, PyStr.contains (PyStr.lower "") (PyStr.lower t) = true).
      { intros t. apply contains_spec. exists ""%string, (PyStr.lower t). reflexivity. }
      destruct (Transcript.asr_text e) as [[| c1 s1] |];
        destruct (Transcript.formatted_text e) as [[| c2 s2] |];
        destruct (Transcript.edited_text e) as [[| c3 s3] |];
        cbn [PyStr.truthy andb orb]; rewrite ?Hc; cbn [andb orb];
        split; try (intros _; intros (H1 & H2 & H3); discriminate);
          try (intros _; reflexivity); try (intros H0; discriminate H0);
          intros H0; exfalso; apply H0; repeat split; reflexivity. }
    rewrite Hm. reflexivity.
Qed.

(** X8.  Searching a listing in memory, over the display text, never finds
    a text-bearing entry that the search of the access layer, over the
    three texts, would miss. *)
Theorem display_search_within_three_text_search :
  forall query kw db l,
    Parser.get_entries fromisoformat kw db = Ok l ->
    exists res,
      Parser.search_text fromisoformat query kw db = Ok res /\
      forall e,
        In e (TranscriptOps.search_text query l) ->
        Transcript.display_text e <> ""%string ->
        In e res.
Proof.
  intros query kw db l H.
  exists (filter (Parser.entry_matches (PyStr.lower query)) l). split.
  - unfold Parser.search_text. rewrite H. reflexivity.
  - intros e He Hne. unfold TranscriptOps.search_text in He.
    apply filter_In in He. destruct He as [Hin Hc]. apply filter_In. split; [exact Hin |].
    unfold Parser.entry_matches, Parser.field_matches.
    unfold Transcript.display_text in Hc, Hne.
    destruct (Transcript.edited_text e) as [[| c1 s1] |];
      destruct (Transcript.formatted_text e) as [[| c2 s2] |];
      destruct (Transcript.asr_text e) as [[| c3 s3] |];
      cbn [PyStr.truthy andb orb] in *; try congruence;
      rewrite Hc; cbn [andb orb]; rewrite ?orb_true_r; reflexivity.
Qed.

End Search.

Lemma search_text_exact_witness :
  exists res,
    Parser.search_text Iso.fromisoformat "MORNING" Parser.defaults Samples.morning = Ok res /\
    forall e,
      In e res <->
      In e (map Samples.entry (rev (firstn 2 Samples.morning))) /\
      exists text, Terms.has_text e text /\ text <> ""%string /\
                   Terms.holds_nocase "MORNING" text.
Proof.
  apply (search_text_exact Iso.fromisoformat "MORNING" Parser.defaults Samples.morning
           (map Samples.entry (rev (firstn 2 Samples.morning)))).
  reflexivity.
Defined.

Lemma search_for_empty_text_witness :
  exists res,
    Parser.search_text Iso.fromisoformat "" Parser.defaults Samples.morning = Ok res /\
    forall e, In e res <->
              In e (map Samples.entry (rev (firstn 2 Samples.morning))) /\
              Transcript.display_text e <> ""%string.
Proof.
  apply (search_for_empty_text Iso.fromisoformat Parser.defaults Samples.morning
           (map Samples.entry (rev (firstn 2 Samples.morning)))).
  reflexivity.
Defined.

Lemma display_search_within_three_text_search_witness :
  exists res,
    Parser.search_text Iso.fromisoformat "list" Parser.defaults Samples.morning = Ok res /\
    forall e,
      In e (TranscriptOps.search_text "list"
              (map Samples.entry (rev (firstn 2 Samples.morning)))) ->
      Transcript.display_text e <> ""%string ->
      In e res.
Proof.
  apply (display_search_within_three_text_search Iso.fromisoformat "list" Parser.defaults
           Samples.morning (map Samples.entry (rev (firstn 2 Samples.morning)))).
  reflexivity.
Defined.

(** ** Look-up of one record *)

Section LookupMore.

Variable fromisoformat : string -> option DateTime.datetime.

Lemma startswith_refl : forall s, PyStr.startswith s s = true.
Proof.
  intros s. apply startswith_spec. exists ""%string.
  induction s as [| c s IH]; simpl; [| rewrite <- IH]; reflexivity.
Qed.

Lemma prefix_matches_In :
  forall P l m, In m (Lookup.prefix_matches P l) ->
                PyStr.startswith (Transcript.transcript_id m) P = true.
Proof.
  intros P l m H. unfold Lookup.prefix_matches in H. apply filter_In in H. tauto.
Qed.

(** X9.  Whatever record a look-up returns, its id starts with the text
    asked for; a command that shows a record reports success and prints no
    warning; and a stored id given in full finds a record bearing it,
    archived or not. *)
Theorem lookup_returns_only_matching_ids :
  forall P db,
    (forall e, Lookup._get_transcript fromisoformat P db = Ok (Lookup.Entry e) ->
               PyStr.startswith (Transcript.transcript_id e) P = true) /\
    (forall out e code,
       Lookup.show_run fromisoformat P db = Ok (out, Some e, code) ->
       PyStr.startswith (Transcript.transcript_id e) P = true /\ out = [] /\ code = 0) /\
    (forall r, In r db -> Parser.transcriptEntityId r = P ->
               exists e, Lookup._get_transcript fromisoformat P db = Ok (Lookup.Entry e) /\
                         Lookup.show_run fromisoformat P db = Ok ([], Some e, 0) /\
                         Transcript.transcript_id e = P).
Proof.
  intros P db.
  assert (Hid : forall e, Parser.get_entry_by_id fromisoformat P db = Some e ->
                         Transcript.transcript_id e = P).
  { intros e He. apply (get_entry_by_id_Some fromisoformat P db e He). }
  split; [| split].
  - intros e H. unfold Lookup._get_transcript in H.
    destruct (Parser.get_entry_by_id fromisoformat P db) as [e0 |] eqn:E.
    + injection H as H. subst e0. rewrite (Hid e eq_refl). apply startswith_refl.
    + rewrite recent_window in H. cbn [bind] in H.
      match type of H with
      | context [Lookup.prefix_matches P ?w] =>
          pose proof (prefix_matches_In P w) as Hm;
          destruct (Lookup.prefix_matches P w) as [| m1 [| m2 rest]]
      end; try discriminate H.
      injection H as H. subst e. apply Hm. left. reflexivity.
  - intros out e code H. unfold Lookup.show_run, Lookup._find_entry in H.
    destruct (Parser.get_entry_by_id fromisoformat P db) as [e0 |] eqn:E.
    + cbn [bind] in H. injection H as H1 H2 H3. subst.
      rewrite (Hid e eq_refl). split; [apply startswith_refl | tauto].
    + destruct (String.length P <? 36)%nat.
      * rewrite recent_window in H. cbn [bind] in H.
        match type of H with
        | context [Lookup.prefix_matches P ?w] =>
            pose proof (prefix_matches_In P w) as Hm;
            destruct (Lookup.prefix_matches P w) as [| m1 [| m2 rest]]
        end; cbn [bind] in H; try discriminate H.
        injection H as H1 H2 H3. subst.
        split; [apply Hm; left; reflexivity | tauto].
      * cbn [bind] in H. discriminate H.
  - intros r Hin Hr.
    destruct (Parser.get_entry_by_id fromisoformat P db) as [e |] eqn:E.
    + exists e. unfold Lookup.show_run, Lookup._find_entry, Lookup._get_transcript.
      rewrite E. repeat split. apply (Hid e eq_refl).
    + exfalso.
      apply (proj1 (get_entry_by_id_None fromisoformat P db) E r Hin Hr).
Qed.

End LookupMore.

Lemma lookup_returns_only_matching_ids_witness :
  exists e,
    Lookup._get_transcript Iso.fromisoformat "m3-cccc" Samples.morning
    = Ok (Lookup.Entry e) /\
    Lookup.show_run Iso.fromisoformat "m3-cccc" Samples.morning = Ok ([], Some e, 0) /\
    Transcript.transcript_id e = "m3-cccc"%string.
Proof.
  apply (proj2 (proj2 (lookup_returns_only_matching_ids Iso.fromisoformat "m3-cccc"
                         Samples.morning))
           (Samples.row "m3-cccc" "2025-06-20 09:10:00" "see you at noon"
              (Some "com.tinyspeck.slackmacgap") (Some "empty") (Some "c1") None None 1)).
  - right. right. left. reflexivity.
  - reflexivity.
Defined.

(** ** Statistics *)

Lemma sum_counts_incr :
  forall k d, Terms.sum_counts (WisprTools.dict_incr k d) = Terms.sum_counts d + 1.
Proof.
  intros k d. induction d as [| [k' v] d IH]; simpl.
  - reflexivity.
  - destruct (String.eqb k k'); simpl; [lia | rewrite IH; lia].
Qed.

Lemma breakdown_sum :
  forall (key : Transcript.TranscriptEntry -> string) l d,
    Terms.sum_counts (fold_left (fun d e => WisprTools.dict_incr (key e) d) l d)
    = Terms.sum_counts d + Z.of_nat (List.length l).
Proof.
  intros key l. induction l as [| e l IH]; intros d; simpl.
  - lia.
  - rewrite IH, sum_counts_incr. lia.
Qed.

(** The count a histogram holds for a key; 0 when the key is absent. *)
Lemma dict_incr_get :
  forall k k' d,
    Terms.count_in (WisprTools.dict_incr k d) k'
    = Terms.count_in d k' + (if String.eqb k k' then 1 else 0).
Proof.
  assert (Hs : forall l a, fold_left Z.add l a = a + fold_left Z.add l 0).
  { induction l as [| x l IH]; intros a; simpl; [lia |].
    rewrite (IH (a + x)), (IH x). lia. }
  intros k k' d. unfold Terms.count_in, Parser.sum_Z.
  induction d as [| [k0 v] d IH]; simpl.
  - destruct (String.eqb k k'); reflexivity.
  - destruct (String.eqb k k0) eqn:E; simpl.
    + apply String.eqb_eq in E. subst k0.
      destruct (String.eqb k k'); simpl; [| lia].
      rewrite (Hs _ (v + 1)), (Hs _ v). lia.
    + destruct (String.eqb k0 k') eqn:E2; simpl.
      * rewrite (Hs _ v), IH, (Hs _ v). lia.
      * exact IH.
Qed.

Lemma breakdown_count :
  forall (key : Transcript.TranscriptEntry -> string) k l d,
    Terms.count_in (fold_left (fun d e => WisprTools.dict_incr (key e) d) l d) k
    = Terms.count_in d k + Terms.count_key key k l.
Proof.
  intros key k l. unfold Terms.count_key.
  induction l as [| e l IH]; intros d; simpl.
  - lia.
  - rewrite IH, dict_incr_get. destruct (String.eqb (key e) k); simpl; lia.
Qed.

Lemma length_filter_split :
  forall (A : Type) (p : A -> bool) (l : list A),
    (List.length (filter p l) + List.length (filter (fun x => negb (p x)) l)
     = List.length l)%nat.
Proof.
  intros A p l. induction l as [| x l IH]; simpl.
  - reflexivity.
  - destruct (p x); simpl; lia.
Qed.

(** X10.  The statistics over a filtered set account for every entry: the
    total is the number of entries, the active and the archived ones add up
    to it, the archived count is the number of archived entries, and the
    histogram of the statuses holds for each status the number of entries
    that bear it (those without a status under "unknown"), so that its
    counts add up to the total. *)
Theorem filtered_statistics_account_for_every_entry :
  forall l : list Transcript.TranscriptEntry,
    let s := WisprTools.filtered l in
    let status := fun e => Parser.status_key (Transcript.status e) in
    WisprTools.total_entries s = Z.of_nat (List.length l) /\
    WisprTools.active_entries s + WisprTools.archived_entries s
    = WisprTools.total_entries s /\
    WisprTools.archived_entries s
    = Z.of_nat (List.length (filter Transcript.is_archived l)) /\
    Terms.sum_counts (WisprTools.status_breakdown s) = WisprTools.total_entries s /\
    forall k, Terms.count_in (WisprTools.status_breakdown s) k = Terms.count_key status k l.
Proof.
  intros l s status. unfold s, WisprTools.filtered. cbn [WisprTools.total_entries
    WisprTools.active_entries WisprTools.archived_entries WisprTools.status_breakdown].
  split; [reflexivity |]. split; [lia |]. split; [| split].
  - pose proof (length_filter_split _ Transcript.is_archived l) as H.
    assert (Hc : filter (fun e => negb (Transcript.is_archived e)) l
                 = filter (fun x => negb (Transcript.is_archived x)) l) by reflexivity.
    lia.
  - exact (eq_trans (breakdown_sum status l []) eq_refl).
  - intros k. exact (eq_trans (breakdown_count status k l []) eq_refl).
Qed.

Lemma min_text_spec :
  forall l m,
    Parser.min_text l = Some m ->
    In m l /\ forall t, In t l -> PyStr.leb m t = true.
Proof.
  intros [| x r] m H; [discriminate H |]. simpl in H. injection H as H. subst m.
  revert x. induction r as [| y r IH]; intros x; simpl.
  - split; [left; reflexivity |]. intros t [<- | []].
    unfold PyStr.leb. rewrite compare_refl. reflexivity.
  - destruct (IH (if PyStr.leb x y then x else y)) as [Hin Hle]. split.
    + destruct Hin as [Hin | Hin]; [| right; right; exact Hin].
      rewrite <- Hin. destruct (PyStr.leb x y); [left | right; left]; reflexivity.
    + intros t [<- | [<- | Ht]].
      * destruct (PyStr.leb x y) eqn:E.
        -- apply Hle. left. reflexivity.
        -- apply (leb_trans _ y).
           ++ apply Hle. left. reflexivity.
           ++ destruct (leb_total x y) as [H | H]; [congruence | exact H].
      * destruct (PyStr.leb x y) eqn:E.
        -- apply (leb_trans _ x); [apply Hle; left; reflexivity | exact E].
        -- apply Hle. left. reflexivity.
      * apply Hle. right. exact Ht.
Qed.

Lemma max_text_spec :
  forall l m,
    Parser.max_text l = Some m ->
    In m l /\ forall t, In t l -> PyStr.leb t m = true.
Proof.
  intros [| x r] m H; [discriminate H |]. simpl in H. injection H as H. subst m.
  revert x. induction r as [| y r IH]; intros x; simpl.
  - split; [left; reflexivity |]. intros t [<- | []].
    unfold PyStr.leb. rewrite compare_refl. reflexivity.
  - destruct (IH (if PyStr.leb y x then x else y)) as [Hin Hle]. split.
    + destruct Hin as [Hin | Hin]; [| right; right; exact Hin].
      rewrite <- Hin. destruct (PyStr.leb y x); [left | right; left]; reflexivity.
    + intros t [<- | [<- | Ht]].
      * destruct (PyStr.leb y x) eqn:E.
        -- apply Hle. left. reflexivity.
        -- apply (leb_trans _ y).
           ++ destruct (leb_total x y) as [H | H]; [exact H | congruence].
           ++ apply Hle. left. reflexivity.
      * destruct (PyStr.leb y x) eqn:E.
        -- apply (leb_trans _ x); [exact E | apply Hle; left; reflexivity].
        -- apply Hle. left. reflexivity.
      * apply Hle. right. exact Ht.
Qed.

Lemma present_timestamps_In :
  forall db t,
    In t (Parser.present_timestamps db) <->
    exists r, In r db /\ Parser.timestamp r = Some t.
Proof.
  intros db t. unfold Parser.present_timestamps.
  induction db as [| r db IH]; simpl.
  - split; [intros [] | intros (r & [] & _)].
  - destruct (Parser.timestamp r) as [t0 |] eqn:E; simpl.
    + rewrite IH. split.
      * intros [<- | (r' & Hin & Ht)]; [exists r; auto | exists r'; auto].
      * intros (r' & [<- | Hin] & Ht); [left; congruence | right; exists r'; auto].
    + rewrite IH. split.
      * intros (r' & Hin & Ht). exists r'. auto.
      * intros (r' & [<- | Hin] & Ht); [congruence | exists r'; auto].
Qed.

(** X11.  The date range of the global statistics: the first and the last
    entry are time stamps of stored rows, every stored time stamp lies
    between them in the order of texts, and both are absent exactly when
    no row bears a time stamp. *)
Theorem statistics_date_range :
  forall db : Parser.database,
    let s := Parser.get_statistics db in
    (forall f, Parser.first_entry s = Some f ->
       (exists r, In r db /\ Parser.timestamp r = Some f) /\
       forall r t, In r db -> Parser.timestamp r = Some t -> PyStr.leb f t = true) /\
    (forall u, Parser.last_entry s = Some u ->
       (exists r, In r db /\ Parser.timestamp r = Some u) /\
       forall r t, In r db -> Parser.timestamp r = Some t -> PyStr.leb t u = true) /\
    (Parser.first_entry s = None <-> forall r, In r db -> Parser.timestamp r = None) /\
    (Parser.last_entry s = None <-> Parser.first_entry s = None).
Proof.
  intros db s. unfold s, Parser.get_statistics.
  cbn [Parser.first_entry Parser.last_entry].
  split; [| split; [| split]].
  - intros f H. apply min_text_spec in H. destruct H as [Hin Hle]. split.
    + apply present_timestamps_In. exact Hin.
    + intros r t Hr Ht. apply Hle. apply present_timestamps_In. exists r. auto.
  - intros u H. apply max_text_spec in H. destruct H as [Hin Hle]. split.
    + apply present_timestamps_In. exact Hin.
    + intros r t Hr Ht. apply Hle. apply present_timestamps_In. exists r. auto.
  - destruct (Parser.present_timestamps db) as [| x l] eqn:E; simpl.
    + split; [| reflexivity]. intros _ r Hr.
      destruct (Parser.timestamp r) as [t |] eqn:Et; [| reflexivity].
      assert (Hin : In t (Parser.present_timestamps db))
        by (apply present_timestamps_In; exists r; auto).
      rewrite E in Hin. destruct Hin.
    + split; [discriminate |]. intros H.
      assert (Hin : In x (Parser.present_timestamps db)) by (rewrite E; left; reflexivity).
      apply present_timestamps_In in Hin. destruct Hin as (r & Hr & Ht).
      rewrite (H r Hr) in Ht. discriminate Ht.
  - destruct (Parser.present_timestamps db); simpl; split; congruence.
Qed.

Lemma statistics_date_range_witness :
  PyStr.leb "2025-06-20 09:00:00" "2025-06-20 09:10:00" = true.
Proof.
  apply (proj2 (proj1 (statistics_date_range Samples.morning)
                  "2025-06-20 09:00:00"%string eq_refl)
           (nth 2 Samples.morning Samples.unstamped)).
  - right. right. left. reflexivity.
  - reflexivity.
Defined.

(** ** Dates *)

Lemma span_digits_digits :
  forall s, Spec.all_chars DateParser.is_digit (fst (DateParser.span_digits s)) = true.
Proof.
  induction s as [| c s IH]; simpl.
  - reflexivity.
  - destruct (DateParser.is_digit c) eqn:E.
    + destruct (DateParser.span_digits s) as [d rest]. simpl in *. rewrite E. exact IH.
    + reflexivity.
Qed.

Lemma match_relative_digits :
  forall s digits unit,
    DateParser.match_relative s = Some (digits, unit) ->
    Spec.all_chars DateParser.is_digit digits = true.
Proof.
  intros s digits unit H. unfold DateParser.match_relative in H.
  pose proof (span_digits_digits s) as Hd.
  destruct (DateParser.span_digits s) as [[| c d] rest]; [discriminate H |].
  destruct (DateParser.mem (PyStr.lstrip rest) DateParser.units); [| discriminate H].
  injection H as H1 H2. subst. exact Hd.
Qed.

Lemma ago_inv :
  forall now us r,
    DateParser.ago now us = r ->
    match r with
    | Ok (Some d) =>
        d = DateTime.mkDT (DateTime.dt_us now - us) (DateTime.dt_tz now) /\
        0 <= DateTime.dt_us now - us
    | Ok None => False
    | Raise e => e = OverflowError
    end.
Proof.
  intros now us r H. subst r. unfold DateParser.ago, DateTime.timedelta, DateTime.sub_timedelta.
  destruct (Z.abs (us / DateTime.us_per_day) <=? 999999999); cbn [bind]; [| reflexivity].
  destruct (0 <=? DateTime.dt_us now - us) eqn:E; cbn [andb bind]; [| reflexivity].
  destruct (DateTime.dt_us now - us <? DateTime.MAXORDINAL * DateTime.us_per_day);
    cbn [bind]; [| reflexivity].
  split; [reflexivity | apply Z.leb_le; exact E].
Qed.

Lemma ago_past :
  forall now amount k d,
    0 <= amount -> 0 <= k ->
    DateParser.ago now (amount * k) = Ok (Some d) ->
    DateTime.dt_tz d = DateTime.dt_tz now /\
    0 <= DateTime.dt_us d <= DateTime.dt_us now.
Proof.
  intros now amount k d Ha Hk H. apply ago_inv in H. destruct H as [-> Hlo].
  cbn [DateTime.dt_tz DateTime.dt_us]. split; [reflexivity |].
  pose proof (Z.mul_nonneg_nonneg _ _ Ha Hk). lia.
Qed.

Lemma ago_raises :
  forall now us e, DateParser.ago now us = Raise e -> e = OverflowError.
Proof. intros now us e H. apply ago_inv in H. exact H. Qed.

(** X12.  A relative date never lies after the reading of the clock: the
    instant returned keeps the time zone of the clock, lies within the
    calendar and is not later than the clock; and it is the answer of
    [parse_date], which tries the relative form first. *)
Theorem relative_dates_lie_in_the_past :
  forall now s d,
    DateParser.parse_relative_date now s = Ok (Some d) ->
    DateTime.dt_tz d = DateTime.dt_tz now /\
    0 <= DateTime.dt_us d <= DateTime.dt_us now /\
    DateParser.parse_date now s = Ok (Some d).
Proof.
  intros now s d H.
  split; [| split]; [| | unfold DateParser.parse_date; rewrite H; reflexivity].
  all: unfold DateParser.parse_relative_date in H.
  all: destruct s as [| c0 s0]; [discriminate H |].
  all: destruct (DateParser.match_relative (PyStr.lower (PyStr.strip (String c0 s0))))
         as [[g1 unit] |] eqn:Em; [| discriminate H].
  all: pose proof (match_relative_digits _ _ _ Em) as Hd.
  all: unfold DateParser.int_ in H.
  all: destruct (String.length g1 <=? DateParser.int_max_str_digits)%nat; [| discriminate H].
  all: cbn [bind] in H.
  all: pose proof (int_of_digits_bounds g1 0 Hd (Z.le_refl 0)) as Hamount.
  all: repeat match type of H with
              | (if ?b then _ else _) = _ => destruct b
              end.
  all: try discriminate H.
  all: try rewrite <- Z.mul_assoc in H.
  all: apply ago_past in H; try exact Hamount; try (vm_compute; discriminate).
  all: destruct H as [H1 H2]; assumption.
Qed.

Lemma relative_dates_lie_in_the_past_witness :
  DateTime.dt_tz (Examples.clock "2025-06-18 12:00:00") = None /\
  0 <= DateTime.dt_us (Examples.clock "2025-06-18 12:00:00")
    <= DateTime.dt_us (Examples.clock "2025-06-21 12:00:00") /\
  DateParser.parse_date (Examples.clock "2025-06-21 12:00:00") "3 days"
  = Ok (Some (Examples.clock "2025-06-18 12:00:00")).
Proof.
  apply (relative_dates_lie_in_the_past (Examples.clock "2025-06-21 12:00:00") "3 days"
           (Examples.clock "2025-06-18 12:00:00")).
  reflexivity.
Defined.

(** X13.  [parse_date] fails only on a text of the relative form, digits
    and then a unit: with [ValueError] when the digits are more than 4300,
    with [OverflowError] otherwise.  Every other text is answered, with the
    absolute date it spells or with nothing. *)
Theorem parse_date_fails_only_on_relative_forms :
  forall now s,
    (forall e,
       DateParser.parse_date now s = Raise e ->
       exists digits unit,
         DateParser.match_relative (PyStr.lower (PyStr.strip s)) = Some (digits, unit) /\
         ((e = ValueError /\ (DateParser.int_max_str_digits < String.length digits)%nat) \/
          (e = OverflowError /\ (String.length digits <= DateParser.int_max_str_digits)%nat))) /\
    (DateParser.match_relative (PyStr.lower (PyStr.strip s)) = None ->
     DateParser.parse_date now s = Ok (DateParser.parse_absolute_date s)).
Proof.
  intros now s. split.
  - intros e H. unfold DateParser.parse_date in H.
    destruct (DateParser.parse_relative_date now s) as [[d |] | e'] eqn:Er;
      cbn [bind] in H; try discriminate H.
    injection H as H. subst e'.
    unfold DateParser.parse_relative_date in Er.
    destruct s as [| c0 s0]; [discriminate Er |].
    destruct (DateParser.match_relative (PyStr.lower (PyStr.strip (String c0 s0))))
      as [[g1 unit] |] eqn:Em; [| discriminate Er].
    exists g1, unit. split; [reflexivity |].
    unfold DateParser.int_ in Er.
    destruct (String.length g1 <=? DateParser.int_max_str_digits)%nat eqn:El.
    + right. cbn [bind] in Er. split; [| apply Nat.leb_le; exact El].
      repeat match type of Er with
             | (if ?b then _ else _) = _ => destruct b
             end.
      all: try discriminate Er.
      all: apply ago_raises in Er; exact Er.
    + left. cbn [bind] in Er. injection Er as Er. split; [symmetry; exact Er |].
      apply Nat.leb_gt. exact El.
  - intros Hm. unfold DateParser.parse_date, DateParser.parse_relative_date.
    destruct s as [| c0 s0]; [reflexivity |]. rewrite Hm. reflexivity.
Qed.

Lemma parse_date_fails_only_on_relative_forms_witness :
  (exists digits unit,
     DateParser.match_relative (PyStr.lower (PyStr.strip "9999 Years"))
     = Some (digits, unit) /\
     ((OverflowError = ValueError /\
       (DateParser.int_max_str_digits < String.length digits)%nat) \/
      (OverflowError = OverflowError /\
       (String.length digits <= DateParser.int_max_str_digits)%nat))) /\
  DateParser.parse_date (Examples.clock "2025-06-21 12:00:00") "next week"
  = Ok (DateParser.parse_absolute_date "next week").
Proof.
  split.
  - apply (proj1 (parse_date_fails_only_on_relative_forms
                    (Examples.clock "2025-06-21 12:00:00") "9999 Years") OverflowError).
    reflexivity.
  - apply (proj2 (parse_date_fails_only_on_relative_forms
                    (Examples.clock "2025-06-21 12:00:00") "next week")).
    reflexivity.
Defined.

Lemma rstrip_idem : forall s, PyStr.rstrip (PyStr.rstrip s) = PyStr.rstrip s.
Proof.
  induction s as [| c s IH]; [reflexivity |].
  cbn [PyStr.rstrip]. destruct (PyStr.rstrip s) as [| c' r'] eqn:E.
  - destruct (PyStr.isspace c) eqn:Ec; [reflexivity |].
    cbn [PyStr.rstrip]. rewrite Ec. reflexivity.
  - cbn [PyStr.rstrip]. cbn [PyStr.rstrip] in IH. rewrite IH. reflexivity.
Qed.

Lemma lstrip_head :
  forall s, match PyStr.lstrip s with
            | EmptyString => True
            | String c _ => PyStr.isspace c = false
            end.
Proof.
  induction s as [| c s IH]; simpl; [exact I |].
  destruct (PyStr.isspace c) eqn:E; [exact IH | exact E].
Qed.

Lemma rstrip_head :
  forall c r, PyStr.isspace c = false ->
              exists r', PyStr.rstrip (String c r) = String c r'.
Proof.
  intros c r H. cbn [PyStr.rstrip]. destruct (PyStr.rstrip r).
  - rewrite H. eexists. reflexivity.
  - eexists. reflexivity.
Qed.

Lemma strip_idem : forall s, PyStr.strip (PyStr.strip s) = PyStr.strip s.
Proof.
  intros s. unfold PyStr.strip. pose proof (lstrip_head s) as H.
  destruct (PyStr.lstrip s) as [| c r]; [reflexivity |].
  destruct (rstrip_head c r H) as [r' Hr]. rewrite Hr.
  rewrite (lstrip_fixed c r' H). rewrite <- Hr. apply rstrip_idem.
Qed.

Lemma try_formats_strip :
  forall fmts s, DateParser.try_formats (PyStr.strip s) fmts = DateParser.try_formats s fmts.
Proof.
  induction fmts as [| f fmts IH]; intros s; simpl.
  - reflexivity.
  - rewrite strip_idem, IH. reflexivity.
Qed.

Lemma parse_absolute_date_strip :
  forall s, DateParser.parse_absolute_date (PyStr.strip s) = DateParser.parse_absolute_date s.
Proof.
  intros s. unfold DateParser.parse_absolute_date.
  destruct s as [| c r]; [reflexivity |].
  destruct (PyStr.strip (String c r)) as [| c' r'] eqn:E.
  - rewrite <- (try_formats_strip DateParser.formats (String c r)), E. reflexivity.
  - rewrite <- E. apply try_formats_strip.
Qed.

(** X14.  White space around a date is of no account: a text and the same
    text without its leading and trailing white space are read alike, as
    a relative date, as an absolute one, and by [parse_date]. *)
Theorem white_space_around_a_date_is_ignored :
  forall now s,
    DateParser.parse_relative_date now (PyStr.strip s)
    = DateParser.parse_relative_date now s /\
    DateParser.parse_absolute_date (PyStr.strip s) = DateParser.parse_absolute_date s /\
    DateParser.parse_date now (PyStr.strip s) = DateParser.parse_date now s.
Proof.
  intros now s.
  assert (Hrel : DateParser.parse_relative_date now (PyStr.strip s)
                 = DateParser.parse_relative_date now s).
  { unfold DateParser.parse_relative_date.
    destruct s as [| c r]; [reflexivity |].
    destruct (PyStr.strip (String c r)) as [| c' r'] eqn:E.
    - reflexivity.
    - rewrite <- E, strip_idem. reflexivity. }
  split; [exact Hrel |]. split; [apply parse_absolute_date_strip |].
  unfold DateParser.parse_date. rewrite Hrel, parse_absolute_date_strip. reflexivity.
Qed.

Lemma make_naive :
  forall y m d hh mm ss us r,
    DateTime.make y m d hh mm ss us = Ok r ->
    DateTime.dt_tz r = None /\ 0 <= DateTime.dt_us r.
Proof.
  intros y m d hh mm ss us r H. unfold DateTime.make in H.
  match type of H with (if ?b then _ else _) = _ => destruct b eqn:E end;
    [| discriminate H].
  injection H as H. subst r. cbn [DateTime.dt_tz DateTime.dt_us].
  split; [reflexivity |].
  repeat (apply andb_true_iff in E; destruct E as [E ?]).
  repeat match goal with
         | H : (_ <=? _) = true |- _ => apply Z.leb_le in H
         end.
  assert (Hy : 0 <= DateTime.days_before_year y).
  { unfold DateTime.days_before_year.
    assert (0 <= (y - 1) / 4 - (y - 1) / 100) by
      (pose proof (Z.div_le_compat_l (y - 1) 4 100); lia).
    assert (0 <= (y - 1) / 400) by (apply Z.div_pos; lia). lia. }
  assert (Hm : 0 <= DateTime.days_before_month y m).
  { unfold DateTime.days_before_month.
    assert (Hn : 0 <= nth (Z.to_nat m) [0; 0; 31; 59; 90; 120; 151; 181; 212; 243; 273; 304; 334] 0).
    { destruct (Z.to_nat m) as [| [| [| [| [| [| [| [| [| [| [| [| [| n]]]]]]]]]]]]];
        simpl; try lia. destruct n; lia. }
    destruct ((2 <? m) && DateTime.is_leap y); lia. }
  unfold DateTime.us_per_day, DateTime.us_per_hour, DateTime.us_per_minute,
    DateTime.us_per_second. nia.
Qed.

Lemma try_formats_naive :
  forall fmts s d,
    DateParser.try_formats s fmts = Some d ->
    DateTime.dt_tz d = None /\ 0 <= DateTime.dt_us d.
Proof.
  induction fmts as [| f fmts IH]; intros s d H; simpl in H.
  - discriminate H.
  - destruct (Strptime.strptime (PyStr.strip s) f) as [d' |] eqn:E.
    + injection H as H. subst d'. unfold Strptime.strptime in E.
      destruct (Strptime.match_toks (Strptime.compile f) (PyStr.strip s))
        as [| [g [| c r]] l]; try discriminate E.
      match type of E with
      | match ?m with _ => _ end = _ => destruct m as [d' | e] eqn:Em
      end; [| discriminate E].
      injection E as E. subst d'. apply make_naive in Em. exact Em.
    + apply (IH s d H).
Qed.

(** X15.  An absolute date is always naive: the instant read from a text
    bears no time zone, also when the text ends in [Z], and lies on or
    after the first instant of the calendar. *)
Theorem absolute_dates_are_naive :
  forall s d,
    DateParser.parse_absolute_date s = Some d ->
    DateTime.dt_tz d = None /\ 0 <= DateTime.dt_us d.
Proof.
  intros s d H. unfold DateParser.parse_absolute_date in H.
  destruct s as [| c r]; [discriminate H |].
  apply (try_formats_naive _ _ _ H).
Qed.

Lemma absolute_dates_are_naive_witness :
  DateTime.dt_tz (Examples.clock "2025-06-21 12:00:00") = None /\
  0 <= DateTime.dt_us (Examples.clock "2025-06-21 12:00:00").
Proof.
  apply (absolute_dates_are_naive "2025-06-21T12:00:00Z").
  reflexivity.
Defined.

(** ** The app filter *)

Lemma dict_get_cases :
  forall k d default,
    Transcript.dict_get k d default = default \/
    exists v, In (k, v) d /\ Transcript.dict_get k d default = v.
Proof.
  intros k d default. induction d as [| [k' v] d IH]; simpl.
  - left. reflexivity.
  - destruct (String.eqb k k') eqn:E.
    + apply String.eqb_eq in E. subst k'. right. exists v. split; [left |]; reflexivity.
    + destruct IH as [IH | (v' & Hin & IH)]; [left; exact IH |].
      right. exists v'. split; [right; exact Hin | exact IH].
Qed.

Lemma bundles_resolve_to_themselves :
  forall k v, In (k, v) AppFilter.name_to_bundle ->
              AppFilter._resolve_app_filter (Some v) = Some v.
Proof.
  intros k v H. unfold AppFilter.name_to_bundle in H.
  repeat (destruct H as [H | H]; [injection H as _ H; subst v; reflexivity |]).
  destruct H.
Qed.

(** X16.  Resolving an app filter twice is resolving it once; a filter
    that holds a dot is taken as it is, whatever its case; an absent or
    empty filter gives none, and no other filter does. *)
Theorem app_filter_resolution_is_idempotent :
  forall app : option string,
    AppFilter._resolve_app_filter (AppFilter._resolve_app_filter app)
    = AppFilter._resolve_app_filter app /\
    (forall a, app = Some a -> PyStr.contains "." a = true ->
               AppFilter._resolve_app_filter app = Some a) /\
    (AppFilter._resolve_app_filter app = None <-> app = None \/ app = Some ""%string).
Proof.
  intros app. split; [| split].
  - destruct app as [[| c a] |]; try reflexivity.
    assert (Hr : AppFilter._resolve_app_filter (Some (String c a))
                 = if PyStr.contains "." (String c a) then Some (String c a)
                   else Some (Transcript.dict_get (PyStr.lower (String c a))
                                AppFilter.name_to_bundle (String c a))) by reflexivity.
    destruct (PyStr.contains "." (String c a)) eqn:Ed.
    + rewrite Hr. rewrite Hr. reflexivity.
    + destruct (dict_get_cases (PyStr.lower (String c a)) AppFilter.name_to_bundle
                  (String c a)) as [H | (v & Hin & H)]; rewrite H in Hr.
      * rewrite Hr. rewrite Hr. reflexivity.
      * rewrite Hr. apply (bundles_resolve_to_themselves _ _ Hin).
  - intros a -> Hd. unfold AppFilter._resolve_app_filter.
    destruct a as [| c a]; [discriminate Hd |]. cbn [PyStr.truthy]. rewrite Hd. reflexivity.
  - destruct app as [[| c a] |].
    + split; [right; reflexivity | reflexivity].
    + split; [| intros [H | H]; discriminate H].
      assert (Hr : AppFilter._resolve_app_filter (Some (String c a))
                   = if PyStr.contains "." (String c a) then Some (String c a)
                     else Some (Transcript.dict_get (PyStr.lower (String c a))
                                  AppFilter.name_to_bundle (String c a))) by reflexivity.
      rewrite Hr. destruct (PyStr.contains "." (String c a)); intros H; discriminate H.
    + split; [left; reflexivity | reflexivity].
Qed.

Lemma app_filter_resolution_is_idempotent_witness :
  AppFilter._resolve_app_filter (Some "Com.Example.App"%string)
  = Some "Com.Example.App"%string.
Proof.
  apply (proj1 (proj2 (app_filter_resolution_is_idempotent (Some "Com.Example.App"%string)))
           "Com.Example.App"%string); reflexivity.
Defined.

(** X17.  The name an entry shows for its app can be given back as a
    filter: for an app id that holds a dot, the shown name resolves to the
    id itself, with the one exception of TextEdit, whose shown name has no
    entry in the table of the filter and is taken as an id. *)
Theorem shown_app_name_resolves_to_its_id :
  forall e b,
    Transcript.app e = Some b ->
    (PyStr.contains "." b = true -> b <> "com.apple.TextEdit"%string ->
     AppFilter._resolve_app_filter (Some (Transcript.app_name e)) = Some b) /\
    (b = "com.apple.TextEdit"%string ->
     AppFilter._resolve_app_filter (Some (Transcript.app_name e)) = Some "TextEdit"%string).
Proof.
  intros e b Hb. split.
  - intros Hd Hne. unfold Transcript.app_name. rewrite Hb.
    destruct b as [| c b]; [discriminate Hd |]. cbn [PyStr.truthy].
    destruct (dict_get_cases (String c b) Transcript.app_mappings (String c b))
      as [H | (v & Hin & H)]; rewrite H.
    + unfold AppFilter._resolve_app_filter. cbn [PyStr.truthy]. rewrite Hd. reflexivity.
    + unfold Transcript.app_mappings in Hin.
      repeat (destruct Hin as [Hin | Hin];
              [apply pair_equal_spec in Hin; destruct Hin as [Hk Hv];
               rewrite <- Hk, <- Hv;
               first [reflexivity | exfalso; apply Hne; symmetry; exact Hk] |]).
      destruct Hin.
  - intros ->. unfold Transcript.app_name. rewrite Hb. reflexivity.
Qed.

Lemma shown_app_name_resolves_to_its_id_witness :
  AppFilter._resolve_app_filter
    (Some (Transcript.app_name (Samples.entry (hd (Examples.row "" None None None)
                                              Samples.morning))))
  = Some "com.tinyspeck.slackmacgap"%string.
Proof.
  apply (proj1 (shown_app_name_resolves_to_its_id
                  (Samples.entry (hd (Examples.row "" None None None) Samples.morning))
                  "com.tinyspeck.slackmacgap"%string eq_refl)).
  - reflexivity.
  - discriminate.
Defined.

(** ** The server loop *)

Section ServerLoop.

Variable env : MCPServer.environment.

Lemma handle_request_result_xor_error :
  forall d response,
    MCPServer.handle_request env (MCPServer.JObj d) = Ok response ->
    Terms.result_xor_error response.
Proof.
  intros d response H. unfold MCPServer.handle_request in H.
  repeat match type of H with
         | context [if ?b then _ else _] => destruct b
         end;
    try (injection H as H; subst response;
         first [left; split; [discriminate | reflexivity]
               | right; split; [reflexivity | discriminate]]).
  unfold MCPServer._handle_tools_call in H.
  destruct (MCPServer.get "params" d (MCPServer.JObj []));
    try (injection H as H; subst response; right; split; [reflexivity | discriminate]).
  repeat match type of H with
         | context [if ?b then _ else _] => destruct b
         end;
    injection H as H; subst response;
    first [left; split; [discriminate | reflexivity]
          | right; split; [reflexivity | discriminate]].
Qed.

Lemma process_line_answers :
  forall line, MCPServer.process_line env line = None <-> Terms.blank line = true.
Proof.
  intros line. unfold MCPServer.process_line, Terms.blank.
  destruct (PyStr.strip line) as [| c r]; [split; reflexivity |].
  split; [| discriminate].
  destruct (MCPServer.loads env (String c r)) as [request | message]; [| discriminate].
  destruct (MCPServer.handle_request env request) as [response | e] eqn:E; [| discriminate].
  destruct request; try discriminate E.
  apply handle_request_shape in E. destruct E as (_ & _ & Ht). rewrite Ht. discriminate.
Qed.

(** X18.  The server answers every line that is not blank, once, and no
    other: a line gets no response exactly when it holds white space only,
    so the responses are as many as the lines that are not blank; nothing
    is read after the end of the input; and each response bears a result or
    an error, never both and never neither. *)
Theorem server_answers_every_line :
  (forall line, MCPServer.process_line env line = None <-> Terms.blank line = true) /\
  (forall lines,
     List.length (MCPServer.run env lines)
     = List.length (filter (fun l => negb (Terms.blank l)) (Terms.before_eof lines))) /\
  (forall lines, MCPServer.run env lines = MCPServer.run env (Terms.before_eof lines)) /\
  (forall lines response,
     In response (MCPServer.run env lines) -> Terms.result_xor_error response).
Proof.
  split; [exact process_line_answers |]. split; [| split].
  - induction lines as [| line rest IH]; [reflexivity |].
    destruct line as [| c r]; [reflexivity |].
    cbn [MCPServer.run Terms.before_eof filter].
    destruct (MCPServer.process_line env (String c r)) as [response |] eqn:E.
    + destruct (Terms.blank (String c r)) eqn:Eb.
      * apply process_line_answers in Eb. congruence.
      * cbn [negb List.length]. rewrite IH. reflexivity.
    + apply process_line_answers in E. rewrite E. cbn [negb]. exact IH.
  - induction lines as [| line rest IH]; [reflexivity |].
    destruct line as [| c r]; [reflexivity |].
    cbn [MCPServer.run Terms.before_eof]. rewrite IH. reflexivity.
  - induction lines as [| line rest IH]; intros response Hin; [destruct Hin |].
    destruct line as [| c r]; [destruct Hin |].
    cbn [MCPServer.run] in Hin.
    destruct (MCPServer.process_line env (String c r)) as [resp |] eqn:E;
      [| apply IH; exact Hin].
    destruct Hin as [<- | Hin]; [| apply IH; exact Hin].
    unfold MCPServer.process_line in E.
    destruct (PyStr.strip (String c r)) as [| c' r']; [discriminate E |].
    destruct (MCPServer.loads env (String c' r')) as [request | message].
    + destruct (MCPServer.handle_request env request) as [response | e] eqn:Eh.
      * destruct request; try discriminate Eh.
        destruct (MCPServer.truthy response); [| discriminate E].
        injection E as E. subst resp.
        apply (handle_request_result_xor_error _ _ Eh).
      * injection E as E. subst resp. right. split; [reflexivity | discriminate].
    + injection E as E. subst resp. right. split; [reflexivity | discriminate].
Qed.

End ServerLoop.

Lemma server_answers_every_line_witness :
  Terms.result_xor_error
    (MCPServer._error_response MCPServer.JNull (-32603)
       (MCPServer.JStr ("Server error: " ++ "error"))).
Proof.
  apply (proj2 (proj2 (proj2 (server_answers_every_line Examples.env)))
           ["   "; "42"; ""; "{}"]%string).
  left. reflexivity.
Defined.

(** ** The daily collection *)

Lemma strip_nonempty_truthy :
  forall s, PyStr.strip s <> ""%string -> PyStr.truthy (Some s) = true.
Proof. intros [| c s] H; [contradiction H; reflexivity | reflexivity]. Qed.

Lemma truthy_some_iff :
  forall s, PyStr.truthy (Some s) = true <-> s <> ""%string.
Proof. intros [| c s]; simpl; split; congruence. Qed.

(** X19.  What the collection keeps: an entry that is kept has a text
    that is not blank, a status that stands for speech, no excluded app,
    and, when its word count is known and not zero, at least the minimum of
    words (and at least five when short entries are excluded).  An entry
    whose word count is unknown or zero is never dropped for being short,
    whatever the minimum. *)
Theorem collect_filter_keeps :
  forall a l e,
    (In e (CollectCommand._filter_entries a l) ->
     In e l /\
     PyStr.strip (Transcript.display_text e) <> ""%string /\
     (forall n, Transcript.num_words e = Some n -> n <> 0 ->
                CollectCommand.min_words a <= n /\
                (CollectCommand.exclude_short a = true -> 5 <= n)) /\
     CollectCommand.excluded_app a e = false /\
     Terms.no_speech e = false) /\
    (In e l ->
     PyStr.strip (Transcript.display_text e) <> ""%string ->
     Transcript.num_words e = None \/ Transcript.num_words e = Some 0 ->
     CollectCommand.excluded_app a e = false ->
     Terms.no_speech e = false ->
     In e (CollectCommand._filter_entries a l)).
Proof.
  intros a l e. unfold CollectCommand._filter_entries. split.
  - intros H. apply filter_In in H. destruct H as [Hin Hk]. split; [exact Hin |].
    unfold CollectCommand.keeps in Hk.
    destruct (negb (PyStr.truthy (Some (Transcript.display_text e)))
              || negb (PyStr.truthy (Some (PyStr.strip (Transcript.display_text e)))))
      eqn:Et; [discriminate Hk |].
    apply orb_false_iff in Et. destruct Et as [_ Et]. apply negb_false_iff in Et.
    apply truthy_some_iff in Et. split; [exact Et |].
    destruct (CollectCommand.words_below e (CollectCommand.min_words a)) eqn:Em;
      [discriminate Hk |].
    destruct (CollectCommand.exclude_short a && CollectCommand.words_below e 5) eqn:Es;
      [discriminate Hk |].
    destruct (CollectCommand.excluded_app a e) eqn:Ex; [discriminate Hk |].
    fold (Terms.no_speech e) in Hk.
    destruct (Terms.no_speech e) eqn:En; [discriminate Hk |].
    split; [| split; reflexivity].
    intros n Hn Hn0. unfold CollectCommand.words_below in Em, Es. rewrite Hn in Em, Es.
    assert (Hz : (n =? 0) = false) by (apply Z.eqb_neq; exact Hn0).
    rewrite Hz in Em, Es. cbn [negb andb] in Em, Es. split.
    + apply Z.ltb_ge. exact Em.
    + intros Hshort. rewrite Hshort in Es. cbn [andb] in Es. apply Z.ltb_ge. exact Es.
  - intros Hin Ht Hw Hx Hn. apply filter_In. split; [exact Hin |].
    unfold CollectCommand.keeps.
    rewrite (strip_nonempty_truthy _ Ht).
    rewrite (proj2 (truthy_some_iff _) Ht). cbn [negb orb].
    assert (Hb : forall bound, CollectCommand.words_below e bound = false).
    { intros bound. unfold CollectCommand.words_below.
      destruct Hw as [-> | ->]; reflexivity. }
    rewrite !Hb, andb_false_r, Hx. fold (Terms.no_speech e). rewrite Hn. reflexivity.
Qed.

Lemma append_to_day_entries :
  forall k d e daily,
    Terms.day_entries k (CollectCommand.append_to_day d e daily)
    = if String.eqb d k then Terms.day_entries k daily ++ [e]
      else Terms.day_entries k daily.
Proof.
  intros k d e daily. induction daily as [| [k' l] rest IH]; simpl.
  - destruct (String.eqb d k); reflexivity.
  - destruct (String.eqb k' d) eqn:E1; simpl.
    + apply String.eqb_eq in E1. subst k'. destruct (String.eqb d k); reflexivity.
    + destruct (String.eqb k' k) eqn:E2.
      * apply String.eqb_eq in E2. subst k'. rewrite String.eqb_sym, E1. reflexivity.
      * exact IH.
Qed.

Lemma append_to_day_keys :
  forall k d e daily,
    In k (map fst (CollectCommand.append_to_day d e daily)) <->
    k = d \/ In k (map fst daily).
Proof.
  intros k d e daily. induction daily as [| [k' l] rest IH]; simpl.
  - split; [intros [H | []]; left; symmetry; exact H | intros [H | []]; left; symmetry; exact H].
  - destruct (String.eqb k' d) eqn:E1; simpl.
    + apply String.eqb_eq in E1. subst k'. split.
      * intros [H | H]; [left; symmetry; exact H | right; right; exact H].
      * intros [H | [H | H]]; [left; symmetry; exact H | left; exact H | right; exact H].
    + rewrite IH. split.
      * intros [H | [H | H]]; [right; left; exact H | left; exact H | right; right; exact H].
      * intros [H | [H | H]]; [right; left; exact H | left; exact H | right; right; exact H].
Qed.

Lemma append_to_day_NoDup :
  forall d e daily,
    NoDup (map fst daily) -> NoDup (map fst (CollectCommand.append_to_day d e daily)).
Proof.
  intros d e daily. induction daily as [| [k' l] rest IH]; simpl; intros H.
  - constructor; [intros [] | constructor].
  - inversion H as [| x xs Hnot Hrest]; subst.
    destruct (String.eqb k' d) eqn:E1; simpl.
    + constructor; assumption.
    + constructor; [| apply IH; exact Hrest].
      intros Hin. apply append_to_day_keys in Hin. destruct Hin as [Hin | Hin].
      * subst k'. rewrite String.eqb_refl in E1. discriminate E1.
      * apply Hnot. exact Hin.
Qed.

Lemma append_to_day_nonempty :
  forall d e daily,
    Forall (fun p => snd p <> []) daily ->
    Forall (fun p => snd p <> []) (CollectCommand.append_to_day d e daily).
Proof.
  intros d e daily. induction daily as [| [k' l] rest IH]; simpl; intros H.
  - constructor; [discriminate | constructor].
  - inversion H as [| x xs Hx Hrest]; subst.
    destruct (String.eqb k' d); constructor; try assumption.
    + simpl. intros Hnil. apply app_eq_nil in Hnil. destruct Hnil as [_ Hnil].
      discriminate Hnil.
    + apply IH. exact Hrest.
Qed.

Lemma day_entries_of_key :
  forall k es daily,
    NoDup (map fst daily) -> In (k, es) daily -> Terms.day_entries k daily = es.
Proof.
  intros k es daily. induction daily as [| [k' l] rest IH]; simpl; intros Hnd Hin.
  - destruct Hin.
  - inversion Hnd as [| x xs Hnot Hrest]; subst.
    destruct Hin as [Hin | Hin].
    + injection Hin as -> ->. rewrite String.eqb_refl. reflexivity.
    + destruct (String.eqb k' k) eqn:E.
      * apply String.eqb_eq in E. subst k'. exfalso. apply Hnot.
        apply (in_map fst) in Hin. exact Hin.
      * apply IH; assumption.
Qed.

Lemma day_entries_found :
  forall k daily,
    Terms.day_entries k daily <> [] -> In (k, Terms.day_entries k daily) daily.
Proof.
  intros k daily. induction daily as [| [k' l] rest IH]; simpl; intros H.
  - contradiction H. reflexivity.
  - destruct (String.eqb k' k) eqn:E.
    + apply String.eqb_eq in E. subst k'. left. reflexivity.
    + right. apply IH. exact H.
Qed.

Lemma days_collected :
  forall l daily,
    NoDup (map fst daily) ->
    Forall (fun p => snd p <> []) daily ->
    let daily' :=
      fold_left (fun daily entry =>
                   match Transcript.timestamp entry with
                   | Some t => CollectCommand.append_to_day (DateTime.strftime_Ymd t) entry daily
                   | None => daily
                   end) l daily in
    NoDup (map fst daily') /\
    Forall (fun p => snd p <> []) daily' /\
    forall k, Terms.day_entries k daily'
              = Terms.day_entries k daily ++ filter (Terms.on_day k) l.
Proof.
  induction l as [| e l IH]; intros daily Hnd Hne; cbn [fold_left filter].
  - split; [exact Hnd |]. split; [exact Hne |]. intros k. rewrite app_nil_r. reflexivity.
  - unfold Terms.on_day at 2. destruct (Transcript.timestamp e) as [t |] eqn:Et.
    + destruct (IH (CollectCommand.append_to_day (DateTime.strftime_Ymd t) e daily)
                  (append_to_day_NoDup _ _ _ Hnd) (append_to_day_nonempty _ _ _ Hne))
        as (H1 & H2 & H3).
      split; [exact H1 |]. split; [exact H2 |]. intros k.
      rewrite H3, append_to_day_entries. unfold Terms.on_day at 2. rewrite Et.
      destruct (String.eqb (DateTime.strftime_Ymd t) k).
      * rewrite <- app_assoc. reflexivity.
      * reflexivity.
    + destruct (IH daily Hnd Hne) as (H1 & H2 & H3).
      split; [exact H1 |]. split; [exact H2 |]. intros k.
      rewrite H3. unfold Terms.on_day at 2. rewrite Et. reflexivity.
Qed.

Lemma insert_day_perm :
  forall d l, Permutation (CollectCommand.insert_day d l) (d :: l).
Proof.
  intros d l. induction l as [| x l IH]; simpl.
  - apply Permutation_refl.
  - destruct (PyStr.leb (fst d) (fst x)).
    + apply Permutation_refl.
    + apply perm_trans with (x :: d :: l).
      * apply perm_skip. exact IH.
      * apply perm_swap.
Qed.

Lemma sorted_days_perm :
  forall daily, Permutation (fold_right CollectCommand.insert_day [] daily) daily.
Proof.
  induction daily as [| d daily IH]; simpl.
  - apply perm_nil.
  - apply perm_trans with (d :: fold_right CollectCommand.insert_day [] daily).
    + apply insert_day_perm.
    + apply perm_skip. exact IH.
Qed.

Lemma insert_day_sorted :
  forall d l,
    StronglySorted (fun a b => PyStr.leb (fst a) (fst b) = true) l ->
    StronglySorted (fun a b => PyStr.leb (fst a) (fst b) = true)
      (CollectCommand.insert_day d l).
Proof.
  intros d l H. induction H as [| x l Hs IH Hx]; simpl.
  - constructor; constructor.
  - destruct (PyStr.leb (fst d) (fst x)) eqn:E.
    + constructor.
      * constructor; assumption.
      * constructor; [exact E |].
        rewrite Forall_forall in *. intros y Hy.
        apply (leb_trans _ (fst x)); [exact E | apply Hx; exact Hy].
    + constructor; [exact IH |].
      rewrite Forall_forall in *. intros y Hy.
      apply (Permutation_in _ (insert_day_perm d l)) in Hy. destruct Hy as [Hy | Hy].
      * subst y. destruct (leb_total (fst d) (fst x)) as [H | H]; [congruence | exact H].
      * apply Hx. exact Hy.
Qed.

Lemma sorted_days_sorted :
  forall daily,
    StronglySorted (fun a b => PyStr.leb (fst a) (fst b) = true)
      (fold_right CollectCommand.insert_day [] daily).
Proof.
  induction daily as [| d daily IH]; simpl.
  - constructor.
  - apply insert_day_sorted. exact IH.
Qed.

Lemma strictly_sorted_days :
  forall l : list (string * list Transcript.TranscriptEntry),
    StronglySorted (fun a b => PyStr.leb (fst a) (fst b) = true) l ->
    NoDup (map fst l) ->
    StronglySorted Terms.day_before l.
Proof.
  intros l H. induction H as [| x l Hs IH Hx]; intros Hnd.
  - constructor.
  - simpl in Hnd. inversion Hnd as [| k ks Hnot Hrest]; subst.
    constructor; [apply IH; exact Hrest |].
    rewrite Forall_forall in *. intros y Hy. unfold Terms.day_before.
    specialize (Hx y Hy). unfold PyStr.leb in Hx.
    destruct (PyStr.compare (fst x) (fst y)) eqn:E; [| reflexivity | discriminate Hx].
    apply compare_eq in E. exfalso. apply Hnot. rewrite E.
    apply in_map. exact Hy.
Qed.

(** X20.  The days of a collection part its entries: the days come in
    strictly ascending order, each once; a day holds exactly the entries
    stamped with it, in the order they were given, and at least one; and
    every entry that bears a time stamp is found under its day.  Entries
    without time stamp are in no day. *)
Theorem group_by_date_partition :
  forall l : list Transcript.TranscriptEntry,
    let days := CollectCommand._group_by_date l in
    StronglySorted Terms.day_before days /\
    (forall k es, In (k, es) days -> es <> [] /\ es = filter (Terms.on_day k) l) /\
    (forall e t, In e l -> Transcript.timestamp e = Some t ->
                 exists es, In (DateTime.strftime_Ymd t, es) days /\ In e es).
Proof.
  intros l days. unfold days, CollectCommand._group_by_date.
  destruct (days_collected l [] (NoDup_nil _) (Forall_nil _)) as (Hnd & Hne & Hday).
  cbv zeta in Hnd, Hne, Hday.
  set (daily := fold_left _ l []) in *.
  pose proof (sorted_days_perm daily) as Hperm.
  split; [| split].
  - apply strictly_sorted_days; [apply sorted_days_sorted |].
    apply (Permutation_NoDup (l := map fst daily)); [| exact Hnd].
    apply Permutation_map. apply Permutation_sym. exact Hperm.
  - intros k es Hin. apply (Permutation_in _ Hperm) in Hin. split.
    + rewrite Forall_forall in Hne. apply (Hne (k, es) Hin).
    + rewrite <- (day_entries_of_key k es daily Hnd Hin). apply Hday.
  - intros e t Hin Ht.
    exists (Terms.day_entries (DateTime.strftime_Ymd t) daily).
    assert (He : In e (Terms.day_entries (DateTime.strftime_Ymd t) daily)).
    { rewrite Hday. simpl. apply filter_In. split; [exact Hin |].
      unfold Terms.on_day. rewrite Ht. apply String.eqb_refl. }
    split; [| exact He].
    apply (Permutation_in _ (Permutation_sym Hperm)).
    apply day_entries_found. intros Hnil. rewrite Hnil in He. destruct He.
Qed.

Lemma collect_filter_keeps_witness :
  let a := CollectCommand.mkArgs "1d" None None 100 true None CollectCommand.raw false in
  let e := Examples.entry (Some "hello") None None None None None in
  In e (CollectCommand._filter_entries a [e]).
Proof.
  intros a e. apply (proj2 (collect_filter_keeps a [e] e)).
  - left. reflexivity.
  - vm_compute. discriminate.
  - left. reflexivity.
  - reflexivity.
  - reflexivity.
Defined.

Lemma group_by_date_partition_witness :
  exists es,
    In (DateTime.strftime_Ymd (Examples.clock "2025-06-20 09:05:00"), es)
       (CollectCommand._group_by_date (map Samples.entry Samples.morning)) /\
    In (Samples.entry (nth 1 Samples.morning (Examples.row "" None None None))) es.
Proof.
  apply (proj2 (proj2 (group_by_date_partition (map Samples.entry Samples.morning)))).
  - right. left. reflexivity.
  - reflexivity.
Defined.

Section Files.

Variable headed_content :
  CollectCommand.output_format -> string -> list Transcript.TranscriptEntry -> string.

(** X21.  The collection never replaces a file it finds unless it is told
    to overwrite: every day is either written or skipped; a skipped day is
    one whose file exists, and none is skipped under [--overwrite]; a
    written day, without [--overwrite], is one whose file did not exist,
    and its content is the one generated from the entries of that day. *)
Theorem existing_files_are_kept :
  forall a existing daily written skipped,
    CollectCommand.write_days headed_content a existing daily = (written, skipped) ->
    (List.length written + List.length skipped = List.length daily)%nat /\
    (forall d, In d skipped ->
               DateParser.mem d existing = true /\ CollectCommand.overwrite a = false /\
               In d (map fst daily)) /\
    (forall d content,
       In (d, content) written ->
       (CollectCommand.overwrite a = false -> DateParser.mem d existing = false) /\
       exists es, In (d, es) daily /\
                  content = CollectCommand._generate_file_content headed_content a d es).
Proof.
  intros a existing daily. induction daily as [| [date_str es] rest IH];
    intros written skipped H; cbn [CollectCommand.write_days] in H.
  - injection H as <- <-. split; [reflexivity |].
    split; [intros d [] | intros d content []].
  - destruct (CollectCommand.write_days headed_content a existing rest) as [w s] eqn:E.
    destruct (IH w s eq_refl) as (Hlen & Hsk & Hwr).
    destruct (DateParser.mem date_str existing && negb (CollectCommand.overwrite a)) eqn:Eb;
      injection H as <- <-.
    + apply andb_true_iff in Eb. destruct Eb as [Em Eo]. apply negb_true_iff in Eo.
      split; [simpl; lia |]. split.
      * intros d [<- | Hd].
        -- split; [exact Em |]. split; [exact Eo |]. left. reflexivity.
        -- destruct (Hsk d Hd) as (H1 & H2 & H3).
           split; [exact H1 |]. split; [exact H2 |]. right. exact H3.
      * intros d content Hin. destruct (Hwr d content Hin) as (H1 & es' & H2 & H3).
        split; [exact H1 |]. exists es'. split; [right; exact H2 | exact H3].
    + split; [simpl; lia |]. split.
      * intros d Hd. destruct (Hsk d Hd) as (H1 & H2 & H3).
        split; [exact H1 |]. split; [exact H2 |]. right. exact H3.
      * intros d content [Hin | Hin].
        -- injection Hin as <- <-. split.
           ++ intros Ho. rewrite Ho in Eb. cbn [negb] in Eb. rewrite andb_true_r in Eb.
              exact Eb.
           ++ exists es. split; [left; reflexivity | reflexivity].
        -- destruct (Hwr d content Hin) as (H1 & es' & H2 & H3).
           split; [exact H1 |]. exists es'. split; [right; exact H2 | exact H3].
Qed.

End Files.

Lemma existing_files_are_kept_witness :
  let a := CollectCommand.mkArgs "1d" None None 0 false None CollectCommand.raw false in
  let days := CollectCommand._group_by_date (map Samples.entry Samples.morning) in
  DateParser.mem "2025-06-20" ["2025-06-20"%string] = true /\
  CollectCommand.overwrite a = false /\
  In "2025-06-20"%string (map fst days).
Proof.
  intros a days.
  apply (proj1 (proj2 (existing_files_are_kept (fun _ _ _ => ""%string) a
                         ["2025-06-20"%string] days [] ["2025-06-20"%string] eq_refl))).
  left. reflexivity.
Defined.

(** ** The matches of a query in a text *)

Lemma lower_length : forall s, String.length (PyStr.lower s) = String.length s.
Proof. induction s as [| c s IH]; simpl; [reflexivity | rewrite IH; reflexivity]. Qed.

Lemma drop_drop :
  forall a b s, Matches.drop b (Matches.drop a s) = Matches.drop (a + b) s.
Proof.
  induction a as [| a IH]; intros b s.
  - reflexivity.
  - destruct s as [| c s]; simpl.
    + destruct b; reflexivity.
    + apply IH.
Qed.

Lemma drop_length :
  forall a s, String.length (Matches.drop a s) = (String.length s - a)%nat.
Proof.
  induction a as [| a IH]; intros s.
  - simpl. lia.
  - destruct s as [| c s]; simpl; [reflexivity | apply IH].
Qed.

Lemma find_at_spec :
  forall sub s i,
    match Matches.find_at sub s i with
    | Some pos =>
        exists k, pos = (i + k)%nat /\ (k <= String.length s)%nat /\
                  PyStr.startswith (Matches.drop k s) sub = true /\
                  forall j, (j < k)%nat -> PyStr.startswith (Matches.drop j s) sub = false
    | None =>
        forall j, (j <= String.length s)%nat ->
                  PyStr.startswith (Matches.drop j s) sub = false
    end.
Proof.
  intros sub s. induction s as [| c s IH]; intros i.
  - cbn [Matches.find_at]. destruct (PyStr.startswith "" sub) eqn:E.
    + exists 0%nat. split; [lia |]. split; [simpl; lia |]. split; [exact E |].
      intros j Hj. lia.
    + intros j Hj. simpl in Hj. assert (j = 0)%nat by lia. subst j. exact E.
  - cbn [Matches.find_at]. destruct (PyStr.startswith (String c s) sub) eqn:E.
    + exists 0%nat. split; [lia |]. split; [simpl; lia |]. split; [exact E |].
      intros j Hj. lia.
    + specialize (IH (S i)). destruct (Matches.find_at sub s (S i)) as [pos |].
      * destruct IH as (k & Hpos & Hk & Hat & Hbefore).
        exists (S k). split; [lia |]. split; [simpl; lia |]. split; [exact Hat |].
        intros [| j] Hj; [exact E | apply Hbefore; lia].
      * intros [| j] Hj; [exact E |]. apply IH. simpl in Hj. lia.
Qed.

Lemma filter_none :
  forall (f : nat -> bool) start len,
    (forall p, (start <= p < start + len)%nat -> f p = false) ->
    filter f (seq start len) = [].
Proof.
  intros f start len. revert start. induction len as [| len IH]; intros start H.
  - reflexivity.
  - simpl. rewrite (H start) by lia. apply IH. intros p Hp. apply H. lia.
Qed.

Lemma filter_first :
  forall (f : nat -> bool) start k rest,
    (forall p, (start <= p < start + k)%nat -> f p = false) ->
    f (start + k)%nat = true ->
    filter f (seq start (k + S rest))
    = (start + k)%nat :: filter f (seq (S (start + k)) rest).
Proof.
  intros f start k rest Hnone Hat.
  rewrite seq_app, filter_app, (filter_none f start k Hnone). simpl.
  rewrite Hat. reflexivity.
Qed.

Lemma find_loop_spec :
  forall sub s qlen fuel start,
    (start <= S (String.length s))%nat ->
    (S (String.length s) - start < fuel)%nat ->
    Matches.find_loop fuel sub s qlen start
    = map (fun p => (p, (p + qlen)%nat))
        (filter (Terms.occurs_at sub s) (seq start (S (String.length s) - start))).
Proof.
  intros sub s qlen. induction fuel as [| fuel IH]; intros start Hstart Hfuel; [lia |].
  cbn [Matches.find_loop]. unfold Matches.find.
  destruct (String.length s <? start)%nat eqn:El.
  - apply Nat.ltb_lt in El.
    replace (S (String.length s) - start)%nat with 0%nat by lia. reflexivity.
  - apply Nat.ltb_ge in El.
    pose proof (find_at_spec sub (Matches.drop start s) start) as Hf.
    destruct (Matches.find_at sub (Matches.drop start s) start) as [pos |].
    + destruct Hf as (k & Hpos & Hk & Hat & Hbefore).
      rewrite drop_length in Hk. rewrite drop_drop in Hat.
      replace (S (String.length s) - start)%nat
        with (k + S (String.length s - start - k))%nat by lia.
      rewrite (filter_first (Terms.occurs_at sub s) start k).
      * cbn [map]. subst pos. f_equal.
        rewrite (IH (S (start + k))) by lia.
        replace (S (String.length s) - S (start + k))%nat
          with (String.length s - start - k)%nat by lia.
        reflexivity.
      * intros p Hp. unfold Terms.occurs_at.
        replace p with (start + (p - start))%nat by lia.
        rewrite <- drop_drop. apply Hbefore. lia.
      * exact Hat.
    + rewrite filter_none; [reflexivity |].
      intros p Hp. unfold Terms.occurs_at.
      replace p with (start + (p - start))%nat by lia.
      rewrite <- drop_drop. apply Hf. rewrite drop_length. lia.
Qed.

(** X22.  The matches of a query are all its occurrences in the text and
    nothing else: one span for every index at which the query occurs,
    overlapping occurrences included, in ascending order, each as long as
    the query; without [--case-sensitive] text and query are compared in
    lower case.  The loop ends: the turns the model allows are enough. *)
Theorem find_matches_are_the_occurrences :
  forall (case_sensitive : bool) (text query : string),
    let search_text := if case_sensitive then text else PyStr.lower text in
    let search_query := if case_sensitive then query else PyStr.lower query in
    Matches._find_matches case_sensitive text query
    = map (fun p => (p, (p + String.length query)%nat))
        (Terms.occurrences search_query search_text).
Proof.
  intros case_sensitive text query search_text search_query.
  unfold Matches._find_matches, Terms.occurrences.
  fold search_text. fold search_query.
  assert (Hlen : String.length search_text = String.length text).
  { unfold search_text. destruct case_sensitive; [reflexivity | apply lower_length]. }
  rewrite (find_loop_spec search_query search_text (String.length query)
             (String.length text + 2) 0) by lia.
  rewrite Nat.sub_0_r. reflexivity.
Qed.

(** ** Conversations *)

Section SortedByKey.

Context {A : Type}.
Variable key : A -> DateTime.datetime.

Lemma insert_asc_perm :
  forall x l, Permutation (DTOrder.insert_asc key x l) (x :: l).
Proof.
  intros x l. induction l as [| y l IH]; simpl.
  - apply Permutation_refl.
  - destruct (DTOrder.utc (key x) <=? DTOrder.utc (key y)).
    + apply Permutation_refl.
    + apply perm_trans with (y :: x :: l); [apply perm_skip; exact IH | apply perm_swap].
Qed.

Lemma sort_asc_perm :
  forall l, Permutation (fold_right (DTOrder.insert_asc key) [] l) l.
Proof.
  induction l as [| x l IH]; simpl.
  - apply perm_nil.
  - apply perm_trans with (x :: fold_right (DTOrder.insert_asc key) [] l);
      [apply insert_asc_perm | apply perm_skip; exact IH].
Qed.

Lemma insert_asc_sorted :
  forall x l,
    StronglySorted (fun a b => DTOrder.utc (key a) <= DTOrder.utc (key b)) l ->
    StronglySorted (fun a b => DTOrder.utc (key a) <= DTOrder.utc (key b))
      (DTOrder.insert_asc key x l).
Proof.
  intros x l H. induction H as [| y l Hs IH Hy]; simpl.
  - constructor; constructor.
  - destruct (DTOrder.utc (key x) <=? DTOrder.utc (key y)) eqn:E.
    + apply Z.leb_le in E. constructor.
      * constructor; assumption.
      * constructor; [exact E |].
        rewrite Forall_forall in *. intros z Hz. specialize (Hy z Hz). lia.
    + apply Z.leb_gt in E. constructor; [exact IH |].
      rewrite Forall_forall in *. intros z Hz.
      apply (Permutation_in _ (insert_asc_perm x l)) in Hz. destruct Hz as [Hz | Hz].
      * subst z. lia.
      * apply Hy. exact Hz.
Qed.

Lemma sort_asc_sorted :
  forall l,
    StronglySorted (fun a b => DTOrder.utc (key a) <= DTOrder.utc (key b))
      (fold_right (DTOrder.insert_asc key) [] l).
Proof.
  induction l as [| x l IH]; simpl.
  - constructor.
  - apply insert_asc_sorted. exact IH.
Qed.

Lemma insert_desc_key_perm :
  forall x l, Permutation (DTOrder.insert_desc key x l) (x :: l).
Proof.
  intros x l. induction l as [| y l IH]; simpl.
  - apply Permutation_refl.
  - destruct (DTOrder.utc (key y) <=? DTOrder.utc (key x)).
    + apply Permutation_refl.
    + apply perm_trans with (y :: x :: l); [apply perm_skip; exact IH | apply perm_swap].
Qed.

Lemma sort_desc_perm :
  forall l, Permutation (fold_right (DTOrder.insert_desc key) [] l) l.
Proof.
  induction l as [| x l IH]; simpl.
  - apply perm_nil.
  - apply perm_trans with (x :: fold_right (DTOrder.insert_desc key) [] l);
      [apply insert_desc_key_perm | apply perm_skip; exact IH].
Qed.

Lemma insert_desc_key_sorted :
  forall x l,
    StronglySorted (fun a b => DTOrder.utc (key b) <= DTOrder.utc (key a)) l ->
    StronglySorted (fun a b => DTOrder.utc (key b) <= DTOrder.utc (key a))
      (DTOrder.insert_desc key x l).
Proof.
  intros x l H. induction H as [| y l Hs IH Hy]; simpl.
  - constructor; constructor.
  - destruct (DTOrder.utc (key y) <=? DTOrder.utc (key x)) eqn:E.
    + apply Z.leb_le in E. constructor.
      * constructor; assumption.
      * constructor; [exact E |].
        rewrite Forall_forall in *. intros z Hz. specialize (Hy z Hz). lia.
    + apply Z.leb_gt in E. constructor; [exact IH |].
      rewrite Forall_forall in *. intros z Hz.
      apply (Permutation_in _ (insert_desc_key_perm x l)) in Hz. destruct Hz as [Hz | Hz].
      * subst z. lia.
      * apply Hy. exact Hz.
Qed.

Lemma sort_desc_sorted :
  forall l,
    StronglySorted (fun a b => DTOrder.utc (key b) <= DTOrder.utc (key a))
      (fold_right (DTOrder.insert_desc key) [] l).
Proof.
  induction l as [| x l IH]; simpl.
  - constructor.
  - apply insert_desc_key_sorted. exact IH.
Qed.

End SortedByKey.

Lemma min_from_ok :
  forall l cur,
    (forall x, In x l -> DTOrder.aware x = DTOrder.aware cur) ->
    exists m, DTOrder.min_from cur l = Ok m /\ In m (cur :: l) /\
              forall x, In x (cur :: l) -> DTOrder.utc m <= DTOrder.utc x.
Proof.
  induction l as [| x r IH]; intros cur Hk.
  - exists cur. split; [reflexivity |]. split; [left; reflexivity |].
    intros x [<- | []]. lia.
  - cbn [DTOrder.min_from]. unfold DTOrder.lt.
    rewrite (Hk x (or_introl eq_refl)), Bool.eqb_reflx. cbn [bind].
    destruct (DTOrder.utc x <? DTOrder.utc cur) eqn:E.
    + apply Z.ltb_lt in E.
      destruct (IH x) as (m & Hm & Hin & Hle).
      { intros y Hy. rewrite (Hk y (or_intror Hy)), (Hk x (or_introl eq_refl)). reflexivity. }
      exists m. split; [exact Hm |]. split.
      * destruct Hin as [<- | Hin]; [right; left; reflexivity | right; right; exact Hin].
      * intros y [<- | [<- | Hy]].
        -- specialize (Hle x (or_introl eq_refl)). lia.
        -- apply Hle. left. reflexivity.
        -- apply Hle. right. exact Hy.
    + apply Z.ltb_ge in E.
      destruct (IH cur) as (m & Hm & Hin & Hle).
      { intros y Hy. apply Hk. right. exact Hy. }
      exists m. split; [exact Hm |]. split.
      * destruct Hin as [<- | Hin]; [left; reflexivity | right; right; exact Hin].
      * intros y [<- | [<- | Hy]].
        -- apply Hle. left. reflexivity.
        -- specialize (Hle cur (or_introl eq_refl)). lia.
        -- apply Hle. right. exact Hy.
Qed.

Lemma max_from_ok :
  forall l cur,
    (forall x, In x l -> DTOrder.aware x = DTOrder.aware cur) ->
    exists m, DTOrder.max_from cur l = Ok m /\ In m (cur :: l) /\
              forall x, In x (cur :: l) -> DTOrder.utc x <= DTOrder.utc m.
Proof.
  induction l as [| x r IH]; intros cur Hk.
  - exists cur. split; [reflexivity |]. split; [left; reflexivity |].
    intros x [<- | []]. lia.
  - cbn [DTOrder.max_from]. unfold DTOrder.lt.
    rewrite (Hk x (or_introl eq_refl)), Bool.eqb_reflx. cbn [bind].
    destruct (DTOrder.utc cur <? DTOrder.utc x) eqn:E.
    + apply Z.ltb_lt in E.
      destruct (IH x) as (m & Hm & Hin & Hle).
      { intros y Hy. rewrite (Hk y (or_intror Hy)), (Hk x (or_introl eq_refl)). reflexivity. }
      exists m. split; [exact Hm |]. split.
      * destruct Hin as [<- | Hin]; [right; left; reflexivity | right; right; exact Hin].
      * intros y [<- | [<- | Hy]].
        -- specialize (Hle x (or_introl eq_refl)). lia.
        -- apply Hle. left. reflexivity.
        -- apply Hle. right. exact Hy.
    + apply Z.ltb_ge in E.
      destruct (IH cur) as (m & Hm & Hin & Hle).
      { intros y Hy. apply Hk. right. exact Hy. }
      exists m. split; [exact Hm |]. split.
      * destruct Hin as [<- | Hin]; [left; reflexivity | right; right; exact Hin].
      * intros y [<- | [<- | Hy]].
        -- apply Hle. left. reflexivity.
        -- specialize (Hle cur (or_introl eq_refl)). lia.
        -- apply Hle. right. exact Hy.
Qed.

Lemma filter_some_In :
  forall (A : Type) (l : list (option A)) x,
    In x (Strptime.filter_some l) <-> In (Some x) l.
Proof.
  intros A l x. induction l as [| [a |] l IH]; simpl.
  - reflexivity.
  - rewrite IH. split.
    + intros [H | H]; [left; f_equal; exact H | right; exact H].
    + intros [H | H]; [left; injection H as H; exact H | right; exact H].
  - rewrite IH. split; [intros H; right; exact H | intros [H | H]; [discriminate H | exact H]].
Qed.

Lemma stamps_In :
  forall l t,
    In t (Strptime.filter_some (map Transcript.timestamp l)) <->
    exists e, In e l /\ Transcript.timestamp e = Some t.
Proof.
  intros l t. rewrite filter_some_In, in_map_iff.
  split; intros (e & H1 & H2); exists e; split; assumption.
Qed.

Lemma time_key_aware :
  forall e, DTOrder.aware (Terms.time_key e) = Terms.stamped_aware e.
Proof.
  intros e. unfold Terms.time_key, Terms.stamped_aware, DTOrder.or_min.
  destruct (Transcript.timestamp e); reflexivity.
Qed.

Lemma uniform_keys :
  forall l, DTOrder.uniform (map Terms.time_key l) = negb (Terms.mixed_time_stamps l).
Proof.
  intros l. unfold DTOrder.uniform, Terms.mixed_time_stamps.
  induction l as [| e l IH]; [reflexivity |].
  cbn [map forallb existsb]. rewrite time_key_aware.
  assert (Ha : forallb DTOrder.aware (map Terms.time_key l)
               = negb (existsb (fun e => negb (Terms.stamped_aware e)) l)).
  { clear. induction l as [| e l IH]; [reflexivity |].
    cbn [map forallb existsb]. rewrite time_key_aware, IH.
    destruct (Terms.stamped_aware e); reflexivity. }
  assert (Hn : forallb (fun k => negb (DTOrder.aware k)) (map Terms.time_key l)
               = negb (existsb Terms.stamped_aware l)).
  { clear. induction l as [| e l IH]; [reflexivity |].
    cbn [map forallb existsb]. rewrite time_key_aware, IH.
    destruct (Terms.stamped_aware e); reflexivity. }
  rewrite Ha, Hn.
  destruct (Terms.stamped_aware e), (existsb Terms.stamped_aware l),
    (existsb (fun e => negb (Terms.stamped_aware e)) l); reflexivity.
Qed.

Lemma unmixed_stamps_alike :
  forall l a b ta tb,
    Terms.mixed_time_stamps l = false ->
    In a l -> In b l ->
    Transcript.timestamp a = Some ta -> Transcript.timestamp b = Some tb ->
    DTOrder.aware ta = DTOrder.aware tb.
Proof.
  intros l a b ta tb Hm Ha Hb Hta Htb. unfold Terms.mixed_time_stamps in Hm.
  assert (Hsa : Terms.stamped_aware a = DTOrder.aware ta)
    by (unfold Terms.stamped_aware; rewrite Hta; reflexivity).
  assert (Hsb : Terms.stamped_aware b = DTOrder.aware tb)
    by (unfold Terms.stamped_aware; rewrite Htb; reflexivity).
  rewrite <- Hsa, <- Hsb.
  destruct (Terms.stamped_aware a) eqn:Ea, (Terms.stamped_aware b) eqn:Eb; try reflexivity.
  - assert (H1 : existsb Terms.stamped_aware l = true)
      by (apply existsb_exists; exists a; auto).
    assert (H2 : existsb (fun e => negb (Terms.stamped_aware e)) l = true)
      by (apply existsb_exists; exists b; rewrite Eb; auto).
    rewrite H1, H2 in Hm. discriminate Hm.
  - assert (H1 : existsb Terms.stamped_aware l = true)
      by (apply existsb_exists; exists b; auto).
    assert (H2 : existsb (fun e => negb (Terms.stamped_aware e)) l = true)
      by (apply existsb_exists; exists a; rewrite Ea; auto).
    rewrite H1, H2 in Hm. discriminate Hm.
Qed.

(** The shape of a conversation that was built from entries whose time
    stamps do not mix. *)
Lemma make_unmixed :
  forall id l app,
    l <> [] ->
    Terms.mixed_time_stamps l = false ->
    exists sorted times,
      Conversation.make id l app
      = Ok (Conversation.mkConversation id sorted
              (if PyStr.truthy app then app else Conversation.most_common_app sorted)
              (fst times) (snd times)) /\
      sorted = fold_right (DTOrder.insert_asc Terms.time_key) [] l /\
      match Strptime.filter_some (map Transcript.timestamp sorted) with
      | [] => times = (None, None)
      | t :: r =>
          exists lo hi, times = (Some lo, Some hi) /\
                        In lo (t :: r) /\ In hi (t :: r) /\
                        forall x, In x (t :: r) ->
                                  DTOrder.utc lo <= DTOrder.utc x <= DTOrder.utc hi
      end.
Proof.
  intros id l app Hne Hm.
  set (sorted := fold_right (DTOrder.insert_asc Terms.time_key) [] l).
  assert (Hperm : Permutation sorted l) by apply sort_asc_perm.
  assert (Hsort : DTOrder.sort Terms.time_key l = Ok sorted).
  { unfold DTOrder.sort. rewrite uniform_keys, Hm. reflexivity. }
  assert (Hmake : Conversation.make id l app
                  = (sorted' <- DTOrder.sort Terms.time_key l ;;
                     times <- match Strptime.filter_some (map Transcript.timestamp sorted') with
                              | [] => Ok (None, None)
                              | t :: r =>
                                  lo <- DTOrder.min_from t r ;;
                                  hi <- DTOrder.max_from t r ;;
                                  Ok (Some lo, Some hi)
                              end ;;
                     Ok (Conversation.mkConversation id sorted'
                           (if PyStr.truthy app then app
                            else Conversation.most_common_app sorted')
                           (fst times) (snd times)))).
  { destruct l; [contradiction Hne; reflexivity | reflexivity]. }
  rewrite Hmake, Hsort. cbn [bind].
  destruct (Strptime.filter_some (map Transcript.timestamp sorted)) as [| t r] eqn:Ets.
  - exists sorted, (None, None). cbn [bind]. rewrite Ets. split; [reflexivity |].
    split; reflexivity.
  - assert (Halike : forall x, In x r -> DTOrder.aware x = DTOrder.aware t).
    { intros x Hx.
      assert (Hx' : In x (Strptime.filter_some (map Transcript.timestamp sorted)))
        by (rewrite Ets; right; exact Hx).
      assert (Ht' : In t (Strptime.filter_some (map Transcript.timestamp sorted)))
        by (rewrite Ets; left; reflexivity).
      apply stamps_In in Hx'. apply stamps_In in Ht'.
      destruct Hx' as (a & Ha & Hta). destruct Ht' as (b & Hb & Htb).
      apply (unmixed_stamps_alike l a b x t Hm);
        [apply (Permutation_in _ Hperm); exact Ha
        | apply (Permutation_in _ Hperm); exact Hb | exact Hta | exact Htb]. }
    destruct (min_from_ok r t Halike) as (lo & Hlo & Hlo_in & Hlo_le).
    destruct (max_from_ok r t Halike) as (hi & Hhi & Hhi_in & Hhi_le).
    rewrite Hlo. cbn [bind]. rewrite Hhi. cbn [bind].
    exists sorted, (Some lo, Some hi). rewrite Ets.
    split; [reflexivity |]. split; [reflexivity |].
    exists lo, hi. split; [reflexivity |]. split; [exact Hlo_in |].
    split; [exact Hhi_in |]. intros x Hx. split; [apply Hlo_le | apply Hhi_le]; exact Hx.
Qed.

Lemma make_mixed :
  forall id l app,
    Terms.mixed_time_stamps l = true ->
    Conversation.make id l app = Raise TypeError.
Proof.
  intros id l app Hm.
  destruct l as [| e l]; [discriminate Hm |].
  unfold Conversation.make.
  change (fun x => DTOrder.or_min (Transcript.timestamp x)) with Terms.time_key.
  unfold DTOrder.sort. rewrite uniform_keys, Hm. reflexivity.
Qed.

(** X23.  A conversation keeps its entries in the order of their time
    stamps: what the constructor holds is a rearrangement of the entries it
    was given, none lost and none added, each not later than those after
    it, an entry without time stamp counting as the earliest instant; the
    start and the end are time stamps of entries, and every time stamp
    lies between them. *)
Theorem conversation_is_sorted :
  forall id l app c,
    Conversation.make id l app = Ok c ->
    Conversation.conversation_id c = id /\
    Permutation (Conversation.entries c) l /\
    StronglySorted Terms.not_later (Conversation.entries c) /\
    (forall e t, In e l -> Transcript.timestamp e = Some t ->
       exists lo hi,
         Conversation.start_time c = Some lo /\ Conversation.end_time c = Some hi /\
         DTOrder.utc lo <= DTOrder.utc t <= DTOrder.utc hi) /\
    (forall lo, Conversation.start_time c = Some lo ->
                exists e, In e l /\ Transcript.timestamp e = Some lo) /\
    (forall hi, Conversation.end_time c = Some hi ->
                exists e, In e l /\ Transcript.timestamp e = Some hi).
Proof.
  intros id l app c H.
  destruct l as [| e0 l0] eqn:El.
  - injection H as <-. cbn.
    split; [reflexivity |]. split; [apply perm_nil |]. split; [constructor |].
    split; [intros e t [] |]. split; intros x Hx; discriminate Hx.
  - rewrite <- El in *. assert (Hne : l <> []) by (rewrite El; discriminate).
    destruct (Terms.mixed_time_stamps l) eqn:Hm.
    + rewrite (make_mixed id l app Hm) in H. discriminate H.
    + destruct (make_unmixed id l app Hne Hm) as (sorted & times & Hmake & Hsorted & Htimes).
      rewrite Hmake in H. injection H as <-.
      cbn [Conversation.conversation_id Conversation.entries Conversation.start_time
           Conversation.end_time].
      assert (Hperm : Permutation sorted l) by (rewrite Hsorted; apply sort_asc_perm).
      split; [reflexivity |]. split; [exact Hperm |].
      split; [rewrite Hsorted; apply (sort_asc_sorted Terms.time_key) |].
      destruct (Strptime.filter_some (map Transcript.timestamp sorted)) as [| t r] eqn:Ets.
      * subst times. cbn [fst snd]. split; [| split; intros x Hx; discriminate Hx].
        intros e t Hin Ht. exfalso.
        assert (Hx : In t (Strptime.filter_some (map Transcript.timestamp sorted))).
        { apply stamps_In. exists e. split; [| exact Ht].
          apply (Permutation_in _ (Permutation_sym Hperm)). exact Hin. }
        rewrite Ets in Hx. destruct Hx.
      * destruct Htimes as (lo & hi & -> & Hlo & Hhi & Hbetween). cbn [fst snd].
        rewrite <- Ets in Hlo, Hhi, Hbetween.
        split; [| split].
        -- intros e t' Hin Ht. exists lo, hi. split; [reflexivity |].
           split; [reflexivity |]. apply Hbetween. apply stamps_In.
           exists e. split; [| exact Ht].
           apply (Permutation_in _ (Permutation_sym Hperm)). exact Hin.
        -- intros x Hx. injection Hx as <-. apply stamps_In in Hlo.
           destruct Hlo as (e & He & Ht). exists e. split; [| exact Ht].
           apply (Permutation_in _ Hperm). exact He.
        -- intros x Hx. injection Hx as <-. apply stamps_In in Hhi.
           destruct Hhi as (e & He & Ht). exists e. split; [| exact Ht].
           apply (Permutation_in _ Hperm). exact He.
Qed.

(** X24.  A conversation cannot be built from entries of which one bears
    a time stamp with a time zone and another one without, or none: the
    constructor raises [TypeError] on exactly those lists of entries, and
    succeeds on every other. *)
Theorem conversation_of_mixed_time_stamps_fails :
  forall id l app,
    (Terms.mixed_time_stamps l = true ->
     Conversation.make id l app = Raise TypeError) /\
    (Terms.mixed_time_stamps l = false ->
     exists c, Conversation.make id l app = Ok c) /\
    (forall a b ta,
       In a l -> Transcript.timestamp a = Some ta -> DateTime.dt_tz ta <> None ->
       In b l -> Transcript.timestamp b = None ->
       Conversation.make id l app = Raise TypeError).
Proof.
  intros id l app. split; [apply make_mixed |]. split.
  - intros Hm. destruct l as [| e l].
    + eexists. reflexivity.
    + destruct (make_unmixed id (e :: l) app) as (sorted & times & Hmake & _);
        [discriminate | exact Hm |].
      eexists. exact Hmake.
  - intros a b ta Ha Hta Htz Hb Htb. apply make_mixed.
    unfold Terms.mixed_time_stamps. apply andb_true_iff. split.
    + apply existsb_exists. exists a. split; [exact Ha |].
      unfold Terms.stamped_aware, DTOrder.aware. rewrite Hta.
      destruct (DateTime.dt_tz ta); [reflexivity | contradiction Htz; reflexivity].
    + apply existsb_exists. exists b. split; [exact Hb |].
      unfold Terms.stamped_aware. rewrite Htb. reflexivity.
Qed.

Lemma conversation_is_sorted_witness :
  Permutation (Conversation.entries Samples.talk) (map Samples.entry (rev Samples.morning)).
Proof.
  apply (proj1 (proj2 (conversation_is_sorted "c1" (map Samples.entry (rev Samples.morning))
                         None Samples.talk eq_refl))).
Defined.

Lemma conversation_of_mixed_time_stamps_fails_witness :
  Conversation.make "c9" [Samples.entry Samples.zoned; Samples.entry Samples.unstamped] None
  = Raise TypeError.
Proof.
  apply (proj2 (proj2 (conversation_of_mixed_time_stamps_fails "c9"
                         [Samples.entry Samples.zoned; Samples.entry Samples.unstamped] None))
           (Samples.entry Samples.zoned) (Samples.entry Samples.unstamped)
           (DateTime.mkDT (DateTime.dt_us (Examples.clock "2025-06-20 09:00:00")) (Some 0))).
  - left. reflexivity.
  - reflexivity.
  - discriminate.
  - right. left. reflexivity.
  - reflexivity.
Defined.

Lemma append_to_is_append_to_day :
  forall k e d, ParserGroups.append_to k e d = CollectCommand.append_to_day k e d.
Proof.
  intros k e d. induction d as [| [k' l] rest IH]; simpl.
  - reflexivity.
  - rewrite (String.eqb_sym k k'), IH. reflexivity.
Qed.

Lemma grouped_by_key :
  forall (key : Transcript.TranscriptEntry -> string) l d,
    NoDup (map fst d) ->
    Forall (fun p => snd p <> []) d ->
    let d' := fold_left (fun d e => ParserGroups.append_to (key e) e d) l d in
    NoDup (map fst d') /\
    Forall (fun p => snd p <> []) d' /\
    forall k, Terms.day_entries k d'
              = Terms.day_entries k d ++ filter (fun e => String.eqb (key e) k) l.
Proof.
  intros key. induction l as [| e l IH]; intros d Hnd Hne; cbn [fold_left filter].
  - split; [exact Hnd |]. split; [exact Hne |]. intros k. rewrite app_nil_r. reflexivity.
  - rewrite append_to_is_append_to_day.
    destruct (IH (CollectCommand.append_to_day (key e) e d)
                (append_to_day_NoDup _ _ _ Hnd) (append_to_day_nonempty _ _ _ Hne))
      as (H1 & H2 & H3).
    split; [exact H1 |]. split; [exact H2 |]. intros k.
    rewrite H3, append_to_day_entries.
    destruct (String.eqb (key e) k).
    + rewrite <- app_assoc. reflexivity.
    + reflexivity.
Qed.

Lemma make_ok_entries :
  forall id l app c,
    Conversation.make id l app = Ok c ->
    Conversation.conversation_id c = id /\ Permutation (Conversation.entries c) l.
Proof.
  intros id l app c H. destruct l as [| e0 l0] eqn:El.
  - injection H as <-. split; [reflexivity | apply perm_nil].
  - rewrite <- El in *. assert (Hne : l <> []) by (rewrite El; discriminate).
    destruct (Terms.mixed_time_stamps l) eqn:Hm.
    + rewrite (make_mixed id l app Hm) in H. discriminate H.
    + destruct (make_unmixed id l app Hne Hm) as (sorted & times & Hmake & Hsorted & _).
      rewrite Hmake in H. injection H as <-. split; [reflexivity |].
      cbn [Conversation.entries]. rewrite Hsorted. apply sort_asc_perm.
Qed.

Lemma make_all_inv :
  forall d cs,
    ParserGroups.make_all d = Ok cs ->
    Forall2 (fun p c => Conversation.make (fst p) (snd p) None = Ok c) d cs.
Proof.
  induction d as [| [k l] rest IH]; intros cs H; cbn [ParserGroups.make_all] in H.
  - injection H as <-. constructor.
  - destruct (Conversation.make k l None) as [c | e] eqn:Ec; [| discriminate H].
    cbn [bind] in H.
    destruct (ParserGroups.make_all rest) as [cs' | e]; [| discriminate H].
    cbn [bind] in H. injection H as <-. constructor; [exact Ec | apply IH; reflexivity].
Qed.

Lemma Forall2_left :
  forall (A B : Type) (R : A -> B -> Prop) l1 l2 a,
    Forall2 R l1 l2 -> In a l1 -> exists b, In b l2 /\ R a b.
Proof.
  intros A B R l1 l2 a H. induction H as [| x y l1 l2 Hxy H IH]; intros Hin.
  - destruct Hin.
  - destruct Hin as [<- | Hin].
    + exists y. split; [left; reflexivity | exact Hxy].
    + destruct (IH Hin) as (b & Hb & Hab). exists b. split; [right; exact Hb | exact Hab].
Qed.

Lemma Forall2_right :
  forall (A B : Type) (R : A -> B -> Prop) l1 l2 b,
    Forall2 R l1 l2 -> In b l2 -> exists a, In a l1 /\ R a b.
Proof.
  intros A B R l1 l2 b H. induction H as [| x y l1 l2 Hxy H IH]; intros Hin.
  - destruct Hin.
  - destruct Hin as [<- | Hin].
    + exists x. split; [left; reflexivity | exact Hxy].
    + destruct (IH Hin) as (a & Ha & Hab). exists a. split; [right; exact Ha | exact Hab].
Qed.

Lemma made_ids :
  forall d cs,
    Forall2 (fun p c => Conversation.make (fst p) (snd p) None = Ok c) d cs ->
    map Conversation.conversation_id cs = map fst d.
Proof.
  intros d cs H. induction H as [| p c d cs Hpc H IH]; [reflexivity |].
  simpl. rewrite IH. apply make_ok_entries in Hpc. destruct Hpc as [-> _]. reflexivity.
Qed.

Section Grouping.

Variable fromisoformat : string -> option DateTime.datetime.

(** X25.  The conversations part the listing: each conversation id occurs
    once; a conversation holds exactly the entries of the listing that
    bear its id, an entry without one forming a conversation of its own
    named after the entry, and holds at least one; every entry of the
    listing is in the conversation of its id; and the conversations come
    latest start first. *)
Theorem conversations_part_the_listing :
  forall kw db l cs,
    Parser.get_entries fromisoformat kw db = Ok l ->
    ParserGroups.get_conversations fromisoformat kw db = Ok cs ->
    NoDup (map Conversation.conversation_id cs) /\
    (forall c, In c cs ->
       Conversation.entries c <> [] /\
       Permutation (Conversation.entries c)
         (filter (Terms.in_conversation (Conversation.conversation_id c)) l)) /\
    (forall e, In e l ->
       exists c, In c cs /\ Conversation.conversation_id c = ParserGroups.conv_id e /\
                 In e (Conversation.entries c)) /\
    StronglySorted Terms.starts_not_before cs.
Proof.
  intros kw db l cs Hl H. unfold ParserGroups.get_conversations in H.
  rewrite Hl in H. cbn [bind] in H.
  destruct (ParserGroups.make_all (ParserGroups.conversations_dict l)) as [cs0 | e] eqn:Em;
    [| discriminate H].
  cbn [bind] in H. unfold DTOrder.sort_reverse in H.
  destruct (DTOrder.uniform _); [| discriminate H]. injection H as <-.
  set (key := fun c => DTOrder.or_min (Conversation.start_time c)).
  assert (Hperm : Permutation (fold_right (DTOrder.insert_desc key) [] cs0) cs0)
    by apply sort_desc_perm.
  apply make_all_inv in Em.
  destruct (grouped_by_key ParserGroups.conv_id l [] (NoDup_nil _) (Forall_nil _))
    as (Hnd & Hne & Hget).
  cbv zeta in Hnd, Hne, Hget. fold (ParserGroups.conversations_dict l) in Hnd, Hne, Hget.
  split; [| split; [| split]].
  - apply (Permutation_NoDup (l := map Conversation.conversation_id cs0)).
    + apply Permutation_map. apply Permutation_sym. exact Hperm.
    + rewrite (made_ids _ _ Em). exact Hnd.
  - intros c Hc. apply (Permutation_in _ Hperm) in Hc.
    destruct (Forall2_right _ _ _ _ _ c Em Hc) as ([k es] & Hin & Hmake).
    cbn [fst snd] in Hmake. apply make_ok_entries in Hmake. destruct Hmake as [Hid Hp].
    rewrite Hid.
    assert (Hes : es = filter (Terms.in_conversation k) l).
    { rewrite <- (day_entries_of_key k es _ Hnd Hin). apply Hget. }
    split.
    + intros Hnil. rewrite Hnil in Hp. apply Permutation_nil in Hp.
      rewrite Forall_forall in Hne. apply (Hne (k, es) Hin). exact Hp.
    + rewrite <- Hes. exact Hp.
  - intros e He.
    set (k := ParserGroups.conv_id e).
    assert (Hin : In e (Terms.day_entries k (ParserGroups.conversations_dict l))).
    { rewrite Hget. simpl. apply filter_In. split; [exact He | apply String.eqb_refl]. }
    assert (Hfound : In (k, Terms.day_entries k (ParserGroups.conversations_dict l))
                        (ParserGroups.conversations_dict l)).
    { apply day_entries_found. intros Hnil. rewrite Hnil in Hin. destruct Hin. }
    destruct (Forall2_left _ _ _ _ _ _ Em Hfound) as (c & Hc & Hmake).
    cbn [fst snd] in Hmake. apply make_ok_entries in Hmake. destruct Hmake as [Hid Hp].
    exists c. split; [apply (Permutation_in _ (Permutation_sym Hperm)); exact Hc |].
    split; [exact Hid |].
    apply (Permutation_in _ (Permutation_sym Hp)). exact Hin.
  - apply (sort_desc_sorted key).
Qed.

End Grouping.

Lemma conversations_part_the_listing_witness :
  exists c,
    In c Samples.talks /\
    Conversation.conversation_id c
    = ParserGroups.conv_id (Samples.entry (nth 1 Samples.morning Samples.unstamped)) /\
    In (Samples.entry (nth 1 Samples.morning Samples.unstamped)) (Conversation.entries c).
Proof.
  apply (proj1 (proj2 (proj2 (conversations_part_the_listing Iso.fromisoformat
                                Parser.defaults Samples.morning
                                (map Samples.entry (rev (firstn 2 Samples.morning)))
                                Samples.talks eq_refl eq_refl)))
           (Samples.entry (nth 1 Samples.morning Samples.unstamped))).
  left. reflexivity.
Defined.

Section ConversationById.

Variable fromisoformat : string -> option DateTime.datetime.

Lemma by_conversation_listing :
  forall id db,
    Parser.get_entries fromisoformat
      (Parser.mkKw None None None None None None (Some id) false) db
    = Ok (map (Parser._row_to_transcript_entry fromisoformat)
            (Parser.select_rows (Parser.mkKw None None None None None None (Some id) false) db)).
Proof. reflexivity. Qed.

Lemma by_conversation_where :
  forall id r,
    id <> ""%string ->
    Parser.where_clause (Parser.mkKw None None None None None None (Some id) false) r = true
    <-> (Parser.isArchived r = None \/ Parser.isArchived r = Some 0) /\
        Parser.conversationId r = Some id.
Proof.
  intros id r Hne. unfold Parser.where_clause.
  cbn [Parser.kw_include_archived Parser.kw_start_date Parser.kw_end_date Parser.kw_app
       Parser.kw_status Parser.kw_conversation_id Parser.when_truthy PyStr.truthy].
  destruct id as [| c id]; [contradiction Hne; reflexivity |].
  cbn [PyStr.truthy]. rewrite !andb_true_r. rewrite andb_true_iff.
  unfold Parser.sql_eq. split.
  - intros [Ha Hc]. split.
    + destruct (Parser.isArchived r) as [z |]; [| left; reflexivity].
      right. apply Z.eqb_eq in Ha. subst z. reflexivity.
    + destruct (Parser.conversationId r) as [v |]; [| discriminate Hc].
      apply String.eqb_eq in Hc. subst v. reflexivity.
  - intros [[Ha | Ha] Hc]; rewrite Ha, Hc; split; try reflexivity; apply String.eqb_refl.
Qed.

(** X26.  The look-up of a conversation by an id that is not empty finds
    nothing exactly when no stored row that is not archived bears the id;
    what it finds bears the id, holds at least one entry, and holds only
    entries of that conversation that are not archived.  It fails only
    with [TypeError]. *)
Theorem conversation_by_id :
  forall id db,
    id <> ""%string ->
    (ParserGroups.get_conversation_by_id fromisoformat id db = Ok None <->
     forall r, In r db ->
               Parser.isArchived r = None \/ Parser.isArchived r = Some 0 ->
               Parser.conversationId r <> Some id) /\
    (forall c,
       ParserGroups.get_conversation_by_id fromisoformat id db = Ok (Some c) ->
       Conversation.conversation_id c = id /\
       Conversation.entries c <> [] /\
       forall e, In e (Conversation.entries c) ->
                 Transcript.conversation_id e = Some id /\
                 Transcript.is_archived e = false) /\
    (forall e, ParserGroups.get_conversation_by_id fromisoformat id db = Raise e ->
               e = TypeError).
Proof.
  intros id db Hne.
  unfold ParserGroups.get_conversation_by_id.
  rewrite (by_conversation_listing id db). cbn [bind].
  set (kw := Parser.mkKw None None None None None None (Some id) false).
  set (rows := Parser.select_rows kw db).
  assert (Hrows : forall r, In r rows <->
                            In r db /\
                            (Parser.isArchived r = None \/ Parser.isArchived r = Some 0) /\
                            Parser.conversationId r = Some id).
  { intros r. unfold rows. rewrite select_rows_In. unfold kw.
    rewrite (by_conversation_where id r Hne). reflexivity. }
  split; [| split].
  - destruct rows as [| r0 rs] eqn:Er.
    + cbn [map]. split; [| reflexivity].
      intros _ r Hin Ha Hc. apply (proj2 (Hrows r)). auto.
    + cbn [map]. split.
      * intros H. exfalso.
        destruct (Conversation.make id _ None); discriminate H.
      * intros H. exfalso.
        destruct (proj1 (Hrows r0) (or_introl eq_refl)) as (Hin & Ha & Hc).
        apply (H r0 Hin Ha Hc).
  - intros c H.
    destruct (map (Parser._row_to_transcript_entry fromisoformat) rows) as [| e0 l0] eqn:El;
      [discriminate H |].
    rewrite <- El in H.
    destruct (Conversation.make id (map (Parser._row_to_transcript_entry fromisoformat) rows)
                None) as [c' | e] eqn:Em.
    2:{ destruct (map (Parser._row_to_transcript_entry fromisoformat) rows);
          discriminate H. }
    assert (Hc : c' = c).
    { destruct (map (Parser._row_to_transcript_entry fromisoformat) rows);
        [discriminate El |]. cbn [bind] in H. injection H as H. exact H. }
    subst c'. apply make_ok_entries in Em. destruct Em as [Hid Hp].
    split; [exact Hid |]. split.
    + intros Hnil. rewrite Hnil in Hp. apply Permutation_nil in Hp.
      rewrite Hp in El. discriminate El.
    + intros e He. apply (Permutation_in _ Hp) in He.
      apply in_map_iff in He. destruct He as (r & <- & Hr).
      apply Hrows in Hr. destruct Hr as (_ & Ha & Hcid).
      split; [exact Hcid |]. cbn.
      destruct Ha as [-> | ->]; reflexivity.
  - intros e H.
    destruct (map (Parser._row_to_transcript_entry fromisoformat) rows) as [| e0 l0] eqn:El;
      [discriminate H |].
    destruct (Terms.mixed_time_stamps (e0 :: l0)) eqn:Hm.
    + rewrite (make_mixed id _ None Hm) in H. cbn [bind] in H. congruence.
    + destruct (make_unmixed id (e0 :: l0) None) as (sorted & times & Hmake & _);
        [discriminate | exact Hm |].
      rewrite Hmake in H. discriminate H.
Qed.

End ConversationById.

Lemma conversation_by_id_witness :
  ParserGroups.get_conversation_by_id Iso.fromisoformat "c7" Samples.morning = Ok None.
Proof.
  apply (proj1 (conversation_by_id Iso.fromisoformat "c7" Samples.morning
                  ltac:(discriminate))).
  intros r Hin _.
  repeat (destruct Hin as [<- | Hin]; [discriminate |]). destruct Hin.
Defined.

(** ** The apps *)

Lemma compare_lt_neq :
  forall a b, PyStr.compare a b = Lt -> String.eqb b a = false.
Proof.
  intros a b H. apply String.eqb_neq. intros ->. rewrite compare_refl in H. discriminate H.
Qed.

Lemma add_row_keys :
  forall k row groups h,
    In h (Apps.add_row k row groups) ->
    fst h = k \/ exists g, In g groups /\ fst g = fst h.
Proof.
  intros k row groups h. induction groups as [| [k' rows] rest IH]; simpl.
  - intros [<- | []]. left. reflexivity.
  - destruct (PyStr.compare k k') eqn:E.
    + intros [<- | H].
      * right. exists (k', rows). split; [left; reflexivity | reflexivity].
      * right. exists h. split; [right; exact H | reflexivity].
    + intros [<- | [<- | H]].
      * left. reflexivity.
      * right. exists (k', rows). split; [left; reflexivity | reflexivity].
      * right. exists h. split; [right; exact H | reflexivity].
    + intros [<- | H].
      * right. exists (k', rows). split; [left; reflexivity | reflexivity].
      * destruct (IH H) as [Hk | (g & Hg & Hfst)]; [left; exact Hk |].
        right. exists g. split; [right; exact Hg | exact Hfst].
Qed.

Lemma add_row_sorted :
  forall k row groups,
    StronglySorted Terms.key_before groups ->
    StronglySorted Terms.key_before (Apps.add_row k row groups).
Proof.
  intros k row groups H. induction H as [| [k' rows] rest Hs IH Hall]; simpl.
  - constructor; constructor.
  - destruct (PyStr.compare k k') eqn:E.
    + constructor; [exact Hs | exact Hall].
    + constructor.
      * constructor; assumption.
      * constructor; [exact E |].
        rewrite Forall_forall in *. intros h Hh. unfold Terms.key_before in *.
        cbn [fst] in *. apply (compare_lt_trans k k' (fst h) E (Hall h Hh)).
    + constructor; [exact IH |].
      rewrite Forall_forall in *. intros h Hh. unfold Terms.key_before in *. cbn [fst] in *.
      apply add_row_keys in Hh. destruct Hh as [Hk | (g & Hg & Hfst)].
      * rewrite Hk. rewrite (compare_antisym k k'), E. reflexivity.
      * rewrite <- Hfst. apply (Hall g Hg).
Qed.

Lemma group_rows_below :
  forall k groups,
    Forall (fun g => PyStr.compare k (fst g) = Lt) groups ->
    Terms.group_rows k groups = [].
Proof.
  intros k groups H. induction H as [| [k' rows] rest Hx Hall IH]; simpl.
  - reflexivity.
  - cbn [fst] in Hx. rewrite (compare_lt_neq k k' Hx). exact IH.
Qed.

Lemma add_row_rows :
  forall k' k row groups,
    StronglySorted Terms.key_before groups ->
    Terms.group_rows k' (Apps.add_row k row groups)
    = if String.eqb k k' then Terms.group_rows k' groups ++ [row]
      else Terms.group_rows k' groups.
Proof.
  intros k' k row groups H. induction H as [| [k0 rows] rest Hs IH Hall]; simpl.
  - destruct (String.eqb k k'); reflexivity.
  - destruct (PyStr.compare k k0) eqn:E.
    + apply compare_eq in E. subst k0. simpl. destruct (String.eqb k k'); reflexivity.
    + simpl. destruct (String.eqb k k') eqn:Ek; [| reflexivity].
      apply String.eqb_eq in Ek. subst k'.
      rewrite (compare_lt_neq k k0 E).
      rewrite group_rows_below; [reflexivity |].
      rewrite Forall_forall in *. intros h Hh. unfold Terms.key_before in Hall.
      cbn [fst] in Hall. apply (compare_lt_trans k k0 (fst h) E (Hall h Hh)).
    + simpl. destruct (String.eqb k0 k') eqn:E0.
      * apply String.eqb_eq in E0. subst k'.
        assert (Hne : String.eqb k k0 = false).
        { apply String.eqb_neq. intros ->. rewrite compare_refl in E. discriminate E. }
        rewrite Hne. reflexivity.
      * exact IH.
Qed.

Lemma add_row_nonempty :
  forall k row groups,
    Forall (fun g => snd g <> []) groups ->
    Forall (fun g => snd g <> []) (Apps.add_row k row groups).
Proof.
  intros k row groups H. induction H as [| [k' rows] rest Hx Hall IH]; simpl.
  - constructor; [discriminate | constructor].
  - destruct (PyStr.compare k k').
    + constructor; [| exact Hall]. simpl. intros Hnil.
      apply app_eq_nil in Hnil. destruct Hnil as [_ Hnil]. discriminate Hnil.
    + constructor; [discriminate |]. constructor; assumption.
    + constructor; assumption.
Qed.

Lemma grouped_rows :
  forall (l : list Parser.Row) groups,
    StronglySorted Terms.key_before groups ->
    Forall (fun g => snd g <> []) groups ->
    let groups' := fold_left (fun groups row => Apps.add_row (Apps.app_of row) row groups)
                     l groups in
    StronglySorted Terms.key_before groups' /\
    Forall (fun g => snd g <> []) groups' /\
    forall k, Terms.group_rows k groups'
              = Terms.group_rows k groups
                ++ filter (fun r => String.eqb (Apps.app_of r) k) l.
Proof.
  induction l as [| r l IH]; intros groups Hs Hne; cbn [fold_left filter].
  - split; [exact Hs |]. split; [exact Hne |]. intros k. rewrite app_nil_r. reflexivity.
  - destruct (IH (Apps.add_row (Apps.app_of r) r groups)
                (add_row_sorted _ _ _ Hs) (add_row_nonempty _ _ _ Hne)) as (H1 & H2 & H3).
    split; [exact H1 |]. split; [exact H2 |]. intros k.
    rewrite H3, (add_row_rows k _ _ _ Hs).
    destruct (String.eqb (Apps.app_of r) k).
    + rewrite <- app_assoc. reflexivity.
    + reflexivity.
Qed.

Lemma strictly_sorted_keys :
  forall groups : list (string * list Parser.Row),
    StronglySorted Terms.key_before groups -> NoDup (map fst groups).
Proof.
  intros groups H. induction H as [| g rest Hs IH Hall]; simpl.
  - constructor.
  - constructor; [| exact IH].
    intros Hin. apply in_map_iff in Hin. destruct Hin as (h & Hfst & Hh).
    rewrite Forall_forall in Hall. specialize (Hall h Hh). unfold Terms.key_before in Hall.
    rewrite Hfst, compare_refl in Hall. discriminate Hall.
Qed.

Lemma group_rows_of_key :
  forall k rows (groups : list (string * list Parser.Row)),
    NoDup (map fst groups) -> In (k, rows) groups -> Terms.group_rows k groups = rows.
Proof.
  intros k rows groups. induction groups as [| [k' l] rest IH]; simpl; intros Hnd Hin.
  - destruct Hin.
  - inversion Hnd as [| x xs Hnot Hrest]; subst.
    destruct Hin as [Hin | Hin].
    + apply pair_equal_spec in Hin. destruct Hin as [-> ->].
      rewrite String.eqb_refl. reflexivity.
    + destruct (String.eqb k' k) eqn:E.
      * apply String.eqb_eq in E. subst k'. exfalso. apply Hnot.
        apply (in_map fst) in Hin. exact Hin.
      * apply IH; assumption.
Qed.

Lemma group_rows_found :
  forall k groups,
    Terms.group_rows k groups <> [] -> In (k, Terms.group_rows k groups) groups.
Proof.
  intros k groups. induction groups as [| [k' l] rest IH]; simpl; intros H.
  - contradiction H. reflexivity.
  - destruct (String.eqb k' k) eqn:E.
    + apply String.eqb_eq in E. subst k'. left. reflexivity.
    + right. apply IH. exact H.
Qed.

Lemma filter_filter :
  forall (A : Type) (p q : A -> bool) (l : list A),
    filter q (filter p l) = filter (fun x => p x && q x) l.
Proof.
  intros A p q l. induction l as [| x l IH]; simpl.
  - reflexivity.
  - destruct (p x); simpl; [destruct (q x); rewrite IH; reflexivity | exact IH].
Qed.

Lemma sum_Z_cons : forall x l, Parser.sum_Z (x :: l) = x + Parser.sum_Z l.
Proof.
  intros x l. unfold Parser.sum_Z. simpl.
  assert (H : forall l a b, fold_left Z.add l (a + b) = a + fold_left Z.add l b).
  { clear. induction l as [| y l IH]; intros a b; simpl.
    - reflexivity.
    - rewrite <- Z.add_assoc. apply IH. }
  rewrite <- (H l x 0). f_equal. lia.
Qed.

Lemma insert_app_perm :
  forall a l, Permutation (Apps.insert_app a l) (a :: l).
Proof.
  intros a l. induction l as [| x l IH]; simpl.
  - apply Permutation_refl.
  - destruct (Apps.total_entries x <=? Apps.total_entries a).
    + apply Permutation_refl.
    + apply perm_trans with (x :: a :: l); [apply perm_skip; exact IH | apply perm_swap].
Qed.

Lemma insert_app_sorted :
  forall a l,
    StronglySorted Terms.more_entries l ->
    StronglySorted Terms.more_entries (Apps.insert_app a l).
Proof.
  intros a l H. induction H as [| x l Hs IH Hx]; simpl.
  - constructor; constructor.
  - destruct (Apps.total_entries x <=? Apps.total_entries a) eqn:E.
    + apply Z.leb_le in E. constructor.
      * constructor; assumption.
      * constructor; [exact E |].
        rewrite Forall_forall in *. intros y Hy. specialize (Hx y Hy).
        unfold Terms.more_entries in *. lia.
    + apply Z.leb_gt in E. constructor; [exact IH |].
      rewrite Forall_forall in *. intros y Hy.
      apply (Permutation_in _ (insert_app_perm a l)) in Hy. destruct Hy as [Hy | Hy].
      * subst y. unfold Terms.more_entries. lia.
      * apply Hx. exact Hy.
Qed.

Lemma sorted_apps :
  forall groups acc,
    StronglySorted Terms.more_entries acc ->
    let apps := fold_left (fun sorted g => Apps.insert_app (Apps.aggregate g) sorted)
                  groups acc in
    StronglySorted Terms.more_entries apps /\
    Permutation apps (map Apps.aggregate groups ++ acc).
Proof.
  induction groups as [| g groups IH]; intros acc Hs; cbn [fold_left map].
  - split; [exact Hs | apply Permutation_refl].
  - destruct (IH (Apps.insert_app (Apps.aggregate g) acc) (insert_app_sorted _ _ Hs))
      as [H1 H2].
    split; [exact H1 |].
    apply (perm_trans H2). simpl.
    apply perm_trans with (map Apps.aggregate groups ++ Apps.aggregate g :: acc).
    + apply Permutation_app_head. apply insert_app_perm.
    + apply Permutation_sym. apply Permutation_middle.
Qed.

Lemma sum_Z_perm :
  forall l l', Permutation l l' -> Parser.sum_Z l = Parser.sum_Z l'.
Proof.
  intros l l' H. induction H as [| x l l' H IH | x y l | l l' l'' H1 IH1 H2 IH2].
  - reflexivity.
  - rewrite !sum_Z_cons, IH. reflexivity.
  - rewrite !sum_Z_cons. lia.
  - rewrite IH1. exact IH2.
Qed.

Lemma group_sizes :
  forall (l : list Parser.Row) groups,
    Parser.sum_Z (map (fun g => Z.of_nat (List.length (snd g)))
                    (fold_left (fun groups row => Apps.add_row (Apps.app_of row) row groups)
                       l groups))
    = Parser.sum_Z (map (fun g => Z.of_nat (List.length (snd g))) groups)
      + Z.of_nat (List.length l).
Proof.
  assert (Hadd : forall k row groups,
            Parser.sum_Z (map (fun g => Z.of_nat (List.length (snd g)))
                            (Apps.add_row k row groups))
            = Parser.sum_Z (map (fun g => Z.of_nat (List.length (snd g))) groups) + 1).
  { intros k row groups. induction groups as [| [k' rows] rest IH]; simpl.
    - reflexivity.
    - destruct (PyStr.compare k k'); cbn [map snd].
      + rewrite !sum_Z_cons, length_app. simpl. lia.
      + rewrite !sum_Z_cons. cbn [snd List.length]. lia.
      + rewrite !sum_Z_cons, IH. lia. }
  induction l as [| r l IH]; intros groups; cbn [fold_left].
  - simpl. lia.
  - rewrite IH, Hadd. cbn [List.length]. lia.
Qed.

Lemma filter_none_rows :
  forall (A : Type) (p : A -> bool) (l : list A),
    (forall x, In x l -> p x = false) -> filter p l = [].
Proof.
  intros A p l. induction l as [| x l IH]; intros H; simpl.
  - reflexivity.
  - rewrite (H x (or_introl eq_refl)). apply IH. intros y Hy. apply H. right. exact Hy.
Qed.

(** X27.  The app statistics account for every row that names an app: each
    app is listed once and under a name that is not empty; its figures are
    the aggregates of exactly the stored rows of that app, at least one;
    every row that names an app is counted under it, so that the entry
    counts add up to the number of such rows; and the apps come in
    descending order of their entry count. *)
Theorem apps_account_for_every_row :
  forall db : Parser.database,
    let apps := Apps.get_apps db in
    NoDup (map Apps.app_id apps) /\
    (forall a, In a apps ->
       Apps.app_id a <> ""%string /\
       a = Apps.aggregate (Apps.app_id a, filter (Terms.of_app (Apps.app_id a)) db) /\
       0 < Apps.total_entries a) /\
    (forall r, In r db -> Apps.has_app r = true ->
               exists a, In a apps /\ Apps.app_id a = Apps.app_of r) /\
    Parser.sum_Z (map Apps.total_entries apps)
    = Z.of_nat (List.length (filter Apps.has_app db)) /\
    StronglySorted Terms.more_entries apps.
Proof.
  intros db apps. unfold apps, Apps.get_apps.
  destruct (grouped_rows (filter Apps.has_app db) [] (SSorted_nil _) (Forall_nil _))
    as (Hs & Hne & Hrows).
  cbv zeta in Hs, Hne, Hrows. fold (Apps.group_by_app db) in Hs, Hne, Hrows.
  destruct (sorted_apps (Apps.group_by_app db) [] (SSorted_nil _)) as [Hsorted Hperm].
  cbv zeta in Hsorted, Hperm. rewrite app_nil_r in Hperm.
  pose proof (strictly_sorted_keys _ Hs) as Hnd.
  assert (Hgroup : forall k rows, In (k, rows) (Apps.group_by_app db) ->
                                  rows = filter (Terms.of_app k) db).
  { intros k rows Hin. rewrite <- (group_rows_of_key k rows _ Hnd Hin).
    rewrite Hrows. simpl. apply filter_filter. }
  split; [| split; [| split; [| split]]].
  - apply (Permutation_NoDup (l := map fst (Apps.group_by_app db))); [| exact Hnd].
    apply Permutation_sym.
    apply (perm_trans (Permutation_map Apps.app_id Hperm)).
    rewrite map_map. apply Permutation_refl.
  - intros a Ha. apply (Permutation_in _ Hperm) in Ha.
    apply in_map_iff in Ha. destruct Ha as ([k rows] & <- & Hin).
    pose proof (Hgroup k rows Hin) as Hr. cbn [Apps.aggregate Apps.app_id fst snd].
    rewrite Forall_forall in Hne. pose proof (Hne (k, rows) Hin) as Hnonempty.
    cbn [snd] in Hnonempty.
    split; [| split].
    + intros ->. rewrite Hr in Hnonempty. apply Hnonempty.
      apply filter_none_rows. intros r Hr'. unfold Terms.of_app, Apps.has_app, Apps.app_of.
      destruct (Parser.app r) as [[| c s] |]; reflexivity.
    + rewrite <- Hr. reflexivity.
    + cbn [Apps.total_entries]. destruct rows; [contradiction Hnonempty; reflexivity |].
      simpl. lia.
  - intros r Hr Happ.
    assert (Hin : In r (Terms.group_rows (Apps.app_of r) (Apps.group_by_app db))).
    { rewrite Hrows. simpl. apply filter_In. split; [| apply String.eqb_refl].
      apply filter_In. split; assumption. }
    assert (Hfound : In (Apps.app_of r,
                         Terms.group_rows (Apps.app_of r) (Apps.group_by_app db))
                        (Apps.group_by_app db)).
    { apply group_rows_found. intros Hnil. rewrite Hnil in Hin. destruct Hin. }
    exists (Apps.aggregate (Apps.app_of r,
                            Terms.group_rows (Apps.app_of r) (Apps.group_by_app db))).
    split; [| reflexivity].
    apply (Permutation_in _ (Permutation_sym Hperm)). apply in_map. exact Hfound.
  - rewrite (sum_Z_perm _ _ (Permutation_map Apps.total_entries Hperm)), map_map.
    cbn [Apps.aggregate Apps.total_entries].
    unfold Apps.group_by_app. rewrite group_sizes. reflexivity.
  - exact Hsorted.
Qed.

Lemma apps_account_for_every_row_witness :
  exists a,
    In a (Apps.get_apps Samples.morning) /\
    Apps.app_id a = Apps.app_of (nth 1 Samples.morning Samples.unstamped).
Proof.
  apply (proj1 (proj2 (proj2 (apps_account_for_every_row Samples.morning)))).
  - right. left. reflexivity.
  - reflexivity.
Defined.

Lemma value_leb_trans :
  forall a b c,
    Apps.value_leb a b = true -> Apps.value_leb b c = true -> Apps.value_leb a c = true.
Proof.
  intros [x | x] [y | y] [z | z]; simpl; try discriminate.
  - rewrite !Qle_bool_iff. apply Qle_trans.
  - apply leb_trans.
Qed.

Lemma value_leb_total :
  forall a b,
    Apps.is_text a = Apps.is_text b ->
    Apps.value_leb a b = true \/ Apps.value_leb b a = true.
Proof.
  intros [x | x] [y | y]; simpl; try discriminate; intros _.
  - rewrite !Qle_bool_iff. destruct (Qlt_le_dec x y) as [H | H].
    + left. apply Qlt_le_weak. exact H.
    + right. exact H.
  - apply leb_total.
Qed.

Lemma insert_by_perm :
  forall sort_by a l, Permutation (Apps.insert_by sort_by a l) (a :: l).
Proof.
  intros sort_by a l. induction l as [| x l IH]; simpl.
  - apply Permutation_refl.
  - destruct (Apps.value_leb (Apps.sort_value_of sort_by x) (Apps.sort_value_of sort_by a)).
    + apply Permutation_refl.
    + apply perm_trans with (x :: a :: l); [apply perm_skip; exact IH | apply perm_swap].
Qed.

Lemma sort_by_perm :
  forall sort_by l, Permutation (fold_right (Apps.insert_by sort_by) [] l) l.
Proof.
  intros sort_by. induction l as [| x l IH]; simpl.
  - apply perm_nil.
  - apply perm_trans with (x :: fold_right (Apps.insert_by sort_by) [] l);
      [apply insert_by_perm | apply perm_skip; exact IH].
Qed.

Lemma insert_by_sorted :
  forall sort_by kind a l,
    (forall x, In x (a :: l) -> Apps.is_text (Apps.sort_value_of sort_by x) = kind) ->
    StronglySorted (Terms.sorts_before sort_by) l ->
    StronglySorted (Terms.sorts_before sort_by) (Apps.insert_by sort_by a l).
Proof.
  intros sort_by kind a l Hkind H. induction H as [| x l Hs IH Hx]; simpl.
  - constructor; constructor.
  - destruct (Apps.value_leb (Apps.sort_value_of sort_by x) (Apps.sort_value_of sort_by a))
      eqn:E.
    + constructor.
      * constructor; assumption.
      * constructor; [exact E |].
        rewrite Forall_forall in *. intros y Hy. unfold Terms.sorts_before in *.
        apply (value_leb_trans _ _ _ (Hx y Hy) E).
    + constructor.
      * apply IH. intros y [<- | Hy]; apply Hkind; [left | right; right]; auto.
      * rewrite Forall_forall in *. intros y Hy.
        apply (Permutation_in _ (insert_by_perm sort_by a l)) in Hy.
        destruct Hy as [Hy | Hy].
        -- subst y. unfold Terms.sorts_before.
           destruct (value_leb_total (Apps.sort_value_of sort_by a)
                       (Apps.sort_value_of sort_by x)) as [H | H].
           ++ rewrite (Hkind a), (Hkind x); [reflexivity | right; left | left]; reflexivity.
           ++ exact H.
           ++ congruence.
        -- apply Hx. exact Hy.
Qed.

Lemma sort_by_sorted :
  forall sort_by kind l,
    (forall x, In x l -> Apps.is_text (Apps.sort_value_of sort_by x) = kind) ->
    StronglySorted (Terms.sorts_before sort_by) (fold_right (Apps.insert_by sort_by) [] l).
Proof.
  intros sort_by kind. induction l as [| x l IH]; intros Hkind; simpl.
  - constructor.
  - apply (insert_by_sorted sort_by kind).
    + intros y [<- | Hy].
      * apply Hkind. left. reflexivity.
      * apply Hkind. right. apply (Permutation_in _ (sort_by_perm sort_by l)). exact Hy.
    + apply IH. intros y Hy. apply Hkind. right. exact Hy.
Qed.

Lemma comparable_kind :
  forall vs, Apps.comparable vs = true ->
             exists kind, forall v, In v vs -> Apps.is_text v = kind.
Proof.
  intros vs H. unfold Apps.comparable in H. apply orb_true_iff in H.
  destruct H as [H | H]; rewrite forallb_forall in H.
  - exists true. exact H.
  - exists false. intros v Hv. apply negb_true_iff. apply H. exact Hv.
Qed.

Lemma slice_to_length :
  forall (A : Type) (n : Z) (l : list A),
    Z.of_nat (List.length (Apps.slice_to n l))
    = if n <? 0 then Z.max 0 (Z.of_nat (List.length l) + n)
      else Z.min (Z.of_nat (List.length l)) n.
Proof.
  intros A n l. unfold Apps.slice_to. destruct (n <? 0) eqn:E.
  - apply Z.ltb_lt in E. rewrite length_firstn. lia.
  - apply Z.ltb_ge in E. rewrite length_firstn. lia.
Qed.

Lemma slice_to_In :
  forall (A : Type) (n : Z) (l : list A) x, In x (Apps.slice_to n l) -> In x l.
Proof.
  intros A n l x. unfold Apps.slice_to.
  destruct (n <? 0); apply In_firstn.
Qed.

Lemma firstn_sorted :
  forall (A : Type) (R : A -> A -> Prop) n (l : list A),
    StronglySorted R l -> StronglySorted R (firstn n l).
Proof.
  intros A R n l H. revert n. induction H as [| x l Hs IH Hx]; intros [| n]; simpl;
    try constructor.
  - apply IH.
  - rewrite Forall_forall in *. intros y Hy. apply Hx. apply (In_firstn _ n). exact Hy.
Qed.

Lemma numbers_unless_last_used :
  forall sort_by a,
    sort_by <> "last_used"%string ->
    Apps.is_text (Apps.sort_value_of sort_by a) = false.
Proof.
  intros sort_by a H. unfold Apps.sort_value_of.
  destruct (String.eqb sort_by "words"); [reflexivity |].
  destruct (String.eqb sort_by "duration"); [reflexivity |].
  destruct (String.eqb sort_by "latency"); [reflexivity |].
  destruct (String.eqb sort_by "last_used") eqn:E; [| reflexivity].
  apply String.eqb_eq in E. contradiction.
Qed.

(** X28.  The app statistics of the tool: the apps returned have at least
    [min_entries] entries and come in descending order of the sorting
    value; a limit that is not negative bounds their number, so that the
    limit 0 returns none, and a negative limit leaves out that many of the
    last ones.  Sorting by anything but [last_used] always succeeds;
    sorting by [last_used] raises [TypeError] when one app has a last use
    and another has none. *)
Theorem app_statistics_tool :
  forall limit sort_by min_entries db,
    (sort_by <> "last_used"%string ->
     exists out, Apps._get_app_statistics limit sort_by min_entries db = Ok out) /\
    (forall a b ta,
       In a (Terms.eligible min_entries db) -> In b (Terms.eligible min_entries db) ->
       Apps.last_used a = Some ta -> ta <> ""%string -> Apps.last_used b = None ->
       Apps._get_app_statistics limit "last_used" min_entries db = Raise TypeError) /\
    (forall out,
       Apps._get_app_statistics limit sort_by min_entries db = Ok out ->
       (forall a, In a out ->
                  In a (Apps.get_apps db) /\ min_entries <= Apps.total_entries a) /\
       StronglySorted (Terms.sorts_before sort_by) out /\
       Z.of_nat (List.length out)
       = if limit <? 0
         then Z.max 0 (Z.of_nat (List.length (Terms.eligible min_entries db)) + limit)
         else Z.min (Z.of_nat (List.length (Terms.eligible min_entries db))) limit).
Proof.
  intros limit sort_by min_entries db.
  unfold Apps._get_app_statistics. fold (Terms.eligible min_entries db).
  split; [| split].
  - intros Hne.
    assert (Hc : Apps.comparable (map (Apps.sort_value_of sort_by)
                                    (Terms.eligible min_entries db)) = true).
    { unfold Apps.comparable. apply orb_true_iff. right. apply forallb_forall.
      intros v Hv. apply in_map_iff in Hv. destruct Hv as (a & <- & _).
      rewrite (numbers_unless_last_used sort_by a Hne). reflexivity. }
    rewrite Hc. eexists. reflexivity.
  - intros a b ta Ha Hb Hta Hne Hnone.
    assert (Hc : Apps.comparable (map (Apps.sort_value_of "last_used")
                                    (Terms.eligible min_entries db)) = false).
    { unfold Apps.comparable. apply orb_false_iff. split.
      - apply not_true_is_false. intros H. rewrite forallb_forall in H.
        specialize (H (Apps.sort_value_of "last_used" b)
                      (in_map _ _ _ Hb)).
        unfold Apps.sort_value_of in H. cbn in H. rewrite Hnone in H. discriminate H.
      - apply not_true_is_false. intros H. rewrite forallb_forall in H.
        specialize (H (Apps.sort_value_of "last_used" a)
                      (in_map _ _ _ Ha)).
        unfold Apps.sort_value_of in H. cbn in H. rewrite Hta in H.
        destruct ta; [contradiction Hne; reflexivity | discriminate H]. }
    rewrite Hc. reflexivity.
  - intros out H.
    destruct (Apps.comparable (map (Apps.sort_value_of sort_by)
                                 (Terms.eligible min_entries db))) eqn:Hc;
      [| discriminate H].
    injection H as <-.
    pose proof (sort_by_perm sort_by (Terms.eligible min_entries db)) as Hperm.
    split; [| split].
    + intros a Ha. apply slice_to_In in Ha. apply (Permutation_in _ Hperm) in Ha.
      unfold Terms.eligible in Ha. apply filter_In in Ha. destruct Ha as [Hin Hmin].
      split; [exact Hin | apply Z.leb_le; exact Hmin].
    + apply comparable_kind in Hc. destruct Hc as [kind Hkind].
      unfold Apps.slice_to. destruct (limit <? 0); apply firstn_sorted;
        apply (sort_by_sorted sort_by kind); intros x Hx; apply Hkind;
        apply in_map; exact Hx.
    + rewrite slice_to_length, (Permutation_length Hperm). reflexivity.
Qed.

Lemma app_statistics_tool_witness :
  exists out, Apps._get_app_statistics 0 "words" 1 Samples.morning = Ok out.
Proof.
  apply (proj1 (app_statistics_tool 0 "words" 1 Samples.morning)).
  discriminate.
Defined.

(** ** The summary of a conversation *)

Lemma take_cons :
  forall n c s, Lookup.take (S n) (String c s) = String c (Lookup.take n s).
Proof. reflexivity. Qed.

Lemma take_split :
  forall n s,
    exists rest, s = (Lookup.take n s ++ rest)%string /\
                 String.length (Lookup.take n s) = Nat.min n (String.length s).
Proof.
  induction n as [| n IH]; intros s.
  - exists s. destruct s; split; reflexivity.
  - destruct s as [| c s].
    + exists ""%string. split; reflexivity.
    + destruct (IH s) as (rest & Hs & Hlen). exists rest. rewrite take_cons. split.
      * simpl. rewrite <- Hs. reflexivity.
      * simpl. rewrite Hlen. reflexivity.
Qed.

Lemma take_app_exact :
  forall a b, Lookup.take (String.length a) (a ++ b)%string = a.
Proof.
  induction a as [| c a IH]; intros b.
  - destruct b; reflexivity.
  - simpl String.length. simpl append. rewrite take_cons, IH. reflexivity.
Qed.

Lemma rfind_blank_spec :
  forall s i,
    Conversation.rfind_blank s = Some i ->
    exists a b, s = (a ++ String " " b)%string /\ String.length a = i.
Proof.
  induction s as [| c s IH]; intros i H; simpl in H.
  - discriminate H.
  - destruct (Conversation.rfind_blank s) as [j |].
    + injection H as <-. destruct (IH j eq_refl) as (a & b & Hs & Hlen).
      exists (String c a), b. split; [simpl; rewrite Hs; reflexivity | simpl; lia].
    + destruct (Ascii.eqb c " ") eqn:E; [| discriminate H].
      injection H as <-. apply Ascii.eqb_eq in E. subst c.
      exists ""%string, s. split; reflexivity.
Qed.

Lemma append_length :
  forall a b, String.length (a ++ b)%string = (String.length a + String.length b)%nat.
Proof.
  induction a as [| c a IH]; intros b; simpl; [reflexivity | rewrite IH; reflexivity].
Qed.

Lemma append_assoc :
  forall a b c, ((a ++ b) ++ c)%string = (a ++ (b ++ c))%string.
Proof.
  induction a as [| x a IH]; intros b c; simpl; [reflexivity | rewrite IH; reflexivity].
Qed.

Lemma summary_of_long_text :
  forall c,
    Conversation.entries c <> [] ->
    (100 < String.length (Conversation.full_text c))%nat ->
    exists kept rest,
      Conversation.full_text c = (kept ++ rest)%string /\
      Conversation.summary c = (kept ++ "...")%string /\
      (50 < String.length kept <= 100)%nat /\
      ((String.length kept < 100)%nat -> exists rest', rest = String " " rest').
Proof.
  intros c Hne Hlong. unfold Conversation.summary.
  destruct (Conversation.entries c) as [| e es]; [contradiction Hne; reflexivity |].
  destruct (String.length (Conversation.full_text c) <=? 100)%nat eqn:El;
    [apply Nat.leb_le in El; lia |].
  destruct (take_split 100 (Conversation.full_text c)) as (rest0 & Hsplit & Hlen).
  rewrite Nat.min_l in Hlen by lia.
  destruct (Conversation.rfind_blank (Lookup.take 100 (Conversation.full_text c)))
    as [i |] eqn:Er.
  - destruct (50 <? i)%nat eqn:Ei.
    + apply Nat.ltb_lt in Ei.
      destruct (rfind_blank_spec _ _ Er) as (a & b & Ha & Hi).
      assert (Hkept : Lookup.take i (Lookup.take 100 (Conversation.full_text c)) = a).
      { rewrite Ha at 1. rewrite <- Hi. apply take_app_exact. }
      rewrite Hkept. exists a, (String " " (b ++ rest0))%string.
      split; [| split; [reflexivity | split]].
      * rewrite Hsplit at 1. rewrite Ha. rewrite append_assoc. reflexivity.
      * rewrite Ha, append_length in Hlen. simpl in Hlen. lia.
      * intros _. eexists. reflexivity.
    + exists (Lookup.take 100 (Conversation.full_text c)), rest0.
      split; [exact Hsplit |]. split; [reflexivity |]. split; [lia |]. intros H. lia.
  - exists (Lookup.take 100 (Conversation.full_text c)), rest0.
    split; [exact Hsplit |]. split; [reflexivity |]. split; [lia |]. intros H. lia.
Qed.

(** X29.  The summary of a conversation is short: never more than 103
    characters.  A text of at most 100 characters is its own summary; a
    longer one is cut to a beginning of 51 to 100 characters followed by
    three dots, and a beginning shorter than 100 characters ends where a
    blank follows, so at the end of a word. *)
Theorem summary_is_short :
  forall c,
    (String.length (Conversation.summary c) <= 103)%nat /\
    (Conversation.entries c <> [] ->
     ((String.length (Conversation.full_text c) <= 100)%nat ->
      Conversation.summary c = Conversation.full_text c) /\
     ((100 < String.length (Conversation.full_text c))%nat ->
      exists kept rest,
        Conversation.full_text c = (kept ++ rest)%string /\
        Conversation.summary c = (kept ++ "...")%string /\
        (50 < String.length kept <= 100)%nat /\
        ((String.length kept < 100)%nat -> exists rest', rest = String " " rest'))).
Proof.
  intros c. split.
  - destruct (Conversation.entries c) as [| e es] eqn:Ee.
    + unfold Conversation.summary. rewrite Ee. simpl. lia.
    + destruct (String.length (Conversation.full_text c) <=? 100)%nat eqn:El.
      * unfold Conversation.summary. rewrite Ee, El. apply Nat.leb_le in El. lia.
      * apply Nat.leb_gt in El.
        destruct (summary_of_long_text c) as (kept & rest & _ & Hs & Hk & _);
          [rewrite Ee; discriminate | exact El |].
        rewrite Hs, append_length. simpl. lia.
  - intros Hne. split.
    + intros Hshort. unfold Conversation.summary.
      destruct (Conversation.entries c); [contradiction Hne; reflexivity |].
      apply Nat.leb_le in Hshort. rewrite Hshort. reflexivity.
    + apply summary_of_long_text. exact Hne.
Qed.

Lemma summary_is_short_witness :
  Conversation.summary Samples.talk = Conversation.full_text Samples.talk.
Proof.
  apply (proj1 (proj2 (summary_is_short Samples.talk) ltac:(discriminate))).
  vm_compute. lia.
Defined.

(** ** The histogram of the global statistics *)

Lemma same_status_eq : forall a b, Terms.same_status a b = true <-> a = b.
Proof.
  intros [x |] [y |]; simpl; split; try discriminate; try reflexivity.
  - intros H. apply String.eqb_eq in H. congruence.
  - intros H. injection H as ->. apply String.eqb_refl.
Qed.

Lemma same_status_refl : forall a, Terms.same_status a a = true.
Proof. intros a. apply same_status_eq. reflexivity. Qed.

Lemma key_compare_refl : forall a, Parser.key_compare a a = Eq.
Proof. intros [x |]; simpl; [apply compare_refl | reflexivity]. Qed.

Lemma key_compare_eq : forall a b, Parser.key_compare a b = Eq -> a = b.
Proof.
  intros [x |] [y |]; simpl; try discriminate; [| reflexivity].
  intros H. apply compare_eq in H. congruence.
Qed.

Lemma key_compare_antisym :
  forall a b, Parser.key_compare b a = CompOpp (Parser.key_compare a b).
Proof. intros [x |] [y |]; simpl; try reflexivity. apply compare_antisym. Qed.

Lemma key_compare_lt_trans :
  forall a b c,
    Parser.key_compare a b = Lt -> Parser.key_compare b c = Lt ->
    Parser.key_compare a c = Lt.
Proof.
  intros [x |] [y |] [z |]; simpl; try discriminate; try reflexivity.
  apply compare_lt_trans.
Qed.

Lemma bump_keys :
  forall k groups h,
    In h (Parser.bump k groups) ->
    fst h = k \/ exists g, In g groups /\ fst g = fst h.
Proof.
  intros k groups h. induction groups as [| [k' n] rest IH]; simpl.
  - intros [<- | []]. left. reflexivity.
  - destruct (Parser.key_compare k k') eqn:E.
    + intros [<- | H].
      * right. exists (k', n). split; [left; reflexivity | reflexivity].
      * right. exists h. split; [right; exact H | reflexivity].
    + intros [<- | [<- | H]].
      * left. reflexivity.
      * right. exists (k', n). split; [left; reflexivity | reflexivity].
      * right. exists h. split; [right; exact H | reflexivity].
    + intros [<- | H].
      * right. exists (k', n). split; [left; reflexivity | reflexivity].
      * destruct (IH H) as [Hk | (g & Hg & Hfst)]; [left; exact Hk |].
        right. exists g. split; [right; exact Hg | exact Hfst].
Qed.

Lemma bump_sorted :
  forall k groups,
    StronglySorted Terms.group_before groups ->
    StronglySorted Terms.group_before (Parser.bump k groups).
Proof.
  intros k groups H. induction H as [| [k' n] rest Hs IH Hall]; simpl.
  - constructor; constructor.
  - destruct (Parser.key_compare k k') eqn:E.
    + constructor; [exact Hs | exact Hall].
    + constructor.
      * constructor; assumption.
      * constructor; [exact E |].
        rewrite Forall_forall in *. intros h Hh. unfold Terms.group_before in *.
        cbn [fst] in *. apply (key_compare_lt_trans k k' (fst h) E (Hall h Hh)).
    + constructor; [exact IH |].
      rewrite Forall_forall in *. intros h Hh. unfold Terms.group_before in *.
      cbn [fst] in *.
      apply bump_keys in Hh. destruct Hh as [Hk | (g & Hg & Hfst)].
      * rewrite Hk. rewrite (key_compare_antisym k k'), E. reflexivity.
      * rewrite <- Hfst. apply (Hall g Hg).
Qed.

Lemma bump_count :
  forall k' k groups,
    Terms.group_count k' (Parser.bump k groups)
    = Terms.group_count k' groups + (if Terms.same_status k k' then 1 else 0).
Proof.
  intros k' k groups. unfold Terms.group_count.
  induction groups as [| [k0 n] rest IH]; simpl.
  - destruct (Terms.same_status k k'); reflexivity.
  - destruct (Parser.key_compare k k0) eqn:E; cbn [filter fst].
    + apply key_compare_eq in E. subst k0.
      destruct (Terms.same_status k k'); cbn [map snd]; [| lia].
      rewrite !sum_Z_cons. lia.
    + destruct (Terms.same_status k k'); cbn [map snd].
      * rewrite sum_Z_cons. lia.
      * lia.
    + destruct (Terms.same_status k0 k') eqn:E0; cbn [map snd].
      * rewrite !sum_Z_cons, IH. lia.
      * exact IH.
Qed.

Lemma bump_total :
  forall k groups,
    Parser.sum_Z (map snd (Parser.bump k groups)) = Parser.sum_Z (map snd groups) + 1 /\
    (Forall (fun g => 0 <= snd g) groups ->
     Forall (fun g => 0 <= snd g) (Parser.bump k groups)).
Proof.
  intros k groups. induction groups as [| [k0 n] rest [IH1 IH2]]; simpl.
  - split; [reflexivity |]. intros _. constructor; [simpl; lia | constructor].
  - destruct (Parser.key_compare k k0); cbn [map snd].
    + split; [rewrite !sum_Z_cons; lia |].
      intros H. inversion H; subst. constructor; [simpl in *; lia | assumption].
    + split; [rewrite !sum_Z_cons; lia |].
      intros H. constructor; [simpl; lia | exact H].
    + split; [rewrite !sum_Z_cons, IH1; lia |].
      intros H. inversion H; subst. constructor; [assumption | apply IH2; assumption].
Qed.

Lemma groups_of_statuses :
  forall (db : Parser.database) groups,
    StronglySorted Terms.group_before groups ->
    Forall (fun g => 0 <= snd g) groups ->
    let groups' := fold_left (fun groups row => Parser.bump (Parser.status row) groups)
                     db groups in
    StronglySorted Terms.group_before groups' /\
    Forall (fun g => 0 <= snd g) groups' /\
    Parser.sum_Z (map snd groups')
    = Parser.sum_Z (map snd groups) + Z.of_nat (List.length db) /\
    forall k, Terms.group_count k groups'
              = Terms.group_count k groups + Terms.rows_with_status k db.
Proof.
  induction db as [| r db IH]; intros groups Hs Hpos; cbn [fold_left].
  - split; [exact Hs |]. split; [exact Hpos |]. split; [simpl; lia |].
    intros k. unfold Terms.rows_with_status. simpl. lia.
  - destruct (bump_total (Parser.status r) groups) as [Ht Hp].
    destruct (IH (Parser.bump (Parser.status r) groups) (bump_sorted _ _ Hs) (Hp Hpos))
      as (H1 & H2 & H3 & H4).
    split; [exact H1 |]. split; [exact H2 |]. split.
    + rewrite H3, Ht. cbn [List.length]. lia.
    + intros k. rewrite H4, bump_count. unfold Terms.rows_with_status. cbn [filter].
      destruct (Terms.same_status (Parser.status r) k); cbn [List.length]; lia.
Qed.

Lemma sorted_groups_NoDup :
  forall groups : list (option string * Z),
    StronglySorted Terms.group_before groups -> NoDup (map fst groups).
Proof.
  intros groups H. induction H as [| g rest Hs IH Hall]; simpl.
  - constructor.
  - constructor; [| exact IH].
    intros Hin. apply in_map_iff in Hin. destruct Hin as (h & Hfst & Hh).
    rewrite Forall_forall in Hall. specialize (Hall h Hh). unfold Terms.group_before in Hall.
    rewrite Hfst, key_compare_refl in Hall. discriminate Hall.
Qed.

Lemma insert_count_perm :
  forall g l, Permutation (Parser.insert_count g l) (g :: l).
Proof.
  intros g l. induction l as [| x l IH]; simpl.
  - apply Permutation_refl.
  - destruct (snd x <=? snd g).
    + apply Permutation_refl.
    + apply perm_trans with (x :: g :: l); [apply perm_skip; exact IH | apply perm_swap].
Qed.

Lemma order_by_count_desc_perm :
  forall groups, Permutation (Parser.order_by_count_desc groups) groups.
Proof.
  assert (H : forall groups acc,
            Permutation (fold_left (fun sorted g => Parser.insert_count g sorted) groups acc)
                        (groups ++ acc)).
  { induction groups as [| g groups IH]; intros acc; cbn [fold_left].
    - apply Permutation_refl.
    - apply (perm_trans (IH _)). simpl.
      apply perm_trans with (groups ++ g :: acc).
      + apply Permutation_app_head. apply insert_count_perm.
      + apply Permutation_sym. apply Permutation_middle. }
  intros groups. unfold Parser.order_by_count_desc.
  rewrite <- (app_nil_r groups) at 2. apply H.
Qed.

Lemma count_in_absent :
  forall k (d : list (string * Z)), ~ In k (map fst d) -> Terms.count_in d k = 0.
Proof.
  intros k d. unfold Terms.count_in. induction d as [| [k0 v] d IH]; simpl; intros H.
  - reflexivity.
  - destruct (String.eqb k0 k) eqn:E.
    + apply String.eqb_eq in E. subst k0. exfalso. apply H. left. reflexivity.
    + apply IH. intros Hin. apply H. right. exact Hin.
Qed.

Lemma dict_set_keys :
  forall k v d k', In k' (map fst (Parser.dict_set k v d)) <-> k' = k \/ In k' (map fst d).
Proof.
  intros k v d k'. induction d as [| [k0 v0] d IH]; simpl.
  - split; [intros [H | []]; left; symmetry; exact H | intros [H | []]; left; symmetry; exact H].
  - destruct (String.eqb k k0) eqn:E; simpl.
    + apply String.eqb_eq in E. subst k0. split.
      * intros [H | H]; [left; symmetry; exact H | right; right; exact H].
      * intros [H | [H | H]]; [left; symmetry; exact H | left; exact H | right; exact H].
    + rewrite IH. split.
      * intros [H | [H | H]]; [right; left; exact H | left; exact H | right; right; exact H].
      * intros [H | [H | H]]; [right; left; exact H | left; exact H | right; right; exact H].
Qed.

Lemma dict_set_NoDup :
  forall k v d, NoDup (map fst d) -> NoDup (map fst (Parser.dict_set k v d)).
Proof.
  intros k v d. induction d as [| [k0 v0] d IH]; simpl; intros H.
  - constructor; [intros [] | constructor].
  - inversion H as [| x xs Hnot Hrest]; subst.
    destruct (String.eqb k k0) eqn:E; simpl.
    + constructor; assumption.
    + constructor; [| apply IH; exact Hrest].
      intros Hin. apply dict_set_keys in Hin. destruct Hin as [Hin | Hin].
      * subst k0. rewrite String.eqb_refl in E. discriminate E.
      * apply Hnot. exact Hin.
Qed.

Lemma dict_set_count :
  forall k v d k',
    NoDup (map fst d) ->
    Terms.count_in (Parser.dict_set k v d) k'
    = if String.eqb k k' then v else Terms.count_in d k'.
Proof.
  intros k v d k'. induction d as [| [k0 v0] d IH]; intros Hnd.
  - unfold Terms.count_in. simpl. destruct (String.eqb k k'); reflexivity.
  - inversion Hnd as [| x xs Hnot Hrest]; subst. cbn [Parser.dict_set].
    destruct (String.eqb k k0) eqn:E.
    + apply String.eqb_eq in E. subst k0.
      destruct (String.eqb k k') eqn:Ek.
      * apply String.eqb_eq in Ek. subst k'.
        pose proof (count_in_absent k d Hnot) as Habs.
        unfold Terms.count_in in *. cbn [filter fst]. rewrite String.eqb_refl.
        cbn [map snd]. rewrite sum_Z_cons, Habs. lia.
      * unfold Terms.count_in. cbn [filter fst]. rewrite Ek. reflexivity.
    + specialize (IH Hrest). unfold Terms.count_in in *. cbn [filter fst].
      destruct (String.eqb k0 k') eqn:E0; cbn [map snd].
      * rewrite !sum_Z_cons, IH.
        destruct (String.eqb k k') eqn:Ek; [| reflexivity].
        apply String.eqb_eq in Ek. apply String.eqb_eq in E0. subst.
        rewrite String.eqb_refl in E. discriminate E.
      * exact IH.
Qed.

Lemma dict_set_sum :
  forall k v d,
    0 <= v -> Forall (fun kv => 0 <= snd kv) d ->
    Terms.sum_counts (Parser.dict_set k v d) <= Terms.sum_counts d + v /\
    Forall (fun kv => 0 <= snd kv) (Parser.dict_set k v d).
Proof.
  intros k v d Hv. induction d as [| [k0 v0] d IH]; intros H; simpl.
  - split; [lia |]. constructor; [simpl; lia | constructor].
  - inversion H as [| x xs Hx Hrest]; subst. simpl in Hx.
    destruct (String.eqb k k0); simpl.
    + split; [lia |]. constructor; [simpl; lia | exact Hrest].
    + destruct (IH Hrest) as [H1 H2]. split; [lia |]. constructor; [simpl; lia | exact H2].
Qed.

Lemma status_key_proper :
  forall k s,
    s <> ""%string -> s <> "unknown"%string ->
    String.eqb (Parser.status_key k) s = Terms.same_status k (Some s).
Proof.
  intros k s H1 H2.
  assert (Hu : String.eqb "unknown" s = false)
    by (apply String.eqb_neq; intros H; apply H2; symmetry; exact H).
  assert (He : String.eqb "" s = false)
    by (apply String.eqb_neq; intros H; apply H1; symmetry; exact H).
  destruct k as [[| c t] |]; unfold Parser.status_key, Terms.same_status, PyStr.truthy.
  - rewrite Hu, He. reflexivity.
  - reflexivity.
  - exact Hu.
Qed.

Lemma breakdown_proper :
  forall s gs d,
    s <> ""%string -> s <> "unknown"%string ->
    NoDup (map fst gs) -> NoDup (map fst d) ->
    Terms.count_in
      (fold_left (fun d g => Parser.dict_set (Parser.status_key (fst g)) (snd g) d) gs d) s
    = match find (fun g => Terms.same_status (fst g) (Some s)) gs with
      | Some g => snd g
      | None => Terms.count_in d s
      end.
Proof.
  intros s gs. induction gs as [| g gs IH]; intros d H1 H2 Hgs Hd; cbn [fold_left find].
  - reflexivity.
  - inversion Hgs as [| x xs Hnot Hrest]; subst.
    rewrite (IH _ H1 H2 Hrest (dict_set_NoDup _ _ _ Hd)).
    rewrite (dict_set_count _ _ _ _ Hd), (status_key_proper _ _ H1 H2).
    destruct (Terms.same_status (fst g) (Some s)) eqn:E.
    + destruct (find (fun g0 => Terms.same_status (fst g0) (Some s)) gs) as [g' |] eqn:Ef;
        [| reflexivity].
      exfalso. apply find_some in Ef. destruct Ef as [Hin Hk].
      apply same_status_eq in E. apply same_status_eq in Hk.
      apply Hnot. rewrite E, <- Hk. apply in_map. exact Hin.
    + reflexivity.
Qed.

Lemma breakdown_bound :
  forall gs d,
    Forall (fun g => 0 <= snd g) gs -> Forall (fun kv => 0 <= snd kv) d ->
    Terms.sum_counts
      (fold_left (fun d g => Parser.dict_set (Parser.status_key (fst g)) (snd g) d) gs d)
    <= Terms.sum_counts d + Parser.sum_Z (map snd gs).
Proof.
  induction gs as [| g gs IH]; intros d Hgs Hd; cbn [fold_left map].
  - unfold Parser.sum_Z. simpl. lia.
  - inversion Hgs as [| x xs Hx Hrest]; subst.
    destruct (dict_set_sum (Parser.status_key (fst g)) (snd g) d Hx Hd) as [H1 H2].
    specialize (IH _ Hrest H2). rewrite sum_Z_cons. lia.
Qed.

Lemma group_count_none :
  forall k (groups : list (option string * Z)),
    (forall g, In g groups -> Terms.same_status (fst g) k = false) ->
    Terms.group_count k groups = 0.
Proof.
  intros k groups H. unfold Terms.group_count.
  rewrite (filter_none_rows _ _ groups H). reflexivity.
Qed.

Lemma group_count_of_key :
  forall k v (groups : list (option string * Z)),
    NoDup (map fst groups) -> In (k, v) groups -> Terms.group_count k groups = v.
Proof.
  intros k v groups.
  induction groups as [| [k0 v0] rest IH]; intros Hnd Hin.
  - destruct Hin.
  - simpl in Hnd. inversion Hnd as [| x xs Hnot Hrest]; subst.
    destruct Hin as [Hin | Hin].
    + apply pair_equal_spec in Hin. destruct Hin as [-> ->].
      assert (Hz : Terms.group_count k rest = 0).
      { apply group_count_none. intros g Hg.
        destruct (Terms.same_status (fst g) k) eqn:E; [| reflexivity].
        apply same_status_eq in E. exfalso. apply Hnot. rewrite <- E.
        apply in_map. exact Hg. }
      unfold Terms.group_count in *. cbn [filter fst]. rewrite same_status_refl.
      cbn [map snd]. rewrite sum_Z_cons, Hz. lia.
    + specialize (IH Hrest Hin). unfold Terms.group_count in *. cbn [filter fst].
      destruct (Terms.same_status k0 k) eqn:E.
      * apply same_status_eq in E. subst k0. exfalso. apply Hnot.
        apply (in_map fst) in Hin. exact Hin.
      * exact IH.
Qed.

(** X30.  The histogram of the global statistics holds, for every status
    that is neither empty nor the word [unknown], exactly the number of
    stored rows bearing it; no status is listed twice; and the counts of
    the histogram never add up to more than the total of the entries.
    (The rows without status, with the empty status and with the status
    [unknown] share the one key [unknown], which holds the count of one of
    the three groups only.) *)
Theorem global_status_histogram :
  forall db : Parser.database,
    let s := Parser.get_statistics db in
    (forall status,
       status <> ""%string -> status <> "unknown"%string ->
       Terms.count_in (Parser.status_breakdown s) status
       = Terms.rows_with_status (Some status) db) /\
    NoDup (map fst (Parser.status_breakdown s)) /\
    Terms.sum_counts (Parser.status_breakdown s) <= Parser.total_entries s.
Proof.
  intros db s. unfold s, Parser.get_statistics.
  cbn [Parser.status_breakdown Parser.total_entries].
  destruct (groups_of_statuses db [] (SSorted_nil _) (Forall_nil _))
    as (Hs & Hpos & Hsum & Hcount).
  cbv zeta in Hs, Hpos, Hsum, Hcount. fold (Parser.group_by_status db) in Hs, Hpos, Hsum, Hcount.
  pose proof (order_by_count_desc_perm (Parser.group_by_status db)) as Hperm.
  pose proof (sorted_groups_NoDup _ Hs) as Hnd.
  assert (Hnd' : NoDup (map fst (Parser.order_by_count_desc (Parser.group_by_status db)))).
  { apply (Permutation_NoDup (l := map fst (Parser.group_by_status db))); [| exact Hnd].
    apply Permutation_map. apply Permutation_sym. exact Hperm. }
  unfold Parser.breakdown_of. split; [| split].
  - intros status H1 H2.
    rewrite (breakdown_proper status _ [] H1 H2 Hnd' (NoDup_nil _)).
    specialize (Hcount (Some status)).
    replace (Terms.group_count (Some status) []) with 0 in Hcount by reflexivity.
    rewrite Z.add_0_l in Hcount. rewrite <- Hcount.
    destruct (find (fun g => Terms.same_status (fst g) (Some status))
                (Parser.order_by_count_desc (Parser.group_by_status db))) as [[k v] |] eqn:Ef.
    + apply find_some in Ef. destruct Ef as [Hin Hk]. cbn [fst snd] in *.
      apply same_status_eq in Hk. subst k.
      apply (Permutation_in _ Hperm) in Hin.
      symmetry. apply (group_count_of_key _ _ _ Hnd Hin).
    + symmetry. apply group_count_none. intros g Hg.
      apply (Permutation_in _ (Permutation_sym Hperm)) in Hg.
      apply (find_none _ _ Ef g Hg).
  - assert (H : forall gs d, NoDup (map fst d) ->
                  NoDup (map fst (fold_left
                                    (fun d g => Parser.dict_set (Parser.status_key (fst g))
                                                  (snd g) d) gs d))).
    { induction gs as [| g gs IH]; intros d Hd; cbn [fold_left]; [exact Hd |].
      apply IH. apply dict_set_NoDup. exact Hd. }
    apply H. constructor.
  - assert (Hpos' : Forall (fun g => 0 <= snd g)
                      (Parser.order_by_count_desc (Parser.group_by_status db))).
    { rewrite Forall_forall in *. intros g Hg. apply Hpos.
      apply (Permutation_in _ Hperm). exact Hg. }
    pose proof (breakdown_bound _ [] Hpos' (Forall_nil _)) as Hb.
    rewrite (sum_Z_perm _ _ (Permutation_map snd Hperm)), Hsum in Hb.
    change (Terms.sum_counts []) with 0 in Hb.
    change (Parser.sum_Z (map snd (@nil (option string * Z)))) with 0 in Hb. lia.
Qed.

Lemma global_status_histogram_witness :
  Terms.count_in (Parser.status_breakdown (Parser.get_statistics Samples.morning)) "formatted"
  = Terms.rows_with_status (Some "formatted"%string) Samples.morning.
Proof.
  apply (proj1 (global_status_histogram Samples.morning)); discriminate.
Defined.
